(** * DecisionTreeRegression.py: a shallow embedding and its properties

    The script is a linear pipeline over a data-processing engine: load two
    files, derive month/day/hour_range from a UNIX timestamp, assemble a
    feature vector, split, train or load a decision tree, report.

    What the script itself decides is modelled concretely: the dataframe
    algebra it drives (name resolution, [withColumn], [drop], casts, null
    filling, random splitting), its Python control flow (exception guards,
    tuple unpacking of [None], [list.remove]) and the model store on disk.
    What only the engine or the operating system decides (calendar
    arithmetic of the session time zone, string parsing, tree induction, the
    random stream, faults of the file system) is a field of the class
    [Engine]; the theorems hold for every engine, the one on reloading a
    model for every engine whose models are the library's decision trees,
    persisted as the library does it ([Trees]).

    The engine's dataframe operations follow its documented behaviour:
    - a dataframe is a list of named, typed fields and a list of rows;
      names may repeat and are compared ignoring case;
    - resolving a name ([df[name]], [col(name)], [select]) fails unless
      exactly one column matches; such analysis errors are raised at once;
    - [withColumn] replaces every matching column in place or appends;
      [drop] of a resolved column removes that one column;
    - errors that only show when rows are computed (a null inside an
      assembled vector, a failing fit) belong to the engine: they are what
      [collect_fault], [fit], [evaluate] return.
    Dataframes are flat: columns of atomic types and vectors. A name that
    is not a literal of the script is taken as written when it is plain;
    with a dot or a back quote it is refused ([col]). *)

From Stdlib Require Import ZArith List String Ascii Bool Lia Permutation.
From Stdlib Require Import Floats.SpecFloat.
From stdpp Require Import base option list gmap strings.

Local Open Scope string_scope.
Local Open Scope list_scope.
Local Open Scope Z_scope.

(** ** Python results *)

Inductive exn : Type :=
| IndexError
| TypeError
| ValueError
| AttributeError
| AnalysisException
| IllegalArgumentException
| OSError (errno : Z)
| Py4JJavaError (code : Z).

Inductive result (A : Type) : Type :=
| Ok (a : A)
| Raise (e : exn).
Arguments Ok {A} a.
Arguments Raise {A} e.

Definition rbind {A B} (r : result A) (k : A -> result B) : result B :=
  match r with
  | Ok a => k a
  | Raise e => Raise e
  end.

Declare Scope result_scope.
Delimit Scope result_scope with res.
Notation "x <- r ;; k" := (rbind r (fun x => k))
  (at level 100, r at next level, right associativity) : result_scope.

(** ** Cells: binary64 numbers, integers, strings *)

Definition double : Type := spec_float.

Definition prec : Z := 53.
Definition emax : Z := 1024.

Definition Z2double (z : Z) : double := binary_normalize prec emax z 0 false.
Definition double_div (x y : double) : double := SFdiv prec emax x y.
Definition double_add (x y : double) : double := SFadd prec emax x y.

Definition long_min : Z := - 2 ^ 63.
Definition long_max : Z := 2 ^ 63 - 1.
Definition int_min : Z := - 2 ^ 31.
Definition int_max : Z := 2 ^ 31 - 1.

Definition clamp (lo hi z : Z) : Z := Z.max lo (Z.min hi z).

(** [math.floor(x).toLong] on the JVM: NaN gives 0, out-of-range values
    saturate. *)
Definition double_floor_long (x : double) : Z :=
  match x with
  | S754_zero _ => 0
  | S754_nan => 0
  | S754_infinity s => if s then long_min else long_max
  | S754_finite s m e =>
      let n := cond_Zopp s (Zpos m) in
      clamp long_min long_max
        (if 0 <=? e then n * 2 ^ e else n / 2 ^ (- e))
  end.

(** [x.toInt] on the JVM: truncation toward zero, saturating. *)
Definition double_trunc_int (x : double) : Z :=
  match x with
  | S754_zero _ => 0
  | S754_nan => 0
  | S754_infinity s => if s then int_min else int_max
  | S754_finite s m e =>
      let n := cond_Zopp s (Zpos m) in
      clamp int_min int_max
        (if 0 <=? e then n * 2 ^ e else Z.quot n (2 ^ (- e)))
  end.

Definition wrap32 (z : Z) : Z := (z + 2 ^ 31) mod 2 ^ 32 - 2 ^ 31.

(** The column types of a flat dataframe: the atomic types the CSV and JSON
    readers infer, and the assembler's vector. Nested JSON objects and
    arrays (struct and array columns) are outside the model. *)
Inductive DataType : Type :=
| BooleanType
| IntegerType
| LongType
| DoubleType
| StringType
| TimestampType
| VectorUDT.

#[warnings="-register-all"] Inductive cell : Type :=
| VNull
| VBool (b : bool)
| VInt (z : Z)
| VDouble (x : double)
| VString (s : string)
| VTimestamp (micros : Z)
| VVector (xs : list cell).

Record StructField : Type := mkField { fname : string; dataType : DataType }.

Definition Row : Type := list cell.

Record DataFrame : Type := mkDF { schema : list StructField; rows : list Row }.

(** [df.columns] *)
Definition columns (df : DataFrame) : list string := map fname (schema df).

(** Every row has one cell per field. *)
Definition wf (df : DataFrame) : Prop :=
  Forall (fun r : Row => length r = length (schema df)) (rows df).

(** ** Name resolution

    The engine compares column names ignoring case
    (spark.sql.caseSensitive is false unless set; the script never sets it). *)

Definition lower_ascii (c : ascii) : ascii :=
  let n := nat_of_ascii c in
  if (Nat.leb 65 n && Nat.leb n 90)%bool then ascii_of_nat (n + 32) else c.

Fixpoint lower (s : string) : string :=
  match s with
  | EmptyString => EmptyString
  | String c s' => String (lower_ascii c) (lower s')
  end.

Definition resolver (a b : string) : bool := String.eqb (lower a) (lower b).

Definition named (name : string) (f : StructField) : bool :=
  resolver (fname f) name.

Fixpoint positions (name : string) (fs : list StructField) (i : nat) : list nat :=
  match fs with
  | [] => []
  | f :: fs' =>
      if named name f then i :: positions name fs' (S i)
      else positions name fs' (S i)
  end.

(** [df[name]]: the one column the name resolves to; the engine refuses a
    name that matches no column or several. *)
Definition resolve (df : DataFrame) (name : string) : result nat :=
  match positions name (schema df) 0 with
  | [i] => Ok i
  | _ => Raise AnalysisException
  end.

Definition col_at (i : nat) (r : Row) : cell := nth i r VNull.

(** A name the engine takes as it is written. To the parser behind
    [col(name)] and [df(name)] a dot selects a field of a struct column and
    back quotes quote a name. *)
Fixpoint plain_name (s : string) : bool :=
  match s with
  | EmptyString => true
  | String c s' =>
      (negb (Ascii.eqb c "." || Ascii.eqb c "`") && plain_name s')%bool
  end.

(** [col(name)] against a dataframe, for a name that is not a literal of
    the script: a plain name is resolved as [df[name]] is. The dataframes
    here have no struct columns, so a dotted name resolves to nothing;
    quoted names are not modelled and are refused too. *)
Definition col (df : DataFrame) (name : string) : result nat :=
  if plain_name name then resolve df name else Raise AnalysisException.

(** ** withColumn and drop *)

Fixpoint replace_cells (name : string) (v : cell)
    (fs : list StructField) (r : Row) : Row :=
  match fs, r with
  | f :: fs', c :: r' =>
      (if named name f then v else c) :: replace_cells name v fs' r'
  | _, _ => r
  end.

(** [df.withColumn(name, e)]: every column the name resolves to is replaced
    in place (and takes the given name); without one, the column is added
    last. *)
Definition with_field (name : string) (ty : DataType) (fs : list StructField)
  : list StructField :=
  if existsb (named name) fs
  then map (fun f => if named name f then mkField name ty else f) fs
  else fs ++ [mkField name ty].

Definition with_cell (name : string) (v : cell) (fs : list StructField)
    (r : Row) : Row :=
  if existsb (named name) fs then replace_cells name v fs r else r ++ [v].

Definition withColumn (name : string) (ty : DataType) (e : Row -> cell)
    (df : DataFrame) : DataFrame :=
  {| schema := with_field name ty (schema df);
     rows := map (fun r => with_cell name (e r) (schema df) r) (rows df) |}.

Fixpoint remove_at {A} (i : nat) (l : list A) : list A :=
  match l, i with
  | [], _ => []
  | _ :: l', O => l'
  | x :: l', S i' => x :: remove_at i' l'
  end.

(** [df.drop(c)] for a column object [c] that was resolved to position [i]:
    that one attribute leaves the projection. *)
Definition drop (i : nat) (df : DataFrame) : DataFrame :=
  {| schema := remove_at i (schema df);
     rows := map (remove_at i) (rows df) |}.

(** Position of attribute [j] once attribute [i] has left the projection. *)
Definition after_drop (i j : nat) : nat := if Nat.ltb j i then j else pred j.

(** ** The engine *)

(** The objects [decisionTreeRegression] builds (lines 96-109). *)
Record DecisionTreeRegressor : Type :=
  { featuresCol : string; labelCol : option string }.

Record ParamMap : Type := { maxDepth : Z; maxBins : Z }.

Record RegressionEvaluator : Type :=
  { predictionCol : string;
    evaluatorLabelCol : option string;
    metricName : string }.

Record CrossValidator : Type :=
  { estimator : DecisionTreeRegressor;
    estimatorParamMaps : list ParamMap;
    evaluator : RegressionEvaluator;
    numFolds : Z;
    parallelism : Z }.

(** What the engine alone decides. *)
Class Engine : Type := {
  (** session calendar: [from_unixtime(c, 'yyyy-MM-dd HH:mm:ss')],
      [to_timestamp(c)], [month(c)], [dayofmonth(c)], [hour(c)] on one cell *)
  from_unixtime : cell -> cell;
  to_timestamp : cell -> cell;
  month : cell -> cell;
  dayofmonth : cell -> cell;
  hour : cell -> cell;
  (** cast of a string cell to a numeric type *)
  cast_string : DataType -> string -> cell;
  (** the i-th output of the generator seeded for a sample *)
  xorshift : Z -> nat -> Z;
  (** exception, if any, an action (show, toPandas) meets on a dataframe *)
  collect_fault : DataFrame -> option exn;
  (** exception, if any, the gateway raises while the estimator objects for
      a label column are built *)
  gateway_fault : option string -> option exn;
  (** exception, if any, the operating system raises when a path is examined
      (a name longer than it allows, a directory that may not be searched);
      a path that merely is not there raises nothing *)
  path_fault : string -> option exn;
  (** fitted tree models and what is written to disk for one *)
  Model : Type;
  Artifact : Type;
  (** [dtcv.fit(trainDf).bestModel] *)
  fit : CrossValidator -> DataFrame -> result Model;
  (** [bestModel.write().overwrite().save(path)]: what lands on disk *)
  save : Model -> result Artifact;
  (** what a save that raises leaves at the path, if anything *)
  partial_save : Model -> option Artifact;
  (** [DecisionTreeRegressionModel.load(path)] on what is on disk *)
  load : Artifact -> result Model;
  (** prediction of a model for one features vector *)
  predict : Model -> cell -> cell;
  featureImportances : Model -> list double;
  toDebugString : Model -> string;
  (** [dtEvaluator.evaluate(predictions)] *)
  evaluate : RegressionEvaluator -> DataFrame -> result double;
}.

(** ** Column expressions *)

Section Expressions.
Context `{Engine}.

Definition is_zero (x : double) : bool :=
  match x with S754_zero _ => true | _ => false end.

Definition is_nan (x : double) : bool :=
  match x with S754_nan => true | _ => false end.

(** [c.cast(DoubleType())] on one cell *)
Definition cast_double (c : cell) : cell :=
  match c with
  | VNull => VNull
  | VBool b => VDouble (Z2double (if b then 1 else 0))
  | VInt z => VDouble (Z2double z)
  | VDouble x => VDouble x
  | VString s => cast_string DoubleType s
  | VTimestamp us => VDouble (double_div (Z2double us) (Z2double 1000000))
  | VVector _ => VNull
  end.

(** [c.cast("integer")] on one cell *)
Definition cast_integer (c : cell) : cell :=
  match c with
  | VNull => VNull
  | VBool b => VInt (if b then 1 else 0)
  | VInt z => VInt (wrap32 z)
  | VDouble x => VInt (double_trunc_int x)
  | VString s => cast_string IntegerType s
  | VTimestamp us => VInt (wrap32 (us / 1000000))
  | VVector _ => VNull
  end.

(** [a / b]: both sides become doubles; null when a side is null or the
    divisor is zero. *)
Definition divide (a b : cell) : cell :=
  match cast_double a, cast_double b with
  | VDouble x, VDouble y => if is_zero y then VNull else VDouble (double_div x y)
  | _, _ => VNull
  end.

(** [F.floor(c)]: a long *)
Definition floor (c : cell) : cell :=
  match c with
  | VInt z => VInt z
  | VDouble x => VInt (double_floor_long x)
  | VString s =>
      match cast_string DoubleType s with
      | VDouble x => VInt (double_floor_long x)
      | _ => VNull
      end
  | _ => VNull
  end.

(** The types [/] accepts on its left with an integer literal on its right. *)
Definition divisible (ty : DataType) : bool :=
  match ty with
  | IntegerType | LongType | DoubleType | StringType => true
  | BooleanType | TimestampType | VectorUDT => false
  end.

Definition type_at (i : nat) (df : DataFrame) : DataType :=
  nth i (map dataType (schema df)) StringType.

(** [F.floor(h.cast("integer")/3)], line 62 *)
Definition hour_range_of (h : cell) : cell :=
  floor (divide (cast_integer h) (VInt 3)).

(** ** filterTimestamp, lines 49-64

    Three statements, each rebinding [dataDf]. A column object such as
    [dataDf['timestamp2']] is resolved against the [dataDf] of the statement
    it is written in and then denotes that column by position; [withColumn]
    keeps positions, [drop] shifts them ([after_drop]). *)
Definition filterTimestamp (dataDf : DataFrame) : result DataFrame :=
  ((* lines 50-52 *)
   ts <- resolve dataDf "timestamp" ;;
   _ <- (if divisible (type_at ts dataDf) then Ok tt else Raise AnalysisException) ;;
   let df := withColumn "timestamp" StringType
               (fun r => from_unixtime (divide (col_at ts r) (VInt 1000))) dataDf in
   ts' <- resolve df "timestamp" ;;
   let dataDf := withColumn "timestamp2" TimestampType
                   (fun r => to_timestamp (col_at ts' r)) df in
   (* lines 54-59 *)
   c_m <- resolve dataDf "timestamp2" ;;
   let df := withColumn "month" IntegerType (fun r => month (col_at c_m r)) dataDf in
   c_d <- resolve dataDf "timestamp2" ;;
   let df := withColumn "day" IntegerType (fun r => dayofmonth (col_at c_d r)) df in
   c_h <- resolve dataDf "timestamp2" ;;
   let df := withColumn "hour" IntegerType (fun r => hour (col_at c_h r)) df in
   d1 <- resolve dataDf "timestamp" ;;
   let df := drop d1 df in
   d2 <- resolve dataDf "timestamp2" ;;
   let dataDf := drop (after_drop d1 d2) df in
   (* lines 61-64 *)
   h <- resolve dataDf "hour" ;;
   let df := withColumn "hour_range" LongType
               (fun r => hour_range_of (col_at h r)) dataDf in
   h' <- resolve dataDf "hour" ;;
   Ok (drop h' df))%res.

End Expressions.


(** ** The Python side: console, process state, exceptions *)

Inductive event : Type :=
| Print (s : string)
| PrintTraceback (e : exn)
| PrintException (e : exn)
| PrintSchema (fs : list StructField)
| PrintDescribe (df : DataFrame)
| Show (df : DataFrame) (n : nat)
| PrintRMSE (v : double)
| PrintImportance (feature : string) (importance : double)
| CallFit (cv : CrossValidator)
| CallSave (path : string)
| CallLoad (path : string).

Section Script.
Context `{Engine}.

(** What a run starts from and leaves behind: the command line, whether the
    engine can start, the data files as their readers parse them, the model
    directories on disk, the seed Python draws for the split, and what was
    printed and called so far (oldest first). *)
Record World : Type := mkWorld {
  argv : list string;
  engine_starts : bool;
  files : gmap string DataFrame;
  models : gmap string Artifact;
  seed : Z;
  trace : list event }.

Definition M (A : Type) : Type := World -> result A * World.

Definition ret {A} (a : A) : M A := fun w => (Ok a, w).
Definition raise {A} (e : exn) : M A := fun w => (Raise e, w).
Definition bind {A B} (m : M A) (k : A -> M B) : M B :=
  fun w => match m w with
           | (Ok a, w') => k a w'
           | (Raise e, w') => (Raise e, w')
           end.
Definition lift {A} (r : result A) : M A := fun w => (r, w).

(** The world once [evs] were printed or called. *)
Definition logged (evs : list event) (w : World) : World :=
  mkWorld (argv w) (engine_starts w) (files w) (models w) (seed w)
    (trace w ++ evs).

(** The world once the model directory [p] holds [a]. *)
Definition stored (p : string) (a : Artifact) (w : World) : World :=
  mkWorld (argv w) (engine_starts w) (files w) (<[p := a]> (models w))
    (seed w) (trace w).

Definition emit (ev : event) : M unit := fun w => (Ok tt, logged [ev] w).

Definition print (s : string) : M unit := emit (Print s).

(** [try: body / except Exception as e: print(traceback.format_exc());
    print(e); print(msg)]: the function falls off its end and yields [None]. *)
Definition try_except {A} (body : M A) (msg : string) : M (option A) :=
  fun w => match body w with
           | (Ok a, w') => (Ok (Some a), w')
           | (Raise e, w') =>
               bind (emit (PrintTraceback e)) (fun _ =>
               bind (emit (PrintException e)) (fun _ =>
               bind (print msg) (fun _ => ret None))) w'
           end.

End Script.

Declare Scope py_scope.
Delimit Scope py_scope with py.
Notation "x <- m ;; k" := (bind m (fun x => k))
  (at level 100, m at next level, right associativity) : py_scope.

Section Pipeline.
Context `{Engine}.
Local Open Scope py_scope.

(** [sys.argv[i]] *)
Definition sys_argv (i : nat) : M string := fun w =>
  match nth_error (argv w) i with
  | Some a => (Ok a, w)
  | None => (Raise IndexError, w)
  end.

(** [str + x] where [x] may be [None] *)
Definition str_add (s : string) (x : option string) : M string :=
  match x with
  | Some t => ret (s ++ t)%string
  | None => raise TypeError
  end.

(** [a, b = v] where [v] may be [None] *)
Definition unpack {A B} (v : option (A * B)) : M (A * B) :=
  match v with
  | Some p => ret p
  | None => raise TypeError
  end.

(** [x.attribute] where [x] may be [None] *)
Definition deref {A} (x : option A) : M A :=
  match x with
  | Some a => ret a
  | None => raise AttributeError
  end.

(** ** setLabel, lines 17-25 *)
Definition setLabel : M (option string) :=
  try_except
    (label <- sys_argv 1 ;;
     _ <- print ("Label -> " ++ label)%string ;;
     ret label)
    "Label Setting Error -> Cannot retrieve the label".

(** ** initialize, lines 29-43 *)

(** [SparkContext()], [SQLContext(sc)], [sc.setLogLevel("OFF")] *)
Definition SparkContext : M unit := fun w =>
  if engine_starts w then (Ok tt, w) else (Raise (Py4JJavaError 0), w).

(** [sqlContext.read...load(path)] and [sqlContext.read.json(path)] *)
Definition read (path : string) : M DataFrame := fun w =>
  match files w !! path with
  | Some df => (Ok df, w)
  | None => (Raise AnalysisException, w)
  end.

(** [df.withColumn(name, col(source).cast(DoubleType()))] *)
Definition withColumn_cast_double (name source : string) (df : DataFrame)
  : result DataFrame :=
  (i <- col df source ;;
   match type_at i df with
   | VectorUDT => Raise AnalysisException
   | _ => Ok (withColumn name DoubleType (fun r => cast_double (col_at i r)) df)
   end)%res.

Fixpoint mapM {A B} (f : A -> result B) (l : list A) : result (list B) :=
  match l with
  | [] => Ok []
  | a :: l' => (b <- f a ;; bs <- mapM f l' ;; Ok (b :: bs))%res
  end.

Definition numeric (ty : DataType) : bool :=
  match ty with
  | IntegerType | LongType | DoubleType => true
  | _ => false
  end.

(** The replacement literal, cast to the column's type. *)
Definition fill_value (ty : DataType) (value : double) : cell :=
  match ty with
  | DoubleType => VDouble value
  | _ => VInt (double_trunc_int value)
  end.

Definition fill_cell (ty : DataType) (value : double) (c : cell) : cell :=
  match c with
  | VNull => fill_value ty value
  | VDouble x =>
      match ty with
      | DoubleType => if is_nan x then VDouble value else c
      | _ => c
      end
  | _ => c
  end.

Fixpoint fill_cells (value : double) (subset : list nat) (i : nat)
    (fs : list StructField) (r : Row) : Row :=
  match fs, r with
  | f :: fs', c :: r' =>
      (if (numeric (dataType f) && existsb (Nat.eqb i) subset)%bool
       then fill_cell (dataType f) value c else c)
      :: fill_cells value subset (S i) fs' r'
  | _, _ => r
  end.

(** [df.na.fill(value=v, subset=names)] for a float [v]: in the numeric
    columns the names resolve to, null (and NaN in a double column) becomes
    [v]. *)
Definition na_fill (value : double) (subset : list string) (df : DataFrame)
  : result DataFrame :=
  (idxs <- mapM (resolve df) subset ;;
   Ok {| schema := schema df;
         rows := map (fill_cells value idxs 0 (schema df)) (rows df) |})%res.

Definition zero : double := S754_zero false.

(** Lines 30-32 start the engine outside the guard; line 36 reads
    [sys.argv[1]] twice, line 37 once more. *)
Definition initialize : M (option (DataFrame * DataFrame)) :=
  _ <- SparkContext ;;
  try_except
    (dataDf <- read "data/readings.csv" ;;
     newReading <- read "./data/newReading.json" ;;
     a <- sys_argv 1 ;;
     a' <- sys_argv 1 ;;
     newReading <- lift (withColumn_cast_double a a' newReading) ;;
     a'' <- sys_argv 1 ;;
     nr <- lift (na_fill zero [a''] newReading) ;;
     ret (dataDf, nr))
    "Dataset Loading Error -> Cannot read the label".

(** ** cacheDataframe, lines 68-72 *)
Definition action (df : DataFrame) : M unit :=
  match collect_fault df with
  | Some e => raise e
  | None => ret tt
  end.

Definition cacheDataframe (dataDf : DataFrame) : M unit :=
  _ <- emit (PrintSchema (schema dataDf)) ;;
  _ <- action dataDf ;;
  emit (PrintDescribe dataDf).

(** ** vectorizeDataframe, lines 80-83 *)

(** The types the assembler takes as input. *)
Definition assemblable (ty : DataType) : bool :=
  match ty with
  | BooleanType | IntegerType | LongType | DoubleType | VectorUDT => true
  | StringType | TimestampType => false
  end.

(** The assembler looks each input column up by its exact name, accepts
    numeric, boolean and vector columns, and then takes the name as a column
    ([dataset(c)]). *)
Definition input_column (df : DataFrame) (c : string) : result nat :=
  match find (fun f => String.eqb (fname f) c) (schema df) with
  | None => Raise IllegalArgumentException
  | Some f =>
      if assemblable (dataType f)
      then col df c
      else Raise IllegalArgumentException
  end.

Definition assemble (idxs : list nat) (r : Row) : cell :=
  VVector (flat_map (fun i => match col_at i r with
                              | VVector xs => xs
                              | c => [cast_double c]
                              end) idxs).

Definition vectorizeDataframe (dataDf : DataFrame) (features : list string)
  : result DataFrame :=
  (idxs <- mapM (input_column dataDf) features ;;
   if existsb (String.eqb "features") (columns dataDf)
   then Raise IllegalArgumentException
   else Ok {| schema := schema dataDf ++ [mkField "features" VectorUDT];
              rows := map (fun r => r ++ [assemble idxs r]) (rows dataDf) |})%res.

(** ** splitDataframe, lines 85-89 *)

(** The literals 0.7 and 0.3 as binary64. *)
Definition w07 : double := S754_finite false 6305039478318694 (-53).
Definition w03 : double := S754_finite false 5404319552844595 (-54).
Definition one : double := S754_finite false 4503599627370496 (-52).

(** A draw is [k * 2^-53] for a 53-bit [k]; it is compared exactly with a
    binary64 bound. *)
Definition draw (sd : Z) (i : nat) : Z := xorshift sd i mod 2 ^ 53.

Definition draw_ltb (k : Z) (b : double) : bool :=
  match b with
  | S754_zero _ => k <? 0
  | S754_nan => false
  | S754_infinity s => negb s
  | S754_finite s m e =>
      let v := cond_Zopp s (Zpos m) in
      if 0 <=? e + 53 then k <? v * 2 ^ (e + 53)
      else k * 2 ^ (- (e + 53)) <? v
  end.

Definition draw_geb (k : Z) (b : double) : bool :=
  match b with
  | S754_zero _ => 0 <=? k
  | S754_nan => false
  | S754_infinity s => s
  | S754_finite s m e =>
      let v := cond_Zopp s (Zpos m) in
      if 0 <=? e + 53 then v * 2 ^ (e + 53) <=? k
      else v <=? k * 2 ^ (- (e + 53))
  end.

(** The rows whose index, counted from [i], satisfies [p]. *)
Fixpoint rows_where (p : nat -> bool) (i : nat) (rs : list Row) : list Row :=
  match rs with
  | [] => []
  | r :: rs' =>
      if p i then r :: rows_where p (S i) rs' else rows_where p (S i) rs'
  end.

(** One cell of the split keeps the rows whose draw [x] has
    [lb <= x < ub]. *)
Definition in_cell (lb ub : double) (k : Z) : bool :=
  (draw_geb k lb && draw_ltb k ub)%bool.

Definition sample (lb ub : double) (sd : Z) (df : DataFrame) : DataFrame :=
  {| schema := schema df;
     rows := rows_where (fun i => in_cell lb ub (draw sd i)) 0 (rows df) |}.

Fixpoint scan_add (acc : double) (ws : list double) : list double :=
  match ws with
  | [] => [acc]
  | x :: ws' => acc :: scan_add (double_add acc x) ws'
  end.

Fixpoint sliding2 {A} (l : list A) : list (A * A) :=
  match l with
  | a :: ((b :: _) as l') => (a, b) :: sliding2 l'
  | _ => []
  end.

(** [df.randomSplit(weights, seed)] *)
Definition randomSplit (weights : list double) (sd : Z) (df : DataFrame)
  : list DataFrame :=
  let sum := fold_left double_add weights zero in
  let cum := scan_add zero (map (fun x => double_div x sum) weights) in
  map (fun b => sample (fst b) (snd b) sd df) (sliding2 cum).

(** [l[i]] *)
Definition item {A} (l : list A) (i : nat) : M A :=
  match nth_error l i with
  | Some a => ret a
  | None => raise IndexError
  end.

Definition splitDataframe (dataDf : DataFrame) : M (DataFrame * DataFrame) :=
  splits <- (fun w => (Ok (randomSplit [w07; w03] (seed w) dataDf), w)) ;;
  trainDf <- item splits 0 ;;
  testDf <- item splits 1 ;;
  ret (trainDf, testDf).

(** ** decisionTreeRegression, lines 94-114 *)

Definition paramGrid (depths bins : list Z) : list ParamMap :=
  flat_map (fun d => map (fun b => {| maxDepth := d; maxBins := b |}) bins) depths.

Definition decisionTreeRegression (label : option string)
  : M (option (CrossValidator * RegressionEvaluator)) :=
  try_except
    (_ <- match gateway_fault label with
          | Some e => raise e
          | None => ret tt
          end ;;
     let dt := {| featuresCol := "features"; labelCol := label |} in
     let dtParamGrid := paramGrid [2; 5; 10; 20; 30] [10; 20; 40; 80; 100] in
     let dtEvaluator := {| predictionCol := "prediction";
                           evaluatorLabelCol := label;
                           metricName := "rmse" |} in
     let dtcv := {| estimator := dt;
                    estimatorParamMaps := dtParamGrid;
                    evaluator := dtEvaluator;
                    numFolds := 5;
                    parallelism := 3 |} in
     ret (dtcv, dtEvaluator))
    "Model Creation Error -> Cannot perform the creation of the model".

(** ** trainOrLoad, lines 120-141 *)

Definition modelDir : string := "./TrainedModels/DecisionTreeBestModels/".

(** [Path(p).exists()]: whether something is at [p]; an error other than
    the path not being there is raised. *)
Definition path_exists (p : string) : M bool := fun w =>
  match path_fault p with
  | Some e => (Raise e, w)
  | None => (Ok (bool_decide (is_Some (models w !! p))), w)
  end.

(** The world once a save of [m] to [p] has raised: it may have written
    part of the directory. *)
Definition left_behind (m : Model) (p : string) (w : World) : World :=
  match partial_save m with
  | Some a => stored p a w
  | None => w
  end.

(** [m.write().overwrite().save(p)] *)
Definition write_overwrite_save (m : Model) (p : string) : M unit :=
  _ <- emit (CallSave p) ;;
  fun w => match save m with
           | Ok a => (Ok tt, stored p a w)
           | Raise e => (Raise e, left_behind m p w)
           end.

Definition load_model (p : string) : M Model :=
  _ <- emit (CallLoad p) ;;
  fun w => match models w !! p with
           | Some a => (load a, w)
           | None => (Raise (Py4JJavaError 1), w)
           end.

Definition trainOrLoad (label : option string) (dtcv : CrossValidator)
    (trainDf : DataFrame) : M (option Model) :=
  modelPath <- str_add modelDir label ;;
  present <- path_exists modelPath ;;
  if negb present then
    try_except
      (_ <- emit (CallFit dtcv) ;;
       bestModel <- lift (fit dtcv trainDf) ;;
       p <- str_add modelDir label ;;
       _ <- write_overwrite_save bestModel p ;;
       _ <- print "Model Saved" ;;
       ret bestModel)
      "Model Training Error -> Cannot perform the training of the model"
  else
    try_except
      (p <- str_add modelDir label ;;
       bestModel <- load_model p ;;
       _ <- print "Model Loaded" ;;
       ret bestModel)
      "Model Creation Error -> Cannot perform the creation of the model".

(** ** predictAndEvaluate, lines 146-158 *)

(** [model.transform(df)]: the prediction column is appended. *)
Definition transform (m : Model) (df : DataFrame) : result DataFrame :=
  (i <- resolve df "features" ;;
   if existsb (String.eqb "prediction") (columns df)
   then Raise IllegalArgumentException
   else Ok {| schema := schema df ++ [mkField "prediction" DoubleType];
              rows := map (fun r => r ++ [predict m (col_at i r)]) (rows df) |})%res.

(** [df.select(names)] *)
Definition select (names : list (option string)) (df : DataFrame)
  : result DataFrame :=
  (idxs <- mapM (fun n => match n with
                          | Some c => resolve df c
                          | None => Raise TypeError
                          end) names ;;
   Ok {| schema := map (fun i => nth i (schema df) (mkField "" StringType)) idxs;
         rows := map (fun r => map (fun i => col_at i r) idxs) (rows df) |})%res.

Definition show (df : DataFrame) (n : nat) : M unit :=
  _ <- action df ;;
  emit (Show df n).

Definition newline : string := String (ascii_of_nat 10) EmptyString.

Definition predictAndEvaluate (bestModel : option Model) (label : option string)
    (testDf : DataFrame) (dtEvaluator : RegressionEvaluator)
    (nrFilteredDf : DataFrame) : M unit :=
  _ <- try_except
    (m <- deref bestModel ;;
     dtPredictions <- lift (transform m testDf) ;;
     shown <- lift (select [Some "prediction"; label; Some "features"] dtPredictions) ;;
     _ <- show shown 5 ;;
     m' <- deref bestModel ;;
     nrPredictions <- lift (transform m' nrFilteredDf) ;;
     shown' <- lift (select [Some "prediction"; label; Some "features"] nrPredictions) ;;
     _ <- show shown' 20 ;;
     v <- lift (evaluate dtEvaluator dtPredictions) ;;
     _ <- emit (PrintRMSE v) ;;
     m'' <- deref bestModel ;;
     print ("Learned classification tree model:" ++ newline ++ toDebugString m'')%string)
    "Model Prediction Error -> Cannot perform the prediction on the model" ;;
  ret tt.

(** ** featureImportance, lines 160-163 *)

Fixpoint print_importances (l : list (string * double)) : M unit :=
  match l with
  | [] => ret tt
  | (feature, importance) :: l' =>
      _ <- emit (PrintImportance feature importance) ;;
      print_importances l'
  end.

Definition featureImportance (bestModel : option Model) (features : list string)
  : M unit :=
  _ <- print "Feature Importances:" ;;
  m <- deref bestModel ;;
  print_importances (combine features (featureImportances m)).

(** ** main, lines 165-179 *)

(** [l.remove(x)]: the first item equal to [x] leaves the list. *)
Fixpoint remove_first (x : string) (l : list string) : option (list string) :=
  match l with
  | [] => None
  | y :: l' =>
      if String.eqb y x then Some l'
      else option_map (cons y) (remove_first x l')
  end.

Definition list_remove (l : list string) (x : option string) : M (list string) :=
  match x with
  | None => raise ValueError
  | Some s =>
      match remove_first s l with
      | Some l' => ret l'
      | None => raise ValueError
      end
  end.

Definition main : M unit :=
  r <- initialize ;;
  p <- unpack r ;;
  let dataDf := fst p in
  let newReading := snd p in
  label <- setLabel ;;
  filteredDf <- lift (filterTimestamp dataDf) ;;
  let features := columns filteredDf in
  features <- list_remove features label ;;
  _ <- cacheDataframe filteredDf ;;
  nrFilteredDf <- lift (filterTimestamp newReading) ;;
  filteredDf <- lift (vectorizeDataframe filteredDf features) ;;
  s <- splitDataframe filteredDf ;;
  let trainSplit := fst s in
  let testSplit := snd s in
  nrFilteredDf <- lift (vectorizeDataframe nrFilteredDf features) ;;
  r' <- decisionTreeRegression label ;;
  q <- unpack r' ;;
  let dtcv := fst q in
  let dtEvaluator := snd q in
  bestModel <- trainOrLoad label dtcv trainSplit ;;
  _ <- featureImportance bestModel features ;;
  predictAndEvaluate bestModel label testSplit dtEvaluator nrFilteredDf.

(** Lines 166-175, up to the vectorised new reading, and what they hand to
    lines 176-179. *)
Record Prepared : Type := {
  prepared_label : option string;
  prepared_features : list string;
  prepared_trainSplit : DataFrame;
  prepared_testSplit : DataFrame;
  prepared_nrFilteredDf : DataFrame }.

Definition main_prepare : M Prepared :=
  r <- initialize ;;
  p <- unpack r ;;
  let dataDf := fst p in
  let newReading := snd p in
  label <- setLabel ;;
  filteredDf <- lift (filterTimestamp dataDf) ;;
  let features := columns filteredDf in
  features <- list_remove features label ;;
  _ <- cacheDataframe filteredDf ;;
  nrFilteredDf <- lift (filterTimestamp newReading) ;;
  filteredDf <- lift (vectorizeDataframe filteredDf features) ;;
  s <- splitDataframe filteredDf ;;
  nrFilteredDf <- lift (vectorizeDataframe nrFilteredDf features) ;;
  ret {| prepared_label := label;
         prepared_features := features;
         prepared_trainSplit := fst s;
         prepared_testSplit := snd s;
         prepared_nrFilteredDf := nrFilteredDf |}.

Definition main_model (p : Prepared) : M unit :=
  r' <- decisionTreeRegression (prepared_label p) ;;
  q <- unpack r' ;;
  let dtcv := fst q in
  let dtEvaluator := snd q in
  bestModel <- trainOrLoad (prepared_label p) dtcv (prepared_trainSplit p) ;;
  _ <- featureImportance bestModel (prepared_features p) ;;
  predictAndEvaluate bestModel (prepared_label p) (prepared_testSplit p)
    dtEvaluator (prepared_nrFilteredDf p).

(** A function whose whole body sits in one guard: it returns its value, or
    it prints the trace, the exception and [msg] and returns [None]. *)
Definition guarded {A} (f : M (option A)) (msg : string) : Prop :=
  forall w,
    (exists a w', f w = (Ok (Some a), w')) \/
    (exists e w', f w = (Ok None,
                         logged [PrintTraceback e; PrintException e; Print msg] w')).

End Pipeline.

(** ** Reading a row by column name *)

(** The cell of the first column a name resolves to. *)
Fixpoint lookup_cell (name : string) (fs : list StructField) (r : Row)
  : option cell :=
  match fs, r with
  | f :: fs', c :: r' =>
      if named name f then Some c else lookup_cell name fs' r'
  | _, _ => None
  end.

(** Every column of the row that a name resolves to holds [v]; the row has
    one cell per field. *)
Definition holds (name : string) (v : cell) (fs : list StructField) (r : Row)
  : Prop :=
  Forall2 (fun f c => named name f = true -> c = v) fs r.

(** Every field a name resolves to sits at position [i]. *)
Definition only_at (n : string) (i : nat) (fs : list StructField) : Prop :=
  forall j g, fs !! j = Some g -> named n g = true -> j = i.

(** The names [filterTimestamp] reads, writes or drops. *)
Definition reserved : list string :=
  ["timestamp"; "timestamp2"; "month"; "day"; "hour"; "hour_range"].

(** A column name that resolves to none of them. *)
Definition passes_through (c : string) : Prop :=
  Forall (fun n => resolver c n = false) reserved.

(** ** Decision trees as the library keeps and persists them

    [DecisionTreeRegressor] fits a [DecisionTreeRegressionModel]: a binary
    tree whose leaves predict. The script assembles its features from plain
    columns, none of which carries categories, so every split compares one
    feature with a threshold. [save] writes the number of features as
    metadata and one record per node, the nodes numbered in preorder from 0;
    [load] sorts the records by number and builds the nodes from the last
    to the first, so that children exist when their parent is built. *)
Module Trees.

Inductive Node : Type :=
| LeafNode (prediction impurity : double) (impurityStats : list double)
| InternalNode (prediction impurity gain : double) (leftChild rightChild : Node)
    (featureIndex : Z) (threshold : double) (impurityStats : list double).

Record TreeModel : Type := { rootNode : Node; numFeatures : nat }.

Record SplitData : Type :=
  { split_featureIndex : Z;
    leftCategoriesOrThreshold : list double;
    numCategories : Z }.

Record NodeData : Type :=
  { nid : Z;
    nd_prediction : double;
    nd_impurity : double;
    nd_impurityStats : list double;
    nd_gain : double;
    nd_leftChild : Z;
    nd_rightChild : Z;
    nd_split : SplitData }.

Record TreeFiles : Type := { metadata : nat; data : list NodeData }.

(** [predictImpl]: down the tree, left when the feature is at most the
    threshold. A vector without that feature makes the action fail; here
    the prediction is null. *)
Fixpoint predictImpl (node : Node) (features : list cell) : cell :=
  match node with
  | LeafNode p _ _ => VDouble p
  | InternalNode _ _ _ l r f th _ =>
      match (if 0 <=? f then nth_error features (Z.to_nat f) else None) with
      | Some (VDouble x) =>
          if SFleb x th then predictImpl l features else predictImpl r features
      | _ => VNull
      end
  end.

Definition tree_predict (m : TreeModel) (v : cell) : cell :=
  match v with
  | VVector xs => predictImpl (rootNode m) xs
  | _ => VNull
  end.

Definition head_id (ds : list NodeData) : Z :=
  match ds with
  | d :: _ => nid d
  | [] => -1
  end.

(** [NodeData.build(node, id)]: the records of a subtree whose root gets
    number [i], and the last number used. *)
Fixpoint build (node : Node) (i : Z) : list NodeData * Z :=
  match node with
  | InternalNode p imp g l r f th st =>
      let left := build l (i + 1) in
      let right := build r (snd left + 1) in
      ({| nid := i; nd_prediction := p; nd_impurity := imp;
          nd_impurityStats := st; nd_gain := g;
          nd_leftChild := head_id (fst left);
          nd_rightChild := head_id (fst right);
          nd_split := {| split_featureIndex := f;
                         leftCategoriesOrThreshold := [th];
                         numCategories := -1 |} |}
         :: fst left ++ fst right,
       snd right)
  | LeafNode p imp st =>
      ([{| nid := i; nd_prediction := p; nd_impurity := imp;
           nd_impurityStats := st; nd_gain := Z2double (-1);
           nd_leftChild := -1; nd_rightChild := -1;
           nd_split := {| split_featureIndex := -1;
                          leftCategoriesOrThreshold := [];
                          numCategories := 0 |} |}],
       i)
  end.

Definition tree_files (m : TreeModel) : TreeFiles :=
  {| metadata := numFeatures m; data := fst (build (rootNode m) 0) |}.

(** [data.sortBy(_.id)], a stable sort. *)
Fixpoint insert (d : NodeData) (ds : list NodeData) : list NodeData :=
  match ds with
  | [] => [d]
  | d' :: ds' => if nid d <=? nid d' then d :: ds else d' :: insert d ds'
  end.

Definition sortBy_id (ds : list NodeData) : list NodeData := foldr insert [] ds.

(** [SplitData.getSplit]: a record with a category count is a categorical
    split, which the trees here do not have. *)
Definition getSplit (s : SplitData) : result (Z * double) :=
  if numCategories s =? -1 then
    match leftCategoriesOrThreshold s with
    | [th] => Ok (split_featureIndex s, th)
    | _ => Raise (Py4JJavaError 3)
    end
  else Raise (Py4JJavaError 3).

(** One step of [buildTreeFromNodes]: the node of record [n], its children
    taken from the nodes built so far. On a table that no save wrote (a
    child that was not built) the library fails when the tree is used; here
    the load fails. *)
Definition place (n : NodeData) (acc : result (gmap Z Node))
  : result (gmap Z Node) :=
  (finalNodes <- acc ;;
   node <- (if nd_leftChild n =? -1
            then Ok (LeafNode (nd_prediction n) (nd_impurity n)
                       (nd_impurityStats n))
            else
              match finalNodes !! nd_leftChild n,
                    finalNodes !! nd_rightChild n with
              | Some l, Some r =>
                  (s <- getSplit (nd_split n) ;;
                   Ok (InternalNode (nd_prediction n) (nd_impurity n)
                         (nd_gain n) l r (fst s) (snd s)
                         (nd_impurityStats n)))
              | _, _ => Raise (Py4JJavaError 3)
              end) ;;
   Ok (<[nid n := node]> finalNodes))%res.

Definition buildTreeFromNodes (data : list NodeData) : result Node :=
  let nodes := sortBy_id data in
  match nodes with
  | [] => Raise (Py4JJavaError 3)
  | first :: _ =>
      if ((nid first =? 0)
          && (nid (List.last nodes first) =? Z.of_nat (length nodes) - 1))%bool
      then
        (finalNodes <- foldr place (Ok ∅) nodes ;;
         match finalNodes !! 0 with
         | Some root => Ok root
         | None => Raise (Py4JJavaError 3)
         end)%res
      else Raise (Py4JJavaError 3)
  end.

Definition tree_load (a : TreeFiles) : result TreeModel :=
  (root <- buildTreeFromNodes (data a) ;;
   Ok {| rootNode := root; numFeatures := metadata a |})%res.

(** Records numbered [i], [i+1], ... *)
Fixpoint numbered (i : Z) (ds : list NodeData) : Prop :=
  match ds with
  | [] => True
  | d :: ds' => nid d = i /\ numbered (i + 1) ds'
  end.

(** An engine with the library's trees for models: calendar, casts,
    generator and faults are those of [base]; the trainer, what a failing
    save raises and leaves behind, and the two reports are given. *)
Definition engine (base : Engine)
    (training : CrossValidator -> DataFrame -> result TreeModel)
    (save_fault : TreeModel -> option exn)
    (debris : TreeModel -> option TreeFiles)
    (importances : TreeModel -> list double)
    (debug : TreeModel -> string) : Engine :=
  {| from_unixtime := @from_unixtime base;
     to_timestamp := @to_timestamp base;
     month := @month base;
     dayofmonth := @dayofmonth base;
     hour := @hour base;
     cast_string := @cast_string base;
     xorshift := @xorshift base;
     collect_fault := @collect_fault base;
     gateway_fault := @gateway_fault base;
     path_fault := @path_fault base;
     Model := TreeModel;
     Artifact := TreeFiles;
     fit := training;
     save := fun m => match save_fault m with
                      | Some e => Raise e
                      | None => Ok (tree_files m)
                      end;
     partial_save := debris;
     load := tree_load;
     predict := tree_predict;
     featureImportances := importances;
     toDebugString := debug;
     evaluate := @evaluate base |}.

End Trees.

(** ** A concrete engine: UTC calendar, decimal parsing, a trainer that
    never splits

    Used to run the script on concrete inputs. *)
Module Example.

(** Proleptic Gregorian calendar, days counted from 1970-01-01. *)
Definition civil_from_days (days : Z) : Z * Z * Z :=
  let z := days + 719468 in
  let era := z / 146097 in
  let doe := z - era * 146097 in
  let yoe := (doe - doe / 1460 + doe / 36524 - doe / 146096) / 365 in
  let doy := doe - (365 * yoe + yoe / 4 - yoe / 100) in
  let mp := (5 * doy + 2) / 153 in
  let d := doy - (153 * mp + 2) / 5 + 1 in
  let m := if mp <? 10 then mp + 3 else mp - 9 in
  let y := yoe + era * 400 + (if m <=? 2 then 1 else 0) in
  (y, m, d).

Definition days_from_civil (y m d : Z) : Z :=
  let y' := if m <=? 2 then y - 1 else y in
  let era := y' / 400 in
  let yoe := y' - era * 400 in
  let doy := (153 * (if 2 <? m then m - 3 else m + 9) + 2) / 5 + d - 1 in
  let doe := yoe * 365 + yoe / 4 - yoe / 100 + doy in
  era * 146097 + doe - 719468.

Definition digit (n : Z) : ascii := ascii_of_nat (48 + Z.to_nat (n mod 10)).

Definition pad2 (n : Z) : string :=
  String (digit (n / 10)) (String (digit n) EmptyString).

Definition pad4 (n : Z) : string := (pad2 (n / 100) ++ pad2 n)%string.

(** 'yyyy-MM-dd HH:mm:ss' *)
Definition format_seconds (s : Z) : string :=
  let '(y, m, d) := civil_from_days (s / 86400) in
  let sod := s mod 86400 in
  (pad4 y ++ "-" ++ pad2 m ++ "-" ++ pad2 d ++ " " ++
   pad2 (sod / 3600) ++ ":" ++ pad2 (sod / 60 mod 60) ++ ":" ++ pad2 (sod mod 60))%string.

Fixpoint decimal (s : string) (acc : Z) : option Z :=
  match s with
  | EmptyString => Some acc
  | String c s' =>
      let n := Z.of_nat (nat_of_ascii c) in
      if (48 <=? n) && (n <=? 57) then decimal s' (10 * acc + (n - 48)) else None
  end.

Definition field (s : string) (start len : nat) : option Z :=
  decimal (substring start len s) 0.

Definition parse_seconds (s : string) : option Z :=
  match field s 0 4, field s 5 2, field s 8 2,
        field s 11 2, field s 14 2, field s 17 2 with
  | Some y, Some m, Some d, Some hh, Some mm, Some ss =>
      if (Nat.eqb (String.length s) 19)
      then Some (days_from_civil y m d * 86400 + hh * 3600 + mm * 60 + ss)
      else None
  | _, _, _, _, _, _ => None
  end.

Definition double_trunc_long (x : double) : Z :=
  match x with
  | S754_finite s m e =>
      let n := cond_Zopp s (Zpos m) in
      clamp long_min long_max
        (if 0 <=? e then n * 2 ^ e else Z.quot n (2 ^ (- e)))
  | S754_infinity s => if s then long_min else long_max
  | _ => 0
  end.

Definition utc_from_unixtime (c : cell) : cell :=
  match c with
  | VInt z => VString (format_seconds z)
  | VDouble x => VString (format_seconds (double_trunc_long x))
  | _ => VNull
  end.

Definition utc_to_timestamp (c : cell) : cell :=
  match c with
  | VString s =>
      match parse_seconds s with
      | Some t => VTimestamp (t * 1000000)
      | None => VNull
      end
  | VTimestamp us => VTimestamp us
  | _ => VNull
  end.

Definition utc_part (part : Z * Z * Z * Z -> Z) (c : cell) : cell :=
  match c with
  | VTimestamp us =>
      let s := us / 1000000 in
      let '(y, m, d) := civil_from_days (s / 86400) in
      VInt (part (y, m, d, s mod 86400 / 3600))
  | _ => VNull
  end.

Definition utc_month : cell -> cell := utc_part (fun p => snd (fst (fst p))).
Definition utc_dayofmonth : cell -> cell := utc_part (fun p => snd (fst p)).
Definition utc_hour : cell -> cell := utc_part snd.

Definition parse_number (ty : DataType) (s : string) : cell :=
  let signed :=
    match s with
    | String "-" s' => option_map Z.opp (decimal s' 0)
    | EmptyString => None
    | _ => decimal s 0
    end in
  match signed, ty with
  | Some z, DoubleType => VDouble (Z2double z)
  | Some z, IntegerType => if (int_min <=? z) && (z <=? int_max) then VInt z else VNull
  | Some z, LongType => if (long_min <=? z) && (z <=? long_max) then VInt z else VNull
  | _, _ => VNull
  end.

Definition stream (sd : Z) (i : nat) : Z :=
  ((sd + Z.of_nat (S i)) * 6364136223846793005 + 1442695040888963407)
    mod 2 ^ 64 / 2 ^ 11.

Fixpoint doubles (cs : list cell) : option (list double) :=
  match cs with
  | [] => Some []
  | VDouble x :: cs' => option_map (cons x) (doubles cs')
  | VInt z :: cs' => option_map (cons (Z2double z)) (doubles cs')
  | _ => None
  end.

Definition mean (xs : list double) : double :=
  double_div (fold_left double_add xs zero) (Z2double (Z.of_nat (length xs))).

(** A trainer that never splits: the tree predicts the mean label. *)
Definition stump_fit (fault : option exn) (cv : CrossValidator)
    (df : DataFrame) : result Trees.TreeModel :=
  match fault with
  | Some e => Raise e
  | None =>
      match labelCol (estimator cv) with
      | None => Raise (Py4JJavaError 4)
      | Some l =>
          (i <- resolve df l ;;
           j <- resolve df (featuresCol (estimator cv)) ;;
           match doubles (map (col_at i) (rows df)), rows df with
           | Some (y :: ys), r :: _ =>
               Ok {| Trees.rootNode := Trees.LeafNode (mean (y :: ys)) zero [];
                     Trees.numFeatures := match col_at j r with
                                    | VVector xs => length xs
                                    | _ => O
                                    end |}
           | _, _ => Raise (Py4JJavaError 5)
           end)%res
      end
  end.

Definition square (x : double) : double := SFmul prec emax x x.

Definition rmse (ev : RegressionEvaluator) (df : DataFrame) : result double :=
  match evaluatorLabelCol ev with
  | None => Raise (Py4JJavaError 4)
  | Some l =>
      (i <- resolve df l ;;
       j <- resolve df (predictionCol ev) ;;
       match doubles (map (col_at i) (rows df)),
             doubles (map (col_at j) (rows df)) with
       | Some ys, Some ps =>
           Ok (SFsqrt prec emax
                 (mean (map (fun yp => square (SFsub prec emax (fst yp) (snd yp)))
                            (combine ys ps))))
       | _, _ => Raise (Py4JJavaError 6)
       end)%res
  end.

(** An action fails on a row whose assembled vector holds a null. *)
Definition null_in_vector (df : DataFrame) : option exn :=
  if existsb (existsb (fun c => match c with
                                | VVector xs =>
                                    existsb (fun x => match x with
                                                      | VNull => true
                                                      | _ => false
                                                      end) xs
                                | _ => false
                                end)) (rows df)
  then Some (Py4JJavaError 7) else None.

(** The length of the longest component of a path; the file system takes
    names of up to 255 bytes and fails with ENAMETOOLONG on a longer one. *)
Fixpoint longest_component (s : string) (run best : nat) : nat :=
  match s with
  | EmptyString => Nat.max run best
  | String c s' =>
      if Ascii.eqb c "/" then longest_component s' 0 (Nat.max run best)
      else longest_component s' (S run) best
  end.

Definition name_too_long (p : string) : option exn :=
  if Nat.ltb 255 (longest_component p 0 0) then Some (OSError 36) else None.

(** The engine's side without models: calendar, casts, generator and
    faults, given what the gateway raises (if anything). *)
Definition bare (gateway : option exn) : Engine :=
  {| from_unixtime := utc_from_unixtime;
     to_timestamp := utc_to_timestamp;
     month := utc_month;
     dayofmonth := utc_dayofmonth;
     hour := utc_hour;
     cast_string := parse_number;
     xorshift := stream;
     collect_fault := null_in_vector;
     gateway_fault := fun _ => gateway;
     path_fault := name_too_long;
     Model := unit;
     Artifact := unit;
     fit := fun _ _ => Raise (Py4JJavaError 2);
     save := fun _ => Raise (Py4JJavaError 2);
     partial_save := fun _ => None;
     load := fun _ => Raise (Py4JJavaError 2);
     predict := fun _ _ => VNull;
     featureImportances := fun _ => [];
     toDebugString := fun _ => "";
     evaluate := rmse |}.

(** The engine, given what the gateway and the trainer raise (if anything):
    the library's trees, saves that do not fail. *)
Definition engine (gateway training : option exn) : Engine :=
  Trees.engine (bare gateway) (stump_fit training)
    (fun _ => None) (fun _ => None)
    (fun m => repeat zero (Trees.numFeatures m))
    (fun _ => "DecisionTreeRegressionModel").

(** The engine when nothing fails. *)
Definition plain : Engine := engine None None.

(** data/readings.csv: three readings on 2021-03-04, at 00:17, 07:30 and
    23:59 UTC. *)
Definition readings : DataFrame :=
  {| schema := [mkField "timestamp" LongType;
                mkField "temperature" DoubleType;
                mkField "humidity" IntegerType];
     rows := [[VInt 1614817020000; VDouble (Z2double 21); VInt 40];
              [VInt 1614843000000; VDouble (Z2double 23); VInt 38];
              [VInt 1614902340000; VDouble (Z2double 19); VInt 45]] |}.

(** ./data/newReading.json: one record; its fields come in name order, and
    its humidity is missing. *)
Definition newReading : DataFrame :=
  {| schema := [mkField "humidity" LongType;
                mkField "temperature" LongType;
                mkField "timestamp" LongType];
     rows := [[VNull; VInt 22; VInt 1614850000000]] |}.

(** The same readings with a column named hour. *)
Definition readings_hour : DataFrame :=
  {| schema := [mkField "timestamp" LongType;
                mkField "temperature" DoubleType;
                mkField "hour" IntegerType];
     rows := [[VInt 1614817020000; VDouble (Z2double 21); VInt 0];
              [VInt 1614843000000; VDouble (Z2double 23); VInt 7];
              [VInt 1614902340000; VDouble (Z2double 19); VInt 23]] |}.

(** What [filterTimestamp] returns on a dataframe (empty if it raises). *)
Definition filtered (df : DataFrame) : DataFrame :=
  match @filterTimestamp plain df with
  | Ok out => out
  | Raise _ => {| schema := []; rows := [] |}
  end.

Definition filtered_readings : DataFrame := Eval vm_compute in filtered readings.

Definition filtered_readings_hour : DataFrame :=
  Eval vm_compute in filtered readings_hour.

Definition disk : gmap string DataFrame :=
  <["data/readings.csv" := readings]>
    (<["./data/newReading.json" := newReading]> ∅).

Definition world (E : Engine) (args : list string) : @World E :=
  {| argv := "DecisionTreeRegression.py" :: args;
     engine_starts := true;
     files := disk;
     models := ∅;
     seed := 42;
     trace := [] |}.

(** An engine whose gateway fails, and one whose training fails. *)
Definition faulty_gateway : Engine := engine (Some (Py4JJavaError 8)) None.
Definition faulty_training : Engine := engine None (Some (Py4JJavaError 9)).

Definition no_frame : DataFrame := {| schema := []; rows := [] |}.

(** What [initialize] returns when the label is temperature. *)
Definition loaded : DataFrame * DataFrame :=
  Eval vm_compute in
    match fst (@initialize plain (world plain ["temperature"])) with
    | Ok (Some p) => p
    | _ => (no_frame, no_frame)
    end.

(** What lines 166-175 hand over when the label is temperature. *)
Definition prepared (E : Engine) : Prepared :=
  match fst (@main_prepare E (world E ["temperature"])) with
  | Ok p => p
  | Raise _ => {| prepared_label := None;
                  prepared_features := [];
                  prepared_trainSplit := no_frame;
                  prepared_testSplit := no_frame;
                  prepared_nrFilteredDf := no_frame |}
  end.

Definition estimators (E : Engine) : CrossValidator * RegressionEvaluator :=
  match fst (@decisionTreeRegression E (Some "temperature") (world E [])) with
  | Ok (Some q) => q
  | _ => ({| estimator := {| featuresCol := ""; labelCol := None |};
             estimatorParamMaps := [];
             evaluator := {| predictionCol := "";
                             evaluatorLabelCol := None;
                             metricName := "" |};
             numFolds := 0;
             parallelism := 0 |},
          {| predictionCol := ""; evaluatorLabelCol := None; metricName := "" |})
  end.

(** The first run of [trainOrLoad] on the prepared training split. *)
Definition first_run : result (option Trees.TreeModel) * @World plain :=
  @trainOrLoad plain (Some "temperature") (fst (estimators plain))
    (prepared_trainSplit (prepared plain)) (world plain ["temperature"]).

Definition first_model : Trees.TreeModel :=
  Eval vm_compute in
    match fst first_run with
    | Ok (Some m) => m
    | _ => {| Trees.rootNode := Trees.LeafNode zero zero [];
              Trees.numFeatures := 0 |}
    end.

(** The worlds a run with label temperature goes through. *)
Definition after_prepare (E : Engine) : @World E :=
  snd (@main_prepare E (world E ["temperature"])).

Definition after_estimators (E : Engine) : @World E :=
  snd (@decisionTreeRegression E (prepared_label (prepared E)) (after_prepare E)).

Definition after_training (E : Engine) : @World E :=
  snd (@trainOrLoad E (prepared_label (prepared E)) (fst (estimators E))
         (prepared_trainSplit (prepared E)) (after_estimators E)).

(** A machine on which the engine does not start. *)
Definition stopped : @World plain :=
  {| argv := ["DecisionTreeRegression.py"; "temperature"];
     engine_starts := false;
     files := disk;
     models := ∅;
     seed := 42;
     trace := [] |}.

(** What [initialize] returns for a list of arguments. *)
Definition loaded_for (args : list string) : DataFrame * DataFrame :=
  match fst (@initialize plain (world plain args)) with
  | Ok (Some p) => p
  | _ => (no_frame, no_frame)
  end.

(** The start of a run of the plain engine. *)
Definition start (args : list string) : @World plain := world plain args.

End Example.


(** ** What a step may touch *)

Section Effects.
Context `{Engine}.

(** Console output, as opposed to a call of fit, save or load. *)
Definition printed (ev : event) : bool :=
  match ev with
  | CallFit _ | CallSave _ | CallLoad _ => false
  | _ => true
  end.

(** [w'] is [w] with more console output and nothing else changed. *)
Definition quiet (w w' : World) : Prop :=
  exists evs, forallb printed evs = true /\ w' = logged evs w.

(** A step that, whatever it returns or raises, only prints. *)
Definition silent {A} (m : M A) : Prop := forall w, quiet w (snd (m w)).

(** The entries one input column contributes to the features vector: a
    vector column its entries, any other column its value as a double. *)
Definition entries (c : option cell) : list cell :=
  match c with
  | Some (VVector xs) => xs
  | Some x => [cast_double x]
  | None => []
  end.

End Effects.

(** Sample dataframes with a text column, and with an assembled vector. *)
Module Cases.

Definition with_text : DataFrame :=
  {| schema := [mkField "temperature" DoubleType; mkField "site" StringType];
     rows := [[VDouble (Z2double 21); VString "roof"]] |}.

Definition numbers : DataFrame :=
  {| schema := [mkField "temperature" DoubleType; mkField "humidity" IntegerType];
     rows := [[VDouble (Z2double 21); VInt 40];
              [VDouble (Z2double 23); VNull]] |}.

Definition assembled : DataFrame :=
  Eval vm_compute in
    match @vectorizeDataframe Example.plain numbers ["humidity"; "temperature"] with
    | Ok out => out
    | Raise _ => Example.no_frame
    end.

(** A store that already holds a model for temperature. *)
Definition trained : @World Example.plain :=
  @stored Example.plain (modelDir ++ "temperature")%string
    (Trees.tree_files {| Trees.rootNode := Trees.LeafNode zero zero [];
                         Trees.numFeatures := 4 |})
    (Example.start ["temperature"]).

(** A tree with one split, an engine whose trainer yields it, and the first
    run of [trainOrLoad] on that engine. *)
Definition two_leaves : Trees.TreeModel :=
  {| Trees.rootNode :=
       Trees.InternalNode (Z2double 21) (Z2double 2) (Z2double 1)
         (Trees.LeafNode (Z2double 19) zero [])
         (Trees.LeafNode (Z2double 23) zero [])
         1 (Z2double 40) [];
     Trees.numFeatures := 4 |}.

Definition fixed : Engine :=
  Trees.engine (Example.bare None) (fun _ _ => Ok two_leaves)
    (fun _ => None) (fun _ => None) (fun _ => [])
    (fun _ => "DecisionTreeRegressionModel").

Definition fixed_run : result (option Trees.TreeModel) * @World fixed :=
  @trainOrLoad fixed (Some "temperature")
    (fst (Example.estimators Example.plain))
    (prepared_trainSplit (Example.prepared Example.plain))
    (Example.world fixed ["temperature"]).

(** A label longer than a file name may be. *)
Fixpoint letters (n : nat) : string :=
  match n with
  | O => EmptyString
  | S n' => String "a" (letters n')
  end.

Definition long_label : string := letters 256.

(** The sample test split, also used as a new reading without nulls, and
    what [predictAndEvaluate] prints for it. *)
Definition test : DataFrame :=
  Eval vm_compute in prepared_testSplit (Example.prepared Example.plain).

Definition evaluation : @World Example.plain :=
  snd (@predictAndEvaluate Example.plain (Some Example.first_model)
         (Some "temperature") test (snd (Example.estimators Example.plain))
         test (Example.start ["temperature"])).

Definition test_rmse : double :=
  Eval vm_compute in
    match trace evaluation with
    | [_; _; PrintRMSE v; _] => v
    | _ => S754_nan
    end.

End Cases.

(** * Properties *)

(** ** Names *)

Lemma resolver_refl n : resolver n n = true.
Proof. unfold resolver. apply String.eqb_refl. Qed.

Lemma resolver_sym a b : resolver a b = resolver b a.
Proof. unfold resolver. apply String.eqb_sym. Qed.

Lemma named_other n n' f :
  named n f = true -> resolver n n' = false -> named n' f = false.
Proof.
  unfold named, resolver. intros Hn Hnn'.
  apply String.eqb_eq in Hn. rewrite Hn. exact Hnn'.
Qed.

Lemma positions_spec n fs : forall k j,
  In j (positions n fs k) <->
  exists f, (k <= j)%nat /\ fs !! (j - k)%nat = Some f /\ named n f = true.
Proof.
  induction fs as [|f fs IH]; intros k j; simpl.
  - split; [tauto | intros (g & _ & Hg & _); discriminate].
  - assert (Hrec : In j (positions n fs (S k)) <->
                   exists g, (S k <= j)%nat /\ (f :: fs) !! (j - k)%nat = Some g
                             /\ named n g = true).
    { rewrite IH. split; intros (g & Hle & Hg & Hn); exists g;
        (split; [lia|]); split; auto.
      - replace (j - k)%nat with (S (j - S k)) by lia. exact Hg.
      - replace (j - k)%nat with (S (j - S k)) in Hg by lia. exact Hg. }
    destruct (named n f) eqn:Hf; simpl; rewrite Hrec.
    + split.
      * intros [<- | (g & Hle & Hg & Hn)].
        -- exists f. rewrite Nat.sub_diag. auto.
        -- exists g. split; [lia | auto].
      * intros (g & Hle & Hg & Hn).
        destruct (Nat.eq_dec k j) as [-> | Hne]; [now left | right].
        exists g. split; [lia | auto].
    + split.
      * intros (g & Hle & Hg & Hn). exists g. split; [lia | auto].
      * intros (g & Hle & Hg & Hn).
        destruct (Nat.eq_dec k j) as [-> | Hne].
        -- rewrite Nat.sub_diag in Hg. simpl in Hg. congruence.
        -- exists g. split; [lia | auto].
Qed.

Lemma resolve_named df n i :
  resolve df n = Ok i ->
  exists f, schema df !! i = Some f /\ named n f = true.
Proof.
  unfold resolve. intros Hr.
  destruct (positions n (schema df) 0) as [|j [|? ?]] eqn:Hp; try discriminate.
  injection Hr as ->.
  assert (Hin : In i (positions n (schema df) 0)) by (rewrite Hp; now left).
  apply positions_spec in Hin. destruct Hin as (f & _ & Hf & Hn).
  rewrite Nat.sub_0_r in Hf. eauto.
Qed.

(** ** Rows under withColumn and drop *)

Lemma aligned_holds n v fs r :
  holds n v fs r -> length r = length fs.
Proof. intros Hh. symmetry. eapply Forall2_length, Hh. Qed.

Lemma with_cell_holds n ty v fs r :
  length r = length fs ->
  holds n v (with_field n ty fs) (with_cell n v fs r).
Proof.
  unfold holds, with_field, with_cell. intros Hlen.
  destruct (existsb (named n) fs) eqn:Hex.
  - clear Hex. revert r Hlen.
    induction fs as [|f fs IH]; intros [|c r] Hlen; simpl in *;
      try discriminate; constructor; auto.
    destruct (named n f) eqn:Hf; simpl; congruence.
  - apply Forall2_app.
    + assert (Hall : forall f, In f fs -> named n f = false).
      { intros f Hin. destruct (named n f) eqn:Hf; auto.
        assert (existsb (named n) fs = true) by (apply existsb_exists; eauto).
        congruence. }
      clear Hex. revert r Hlen.
      induction fs as [|f fs IH]; intros [|c r] Hlen; simpl in *;
        try discriminate; constructor.
      * intros Hf. rewrite Hall in Hf by now left. discriminate.
      * apply IH; auto.
    + constructor; [auto | constructor].
Qed.

Lemma with_cell_keeps n ty w n' v fs r :
  resolver n n' = false ->
  holds n' v fs r ->
  holds n' v (with_field n ty fs) (with_cell n w fs r).
Proof.
  unfold holds, with_field, with_cell. intros Hnn' Hh.
  destruct (existsb (named n) fs).
  - induction Hh as [|f c fs r Hfc Hh IH]; simpl; constructor; auto.
    destruct (named n f) eqn:Hf; auto.
    intros Hn'. unfold named in Hn'. simpl in Hn'. congruence.
  - apply Forall2_app; auto. constructor; [|constructor].
    unfold named. simpl. congruence.
Qed.

Lemma remove_at_holds n v i fs r :
  holds n v fs r -> holds n v (remove_at i fs) (remove_at i r).
Proof.
  unfold holds. intros Hh. revert i.
  induction Hh as [|f c fs r Hfc Hh IH]; intros [|i]; simpl; auto;
    try (constructor; auto).
Qed.

Lemma named_exists_with_field n ty fs :
  existsb (named n) (with_field n ty fs) = true.
Proof.
  unfold with_field. destruct (existsb (named n) fs) eqn:Hex.
  - apply existsb_exists in Hex. destruct Hex as (f & Hin & Hf).
    apply existsb_exists. exists (mkField n ty). split.
    + apply in_map_iff. exists f. rewrite Hf. auto.
    + apply resolver_refl.
  - rewrite existsb_app. simpl. unfold named at 2. simpl.
    rewrite resolver_refl. now rewrite orb_true_r.
Qed.

Lemma lookup_with_field n ty fs j f :
  fs !! j = Some f -> named n f = false -> with_field n ty fs !! j = Some f.
Proof.
  unfold with_field. intros Hj Hf. destruct (existsb (named n) fs).
  - rewrite list_lookup_fmap, Hj. simpl. now rewrite Hf.
  - now apply lookup_app_l_Some.
Qed.

Lemma named_exists_keeps n ty n' fs :
  resolver n n' = false ->
  existsb (named n') fs = true ->
  existsb (named n') (with_field n ty fs) = true.
Proof.
  intros Hnn' Hex. apply existsb_exists in Hex. destruct Hex as (f & Hin & Hf).
  apply list_elem_of_In, list_elem_of_lookup in Hin. destruct Hin as [j Hj].
  apply existsb_exists. exists f. split; auto.
  apply list_elem_of_In, list_elem_of_lookup. exists j.
  apply lookup_with_field; auto.
  destruct (named n f) eqn:Hnf; auto.
  rewrite (named_other n n' f Hnf Hnn') in Hf. discriminate.
Qed.

Lemma remove_at_lookup {A} (l : list A) : forall i j,
  j <> i -> remove_at i l !! after_drop i j = l !! j.
Proof.
  unfold after_drop.
  induction l as [|x l IH]; intros i j Hne.
  - destruct i; simpl; now rewrite !lookup_nil.
  - destruct i as [|i]; simpl.
    + destruct j as [|j]; [congruence | reflexivity].
    + destruct j as [|j]; [reflexivity|].
      specialize (IH i j ltac:(congruence)).
      change (Nat.ltb (S j) (S i)) with (Nat.ltb j i).
      destruct (Nat.ltb j i) eqn:Hlt; simpl in *; auto.
      apply Nat.ltb_ge in Hlt. destruct j as [|j]; [lia|]. simpl in *. exact IH.
Qed.

Lemma named_exists_remove n i fs f :
  fs !! i = Some f -> named n f = false ->
  existsb (named n) fs = true ->
  existsb (named n) (remove_at i fs) = true.
Proof.
  intros Hi Hf Hex. apply existsb_exists in Hex. destruct Hex as (g & Hin & Hg).
  apply list_elem_of_In, list_elem_of_lookup in Hin. destruct Hin as [j Hj].
  apply existsb_exists. exists g. split; auto.
  apply list_elem_of_In, list_elem_of_lookup. exists (after_drop i j).
  rewrite remove_at_lookup; auto. intros ->. congruence.
Qed.

Lemma holds_col_at n v fs r j f :
  holds n v fs r -> fs !! j = Some f -> named n f = true -> col_at j r = v.
Proof.
  unfold holds, col_at. intros Hh. revert j.
  induction Hh as [|g c fs r Hgc Hh IH]; intros [|j] Hj Hf; simpl in *;
    try discriminate.
  - injection Hj as ->. auto.
  - eauto.
Qed.

Lemma holds_lookup_cell n v fs r :
  holds n v fs r -> existsb (named n) fs = true ->
  lookup_cell n fs r = Some v.
Proof.
  unfold holds. induction 1 as [|f c fs r Hfc Hh IH]; simpl; intros Hex;
    [discriminate|].
  destruct (named n f); simpl in *; [f_equal; auto | auto].
Qed.

(** ** The hour bucket *)

Lemma hour_range_of_bucket `{Engine} (h : Z) :
  0 <= h <= 23 -> hour_range_of (VInt h) = VInt (h / 3).
Proof.
  intros Hh.
  assert (Hcases : In h [0;1;2;3;4;5;6;7;8;9;10;11;12;13;14;15;16;17;18;19;20;21;22;23]).
  { simpl. lia. }
  simpl in Hcases.
  repeat (destruct Hcases as [<- | Hcases]; [vm_compute; reflexivity|]).
  contradiction.
Qed.

(** ** filterTimestamp *)

Ltac step_resolve Hft :=
  match type of Hft with
  | rbind (resolve ?d ?n) _ = _ =>
      let i := fresh "i" in
      let Hres := fresh "Hres" in
      destruct (resolve d n) as [i|] eqn:Hres; cbn [rbind] in Hft; [|discriminate]
  end.

(** C1. A row whose extracted hour is an integer [h] in [[0,23]] gets
    [hour_range = h / 3] (integer floor), which lies in [[0,7]]; the value is
    read in the output row under the name hour_range. *)
Theorem filterTimestamp_hour_range `{Engine} (df out : DataFrame) (i : nat) (r : Row) (ts : nat) (h : Z) :
  wf df ->
  filterTimestamp df = Ok out ->
  rows df !! i = Some r ->
  resolve df "timestamp" = Ok ts ->
  hour (to_timestamp (from_unixtime (divide (col_at ts r) (VInt 1000)))) = VInt h ->
  0 <= h <= 23 ->
  exists r', rows out !! i = Some r' /\
             lookup_cell "hour_range" (schema out) r' = Some (VInt (h / 3)) /\
             0 <= h / 3 <= 7.
Proof.
  intros Hwf Hft Hr Hts Hh Hrange.
  unfold filterTimestamp in Hft. rewrite Hts in Hft. cbn [rbind] in Hft.
  destruct (divisible _); cbn [rbind] in Hft; [|discriminate].
  repeat step_resolve Hft.
  injection Hft as <-.
  cbn [rows drop withColumn schema] in *.
  rewrite !list_lookup_fmap, Hr. cbn [fmap option_fmap option_map].
  eexists; split; [reflexivity|].
  apply resolve_named in Hres as (f1 & Hf1 & Hn1).
  apply resolve_named in Hres0 as (f2 & Hf2 & Hn2).
  apply resolve_named in Hres1 as (f3 & Hf3 & Hn3).
  apply resolve_named in Hres2 as (f4 & Hf4 & Hn4).
  cbn [schema withColumn drop] in *.
  assert (Hlen0 : length r = length (schema df)).
  { unfold wf in Hwf. rewrite Forall_forall in Hwf. apply Hwf.
    apply list_elem_of_lookup. eauto. }
  set (fs0 := schema df) in *.
  set (v1 := from_unixtime (divide (col_at ts r) (VInt 1000))) in *.
  set (fs1 := with_field "timestamp" StringType fs0) in *.
  set (r1 := with_cell "timestamp" v1 fs0 r) in *.
  assert (H1 : holds "timestamp" v1 fs1 r1) by (apply with_cell_holds; auto).
  rewrite (holds_col_at _ _ _ _ _ _ H1 Hf1 Hn1).
  set (v2 := to_timestamp v1) in *.
  set (fs2 := with_field "timestamp2" TimestampType fs1) in *.
  set (r2 := with_cell "timestamp2" v2 fs1 r1) in *.
  assert (H2 : holds "timestamp2" v2 fs2 r2)
    by (apply with_cell_holds; eapply aligned_holds; eauto).
  rewrite (holds_col_at _ _ _ _ _ _ H2 Hf2 Hn2).
  set (fs3 := with_field "month" IntegerType fs2) in *.
  set (r3 := with_cell "month" _ fs2 r2) in *.
  assert (H3 : holds "timestamp2" v2 fs3 r3)
    by (apply with_cell_keeps; [reflexivity | auto]).
  assert (Hf2_3 : fs3 !! i1 = Some f2).
  { apply lookup_with_field; auto. eapply named_other; eauto. }
  rewrite (holds_col_at _ _ _ _ _ _ H3 Hf2_3 Hn2).
  set (fs4 := with_field "day" IntegerType fs3) in *.
  set (r4 := with_cell "day" _ fs3 r3) in *.
  assert (H4 : holds "timestamp2" v2 fs4 r4)
    by (apply with_cell_keeps; [reflexivity | auto]).
  assert (Hf2_4 : fs4 !! i1 = Some f2).
  { apply lookup_with_field; auto. eapply named_other; eauto. }
  rewrite (holds_col_at _ _ _ _ _ _ H4 Hf2_4 Hn2).
  fold v2 in Hh. rewrite Hh.
  set (fs5 := with_field "hour" IntegerType fs4) in *.
  set (r5 := with_cell "hour" _ fs4 r4) in *.
  assert (H5 : holds "hour" (VInt h) fs5 r5)
    by (apply with_cell_holds; eapply aligned_holds; eauto).
  assert (Hex5 : existsb (named "hour") fs5 = true)
    by apply named_exists_with_field.
  assert (Hf2_5 : fs5 !! i1 = Some f2).
  { apply lookup_with_field; auto. eapply named_other; eauto. }
  assert (Hf3_5 : fs5 !! i2 = Some f3).
  { do 3 (apply lookup_with_field; [|eapply named_other; eauto]). exact Hf3. }
  assert (Hne : i1 <> i2).
  { intros ->. rewrite Hf2_5 in Hf3_5. injection Hf3_5 as ->.
    rewrite (named_other "timestamp2" "timestamp" f3 Hn2 eq_refl) in Hn3.
    discriminate. }
  set (fs6 := remove_at i2 fs5) in *.
  set (r6 := remove_at i2 r5) in *.
  assert (H6 : holds "hour" (VInt h) fs6 r6) by (apply remove_at_holds; auto).
  assert (Hex6 : existsb (named "hour") fs6 = true).
  { eapply named_exists_remove; eauto. eapply named_other; eauto. }
  assert (Hf2_6 : fs6 !! after_drop i2 i1 = Some f2).
  { unfold fs6. rewrite remove_at_lookup; auto. }
  set (fs7 := remove_at (after_drop i2 i1) fs6) in *.
  set (r7 := remove_at (after_drop i2 i1) r6) in *.
  assert (H7 : holds "hour" (VInt h) fs7 r7) by (apply remove_at_holds; auto).
  assert (Hex7 : existsb (named "hour") fs7 = true).
  { eapply named_exists_remove; eauto. eapply named_other; eauto. }
  rewrite (holds_col_at _ _ _ _ _ _ H7 Hf4 Hn4).
  rewrite hour_range_of_bucket by lia.
  assert (Hlo : 0 <= h / 3) by (apply Z.div_pos; lia).
  assert (Hhi : h / 3 < 8) by (apply Z.div_lt_upper_bound; lia).
  split; [|lia].
  apply holds_lookup_cell.
  - apply remove_at_holds, with_cell_holds. eapply aligned_holds; eauto.
  - eapply named_exists_remove.
    + apply lookup_with_field; [exact Hf4 | eapply named_other; eauto].
    + eapply named_other; eauto.
    + apply named_exists_with_field.
Qed.
(** ** Columns other than the one written or dropped *)

Lemma named_sym_other n c f :
  named n f = true -> resolver c n = false -> named c f = false.
Proof. intros Hn Hc. eapply named_other; eauto. now rewrite resolver_sym. Qed.

Lemma lookup_with_cell n ty v c fs r :
  resolver c n = false -> length r = length fs ->
  lookup_cell c (with_field n ty fs) (with_cell n v fs r) = lookup_cell c fs r.
Proof.
  unfold with_field, with_cell. intros Hc Hlen.
  assert (Hnew : named c (mkField n ty) = false).
  { unfold named. simpl. now rewrite resolver_sym. }
  destruct (existsb (named n) fs).
  - revert r Hlen. induction fs as [|f fs IH]; intros [|x r] Hlen; simpl in *;
      try discriminate; auto.
    destruct (named n f) eqn:Hf.
    + rewrite Hnew, (named_sym_other n c f Hf Hc). auto.
    + destruct (named c f); auto.
  - revert r Hlen. induction fs as [|f fs IH]; intros [|x r] Hlen; simpl in *;
      try discriminate.
    + now rewrite Hnew.
    + destruct (named c f); auto.
Qed.

Lemma lookup_cell_nil c fs : lookup_cell c fs [] = None.
Proof. now destruct fs. Qed.

Lemma lookup_remove_at c i fs r f :
  fs !! i = Some f -> named c f = false ->
  lookup_cell c (remove_at i fs) (remove_at i r) = lookup_cell c fs r.
Proof.
  revert i r. induction fs as [|g fs IH]; intros i r Hi Hf;
    [now rewrite lookup_nil in Hi|].
  destruct r as [|x r].
  - destruct i; simpl; auto using lookup_cell_nil.
  - destruct i as [|i]; simpl in *.
    + inversion Hi; subst. now rewrite Hf.
    + destruct (named c g); eauto.
Qed.

Lemma length_with_cell n ty v fs r :
  length r = length fs ->
  length (with_cell n v fs r) = length (with_field n ty fs).
Proof.
  intros Hlen. symmetry. eapply Forall2_length.
  apply (with_cell_holds n ty v fs r Hlen).
Qed.

Lemma length_remove_at {A B} i (l : list A) (l' : list B) :
  length l = length l' -> length (remove_at i l) = length (remove_at i l').
Proof.
  revert i l'. induction l as [|x l IH]; intros [|i] [|y l'] Hlen;
    simpl in *; try discriminate; auto.
Qed.

(** ** Column names under withColumn and drop *)

Lemma columns_with_field n ty fs c :
  In c (map fname (with_field n ty fs)) <->
  c = n \/ (In c (map fname fs) /\ resolver c n = false).
Proof.
  unfold with_field. destruct (existsb (named n) fs) eqn:Hex.
  - rewrite map_map, in_map_iff. split.
    + intros (f & <- & Hin). destruct (named n f) eqn:Hf; simpl; [left; reflexivity|].
      right. split; [|exact Hf]. apply in_map_iff. exists f. auto.
    + intros [-> | (Hin & Hc)].
      * apply existsb_exists in Hex. destruct Hex as (f & Hin & Hf).
        exists f. rewrite Hf. auto.
      * apply in_map_iff in Hin. destruct Hin as (f & <- & Hin).
        exists f. unfold named. rewrite Hc. auto.
  - rewrite map_app, in_app_iff. simpl. split.
    + intros [Hin | [<- | []]]; [right | now left]. split; auto.
      apply in_map_iff in Hin. destruct Hin as (f & <- & Hin).
      destruct (resolver (fname f) n) eqn:Hf; auto.
      assert (existsb (named n) fs = true) by (apply existsb_exists; eauto).
      congruence.
    + intros [-> | (Hin & _)]; auto.
Qed.

Lemma resolve_only_at df n i :
  resolve df n = Ok i -> only_at n i (schema df).
Proof.
  unfold resolve, only_at. intros Hr j g Hj Hg.
  destruct (positions n (schema df) 0) as [|k [|? ?]] eqn:Hp; try discriminate.
  injection Hr as ->.
  assert (Hin : In j (positions n (schema df) 0)).
  { apply positions_spec. exists g. rewrite Nat.sub_0_r. split; [lia | auto]. }
  rewrite Hp in Hin. destruct Hin as [-> | []]. reflexivity.
Qed.

Lemma only_at_with_field n ty n' i fs :
  resolver n n' = false -> only_at n' i fs -> only_at n' i (with_field n ty fs).
Proof.
  unfold only_at, with_field. intros Hnn' Ho j g Hj Hg.
  destruct (existsb (named n) fs).
  - rewrite list_lookup_fmap in Hj. destruct (fs !! j) as [f|] eqn:Hfj;
      simpl in Hj; [|discriminate]. injection Hj as <-.
    destruct (named n f) eqn:Hf.
    + unfold named in Hg. simpl in Hg. congruence.
    + eauto.
  - apply lookup_app_Some in Hj. destruct Hj as [Hj | [_ Hj]]; eauto.
    destruct (j - length fs)%nat; simpl in Hj; [|now rewrite lookup_nil in Hj].
    injection Hj as <-. unfold named in Hg. simpl in Hg. congruence.
Qed.

Lemma remove_at_lookup_inv {A} (l : list A) : forall i k,
  remove_at i l !! k = l !! (if Nat.ltb k i then k else S k).
Proof.
  induction l as [|x l IH]; intros i k.
  - destruct i; simpl; now rewrite !lookup_nil.
  - destruct i as [|i]; simpl; [reflexivity|].
    destruct k as [|k]; [reflexivity|]. simpl.
    rewrite IH. change (Nat.ltb (S k) (S i)) with (Nat.ltb k i).
    now destruct (Nat.ltb k i).
Qed.

Lemma only_at_remove_at n i i' fs :
  only_at n i fs -> only_at n (after_drop i' i) (remove_at i' fs).
Proof.
  unfold only_at, after_drop. intros Ho k g Hk Hg.
  rewrite remove_at_lookup_inv in Hk.
  specialize (Ho _ _ Hk Hg). subst i.
  destruct (Nat.ltb k i') eqn:Hlt.
  - now rewrite Hlt.
  - apply Nat.ltb_ge in Hlt.
    destruct (Nat.ltb (S k) i') eqn:Hlt'; [apply Nat.ltb_lt in Hlt'; lia|].
    reflexivity.
Qed.

Lemma columns_remove_at n i fs f c :
  only_at n i fs -> fs !! i = Some f -> named n f = true ->
  (In c (map fname (remove_at i fs)) <->
   In c (map fname fs) /\ resolver c n = false).
Proof.
  intros Ho Hi Hf. rewrite !in_map_iff. split.
  - intros (g & <- & Hin).
    apply list_elem_of_In, list_elem_of_lookup in Hin. destruct Hin as [k Hk].
    rewrite remove_at_lookup_inv in Hk. split.
    + exists g. split; auto.
      apply list_elem_of_In, list_elem_of_lookup. eauto.
    + destruct (resolver (fname g) n) eqn:Hg; auto.
      specialize (Ho _ _ Hk Hg).
      destruct (Nat.ltb k i) eqn:Hlt;
        [apply Nat.ltb_lt in Hlt | apply Nat.ltb_ge in Hlt]; lia.
  - intros ((g & <- & Hin) & Hc).
    apply list_elem_of_In, list_elem_of_lookup in Hin. destruct Hin as [j Hj].
    exists g. split; auto.
    apply list_elem_of_In, list_elem_of_lookup. exists (after_drop i j).
    rewrite remove_at_lookup; auto.
    intros ->. unfold named in Hf. congruence.
Qed.

Ltac frame_path :=
  first [ reflexivity | assumption
        | split; frame_path | left; frame_path | right; frame_path ].

Lemma passes_through_inv c :
  passes_through c ->
  resolver c "timestamp" = false /\ resolver c "timestamp2" = false /\
  resolver c "month" = false /\ resolver c "day" = false /\
  resolver c "hour" = false /\ resolver c "hour_range" = false.
Proof.
  unfold passes_through, reserved. intros Hp.
  repeat (apply Forall_cons in Hp; destruct Hp as [? Hp]). auto 10.
Qed.

Lemma filterTimestamp_effect `{Engine} (df out : DataFrame) :
  filterTimestamp df = Ok out ->
  (forall c, In c (columns out) <->
             In c ["month"; "day"; "hour_range"] \/
             (In c (columns df) /\ passes_through c)) /\
  (wf df ->
   forall c i r, passes_through c -> rows df !! i = Some r ->
     exists r', rows out !! i = Some r' /\
                lookup_cell c (schema out) r' = lookup_cell c (schema df) r).
Proof.
  intros Hft.
  unfold filterTimestamp in Hft.
  destruct (resolve df "timestamp") as [ts|] eqn:Hts; cbn [rbind] in Hft;
    [|discriminate].
  destruct (divisible _); cbn [rbind] in Hft; [|discriminate].
  repeat step_resolve Hft.
  injection Hft as <-.
  pose proof (resolve_only_at _ _ _ Hres0) as Ho2.
  pose proof (resolve_only_at _ _ _ Hres1) as Ho1.
  pose proof (resolve_only_at _ _ _ Hres2) as Ho4.
  apply resolve_named in Hres0 as (f2 & Hf2 & Hn2).
  apply resolve_named in Hres1 as (f3 & Hf3 & Hn3).
  apply resolve_named in Hres2 as (f4 & Hf4 & Hn4).
  unfold columns. cbn [schema rows withColumn drop] in *.
  set (fs0 := schema df) in *.
  set (fs1 := with_field "timestamp" StringType fs0) in *.
  set (fs2 := with_field "timestamp2" TimestampType fs1) in *.
  set (fs3 := with_field "month" IntegerType fs2) in *.
  set (fs4 := with_field "day" IntegerType fs3) in *.
  set (fs5 := with_field "hour" IntegerType fs4) in *.
  assert (Hf2_5 : fs5 !! i0 = Some f2).
  { do 3 (apply lookup_with_field; [|eapply named_other; eauto]). exact Hf2. }
  assert (Hf3_5 : fs5 !! i1 = Some f3).
  { do 3 (apply lookup_with_field; [|eapply named_other; eauto]). exact Hf3. }
  assert (Ho1_5 : only_at "timestamp" i1 fs5).
  { do 3 (apply only_at_with_field; [reflexivity|]). exact Ho1. }
  assert (Ho2_5 : only_at "timestamp2" i0 fs5).
  { do 3 (apply only_at_with_field; [reflexivity|]). exact Ho2. }
  assert (Hne : i0 <> i1).
  { intros ->. rewrite Hf2_5 in Hf3_5. injection Hf3_5 as ->.
    rewrite (named_other "timestamp2" "timestamp" f3 Hn2 eq_refl) in Hn3.
    discriminate. }
  set (fs6 := remove_at i1 fs5) in *.
  assert (Hf2_6 : fs6 !! after_drop i1 i0 = Some f2).
  { unfold fs6. rewrite remove_at_lookup; auto. }
  assert (Ho2_6 : only_at "timestamp2" (after_drop i1 i0) fs6)
    by (apply only_at_remove_at; auto).
  set (fs7 := remove_at (after_drop i1 i0) fs6) in *.
  set (fs8 := with_field "hour_range" LongType fs7) in *.
  assert (Hf4_8 : fs8 !! i2 = Some f4).
  { apply lookup_with_field; [exact Hf4 | eapply named_other; eauto]. }
  assert (Ho4_8 : only_at "hour" i2 fs8)
    by (apply only_at_with_field; [reflexivity | auto]).
  split.
  - intros c.
    rewrite (columns_remove_at "hour" i2 fs8 f4 c Ho4_8 Hf4_8 Hn4).
    unfold fs8. rewrite columns_with_field.
    unfold fs7.
    rewrite (columns_remove_at "timestamp2" _ fs6 f2 c Ho2_6 Hf2_6 Hn2).
    unfold fs6.
    rewrite (columns_remove_at "timestamp" _ fs5 f3 c Ho1_5 Hf3_5 Hn3).
    unfold fs5, fs4, fs3, fs2, fs1. rewrite !columns_with_field.
    fold fs0. unfold columns. split.
    + intros Hc.
      repeat match goal with
             | Hx : _ /\ _ |- _ => destruct Hx
             | Hx : _ \/ _ |- _ => destruct Hx
             end; subst;
        repeat match goal with
               | Hx : resolver (String _ _) _ = false |- _ =>
                   vm_compute in Hx; try discriminate Hx; clear Hx
               end;
        try (left; simpl; tauto).
      right. split; [assumption|]. unfold passes_through, reserved.
      repeat constructor; assumption.
    + intros [Hin | [Hin Hp]].
      * simpl in Hin. destruct Hin as [<- | [<- | [<- | []]]]; frame_path.
      * apply passes_through_inv in Hp.
        destruct Hp as (? & ? & ? & ? & ? & ?). frame_path.
  - intros Hwf c k r Hp Hr.
    apply passes_through_inv in Hp.
    destruct Hp as (Hc1 & Hc2 & Hc3 & Hc4 & Hc5 & Hc6).
    rewrite !list_lookup_fmap, Hr. cbn [fmap option_fmap option_map].
    eexists; split; [reflexivity|].
    assert (Hlen0 : length r = length fs0).
    { unfold wf in Hwf. rewrite Forall_forall in Hwf. apply Hwf.
      apply list_elem_of_lookup. eauto. }
    set (r1 := with_cell "timestamp" _ fs0 r).
    assert (Hlen1 : length r1 = length fs1) by (apply length_with_cell; auto).
    set (r2 := with_cell "timestamp2" _ fs1 r1).
    assert (Hlen2 : length r2 = length fs2) by (apply length_with_cell; auto).
    set (r3 := with_cell "month" _ fs2 r2).
    assert (Hlen3 : length r3 = length fs3) by (apply length_with_cell; auto).
    set (r4 := with_cell "day" _ fs3 r3).
    assert (Hlen4 : length r4 = length fs4) by (apply length_with_cell; auto).
    set (r5 := with_cell "hour" _ fs4 r4).
    assert (Hlen5 : length r5 = length fs5) by (apply length_with_cell; auto).
    set (r7 := remove_at (after_drop i1 i0) (remove_at i1 r5)).
    assert (Hlen7 : length r7 = length fs7)
      by (unfold r7, fs7, fs6; auto using length_remove_at).
    rewrite (lookup_remove_at c i2 fs8 _ f4 Hf4_8)
      by (eapply named_sym_other; eauto).
    unfold fs8. rewrite lookup_with_cell by auto.
    unfold r7, fs7.
    rewrite (lookup_remove_at c _ fs6 _ f2 Hf2_6)
      by (eapply named_sym_other; eauto).
    unfold fs6.
    rewrite (lookup_remove_at c _ fs5 _ f3 Hf3_5)
      by (eapply named_sym_other; eauto).
    unfold r5, fs5. rewrite lookup_with_cell by auto.
    unfold r4, fs4. rewrite lookup_with_cell by auto.
    unfold r3, fs3. rewrite lookup_with_cell by auto.
    unfold r2, fs2. rewrite lookup_with_cell by auto.
    unfold r1, fs1. rewrite lookup_with_cell by auto.
    reflexivity.
Qed.


(** C9 (amended). On every dataframe [filterTimestamp] accepts, the output
    columns are month, day, hour_range and the input columns whose name
    resolves to none of timestamp, timestamp2, month, day, hour, hour_range;
    each of those keeps, row by row, the value it had. *)
Theorem filterTimestamp_frame `{Engine} (df out : DataFrame) :
  wf df ->
  filterTimestamp df = Ok out ->
  (forall c, In c (columns out) <->
             In c ["month"; "day"; "hour_range"] \/
             (In c (columns df) /\ passes_through c)) /\
  (forall c i r, passes_through c -> rows df !! i = Some r ->
     exists r', rows out !! i = Some r' /\
                lookup_cell c (schema out) r' = lookup_cell c (schema df) r).
Proof.
  intros Hwf Hft. destruct (filterTimestamp_effect df out Hft) as [Hcols Hvals].
  split; [exact Hcols | exact (Hvals Hwf)].
Qed.

(** C9, witness: the three sample readings. *)
Lemma filterTimestamp_frame_witness :
  (forall c, In c (columns Example.filtered_readings) <->
             In c ["month"; "day"; "hour_range"] \/
             (In c (columns Example.readings) /\ passes_through c)) /\
  (forall c i r, passes_through c -> rows Example.readings !! i = Some r ->
     exists r', rows Example.filtered_readings !! i = Some r' /\
                lookup_cell c (schema Example.filtered_readings) r'
                = lookup_cell c (schema Example.readings) r).
Proof.
  apply (@filterTimestamp_frame Example.plain).
  - repeat constructor.
  - vm_compute. reflexivity.
Defined.

(** C9 as stated fails: an input column named hour is overwritten and then
    dropped, so it is neither kept nor among the three added columns. *)
Lemma filterTimestamp_frame_counterexample :
  ~ (forall (E : Engine) (df out : DataFrame),
       wf df -> @filterTimestamp E df = Ok out ->
       forall c, In c (columns out) <->
                 In c ["month"; "day"; "hour_range"] \/
                 (In c (columns df) /\ c <> "timestamp")).
Proof.
  intros Hclaim.
  assert (Hwf : wf Example.readings_hour) by (repeat constructor).
  assert (Hrun : @filterTimestamp Example.plain Example.readings_hour
                 = Ok Example.filtered_readings_hour) by (vm_compute; reflexivity).
  destruct (Hclaim _ _ _ Hwf Hrun "hour") as [_ Hback].
  assert (Hin : In "hour" (columns Example.filtered_readings_hour)).
  { apply Hback. right. split; [simpl; tauto | discriminate]. }
  vm_compute in Hin.
  repeat (destruct Hin as [Hin | Hin]; [discriminate Hin|]). exact Hin.
Qed.

(** C1, witness: the 07:30 reading falls in bucket 2. *)
Lemma filterTimestamp_hour_range_witness :
  exists r', rows Example.filtered_readings !! 1%nat = Some r' /\
             lookup_cell "hour_range" (schema Example.filtered_readings) r'
             = Some (VInt (7 / 3)) /\
             0 <= 7 / 3 <= 7.
Proof.
  apply (@filterTimestamp_hour_range Example.plain
           Example.readings Example.filtered_readings 1%nat
           [VInt 1614843000000; VDouble (Z2double 23); VInt 38] 0%nat 7).
  - repeat constructor.
  - vm_compute. reflexivity.
  - reflexivity.
  - vm_compute. reflexivity.
  - vm_compute. reflexivity.
  - lia.
Defined.

(** ** The feature list *)

Lemma remove_first_split x l :
  In x l ->
  exists l1 l2, l = l1 ++ x :: l2 /\ ~ In x l1 /\ remove_first x l = Some (l1 ++ l2).
Proof.
  induction l as [|y l IH]; simpl; [tauto|]. intros Hin.
  destruct (String.eqb y x) eqn:Hyx.
  - apply String.eqb_eq in Hyx. subst y. exists [], l. simpl. tauto.
  - apply String.eqb_neq in Hyx.
    destruct Hin as [-> | Hin]; [congruence|].
    destruct (IH Hin) as (l1 & l2 & -> & Hnot & ->).
    exists (y :: l1), l2. simpl. repeat split; auto.
    intros [? | ?]; [congruence | auto].
Qed.

Lemma mapM_Ok {A B} (f : A -> result B) l ys :
  mapM f l = Ok ys -> forall x, In x l -> exists y, f x = Ok y.
Proof.
  revert ys. induction l as [|a l IH]; simpl; intros ys Hm x Hin; [tauto|].
  destruct (f a) as [b|] eqn:Hfa; simpl in Hm; [|discriminate].
  destruct (mapM f l) as [bs|] eqn:Hl; simpl in Hm; [|discriminate].
  destruct Hin as [<- | Hin]; eauto.
Qed.

Lemma col_resolve df c i : col df c = Ok i -> resolve df c = Ok i.
Proof. unfold col. destruct (plain_name c); [auto | discriminate]. Qed.

Lemma input_column_resolve df c i :
  input_column df c = Ok i -> resolve df c = Ok i.
Proof.
  unfold input_column. destruct (find _ _); [|discriminate].
  destruct (assemblable _); [apply col_resolve | discriminate].
Qed.

Lemma columns_lookup df p c :
  columns df !! p = Some c ->
  exists f, schema df !! p = Some f /\ fname f = c.
Proof.
  unfold columns. rewrite list_lookup_fmap.
  destruct (schema df !! p) as [f|]; simpl; [|discriminate].
  intros [= <-]. eauto.
Qed.

(** C2. For a label that is a column of the filtered dataframe,
    [features.remove(label)] succeeds and leaves the column list without its
    first label entry; with distinct column names the label is not a feature,
    and whenever the assembler accepts the features, none of them is (or
    resolves to) the label. *)
Theorem label_removed_from_features `{Engine}
    (filteredDf : DataFrame) (label : string) (w : World) :
  In label (columns filteredDf) ->
  exists features before after,
    list_remove (columns filteredDf) (Some label) w = (Ok features, w) /\
    columns filteredDf = before ++ label :: after /\
    ~ In label before /\
    features = before ++ after /\
    (List.NoDup (columns filteredDf) -> ~ In label features) /\
    (forall out, vectorizeDataframe filteredDf features = Ok out ->
       ~ In label features /\
       forall c, In c features -> resolver c label = false).
Proof.
  intros Hin.
  destruct (remove_first_split _ _ Hin) as (l1 & l2 & Hcols & Hnot & Hrm).
  exists (l1 ++ l2), l1, l2.
  unfold list_remove. rewrite Hrm.
  split; [reflexivity|]. split; [assumption|]. split; [assumption|].
  split; [reflexivity|]. split.
  - rewrite Hcols. intros Hnd. now apply NoDup_remove_2 in Hnd.
  - assert (Hall : forall out,
        vectorizeDataframe filteredDf (l1 ++ l2) = Ok out ->
        forall c, In c (l1 ++ l2) -> resolver c label = false); cycle 1.
    { intros out Hv. split; [|eauto].
      intros Hl. specialize (Hall out Hv label Hl).
      rewrite resolver_refl in Hall. discriminate. }
    intros out Hv c Hc.
    unfold vectorizeDataframe in Hv.
    destruct (mapM _ _) as [idxs|] eqn:Hm; cbn [rbind] in Hv; [|discriminate].
    destruct (mapM_Ok _ _ _ Hm c Hc) as [i Hi].
    apply input_column_resolve, resolve_only_at in Hi.
    destruct (resolver c label) eqn:Hcl; [exfalso | reflexivity].
    assert (Hp : columns filteredDf !! length l1 = Some label).
    { rewrite Hcols. apply list_lookup_middle. reflexivity. }
    apply columns_lookup in Hp. destruct Hp as (f & Hf & Hfn).
    assert (Hpi : length l1 = i).
    { apply (Hi _ f Hf). unfold named. rewrite Hfn, resolver_sym. exact Hcl. }
    assert (Hq : exists q, q <> length l1 /\ columns filteredDf !! q = Some c).
    { rewrite Hcols. apply in_app_iff in Hc. destruct Hc as [Hc | Hc].
      - apply list_elem_of_In, list_elem_of_lookup in Hc. destruct Hc as [q Hq].
        exists q. pose proof (lookup_lt_Some _ _ _ Hq). split; [lia|].
        now apply lookup_app_l_Some.
      - apply list_elem_of_In, list_elem_of_lookup in Hc. destruct Hc as [q Hq].
        exists (length l1 + S q)%nat. split; [lia|].
        rewrite lookup_app_r by lia.
        replace (length l1 + S q - length l1)%nat with (S q) by lia. exact Hq. }
    destruct Hq as (q & Hne & Hq).
    apply columns_lookup in Hq. destruct Hq as (g & Hg & Hgn).
    apply Hne. rewrite Hpi. apply (Hi _ g Hg).
    unfold named. rewrite Hgn. apply resolver_refl.
Qed.

(** C2, witness: temperature as the label of the sample readings. *)
Lemma label_removed_from_features_witness :
  exists features before after,
    list_remove (columns Example.filtered_readings) (Some "temperature")
      (Example.world Example.plain ["temperature"])
    = (Ok features, Example.world Example.plain ["temperature"]) /\
    columns Example.filtered_readings = before ++ "temperature" :: after /\
    ~ In "temperature" before /\
    features = before ++ after /\
    (List.NoDup (columns Example.filtered_readings) ->
     ~ In "temperature" features) /\
    (forall out,
       @vectorizeDataframe Example.plain Example.filtered_readings features
       = Ok out ->
       ~ In "temperature" features /\
       forall c, In c features -> resolver c "temperature" = false).
Proof.
  apply (@label_removed_from_features Example.plain).
  simpl. tauto.
Defined.

(** ** The split *)

Lemma split_cells `{Engine} (sd : Z) (df : DataFrame) :
  randomSplit [w07; w03] sd df = [sample zero w07 sd df; sample w07 one sd df].
Proof.
  unfold randomSplit.
  assert (Hcum : sliding2 (scan_add zero
                   (map (fun x => double_div x
                                    (fold_left double_add [w07; w03] zero))
                        [w07; w03]))
                 = [(zero, w07); (w07, one)]) by (vm_compute; reflexivity).
  rewrite Hcum. reflexivity.
Qed.

Lemma cells_complement `{Engine} (sd : Z) (i : nat) :
  in_cell w07 one (draw sd i) = negb (in_cell zero w07 (draw sd i)).
Proof.
  unfold draw.
  assert (Hk := Z.mod_pos_bound (xorshift sd i) (2 ^ 53) eq_refl).
  set (k := xorshift sd i mod 2 ^ 53) in *.
  unfold in_cell, draw_geb, draw_ltb, w07, one, zero. cbn [cond_Zopp].
  change (0 <=? -53 + 53) with true. change (0 <=? -52 + 53) with true.
  cbv iota.
  change (2 ^ (-53 + 53)) with 1. change (2 ^ (-52 + 53)) with 2.
  change (2 ^ 53) with 9007199254740992 in Hk.
  destruct (0 <=? k) eqn:H0; [|apply Z.leb_gt in H0; lia].
  destruct (6305039478318694 * 1 <=? k) eqn:H1;
    destruct (k <? 6305039478318694 * 1) eqn:H2;
    destruct (k <? 4503599627370496 * 2) eqn:H3; try reflexivity;
    repeat match goal with
           | Hx : (_ <=? _) = true |- _ => apply Z.leb_le in Hx
           | Hx : (_ <=? _) = false |- _ => apply Z.leb_gt in Hx
           | Hx : (_ <? _) = true |- _ => apply Z.ltb_lt in Hx
           | Hx : (_ <? _) = false |- _ => apply Z.ltb_ge in Hx
           end; lia.
Qed.

Lemma rows_where_ext p q rs : forall i,
  (forall j, p j = q j) -> rows_where p i rs = rows_where q i rs.
Proof.
  induction rs as [|r rs IH]; intros i Hpq; simpl; [reflexivity|].
  rewrite Hpq, (IH (S i) Hpq). reflexivity.
Qed.

Lemma rows_where_partition p rs : forall i,
  Permutation (rows_where p i rs ++ rows_where (fun j => negb (p j)) i rs) rs.
Proof.
  induction rs as [|r rs IH]; intros i; simpl; [constructor|].
  destruct (p i); simpl.
  - constructor. apply IH.
  - symmetry. apply Permutation_cons_app. symmetry. apply IH.
Qed.

(** C8. Whatever the seed, [splitDataframe] returns two dataframes with the
    input's schema whose rows are the input rows at complementary sets of
    positions: each input row is in exactly one of them, and together they
    are a permutation of the input rows. *)
Theorem splitDataframe_partition `{Engine} (dataDf : DataFrame) (w : World) :
  exists trainDf testDf keep,
    splitDataframe dataDf w = (Ok (trainDf, testDf), w) /\
    schema trainDf = schema dataDf /\
    schema testDf = schema dataDf /\
    rows trainDf = rows_where keep 0 (rows dataDf) /\
    rows testDf = rows_where (fun i => negb (keep i)) 0 (rows dataDf) /\
    Permutation (rows trainDf ++ rows testDf) (rows dataDf).
Proof.
  exists (sample zero w07 (seed w) dataDf), (sample w07 one (seed w) dataDf),
         (fun i => in_cell zero w07 (draw (seed w) i)).
  assert (Hte : rows (sample w07 one (seed w) dataDf)
                = rows_where (fun i => negb (in_cell zero w07 (draw (seed w) i)))
                    0 (rows dataDf)).
  { simpl. apply rows_where_ext. intros j. apply cells_complement. }
  split; [|split; [reflexivity|split; [reflexivity|split; [reflexivity|split]]]].
  - unfold splitDataframe, bind. rewrite split_cells. reflexivity.
  - exact Hte.
  - rewrite Hte. apply rows_where_partition.
Qed.

(** ** Running the script *)

Section Runs.
Context `{Engine}.

Lemma bind_ok {A B} (m : M A) (k : A -> M B) w a w' :
  m w = (Ok a, w') -> bind m k w = k a w'.
Proof. unfold bind. now intros ->. Qed.

Lemma bind_raise {A B} (m : M A) (k : A -> M B) w e w' :
  m w = (Raise e, w') -> bind m k w = (Raise e, w').
Proof. unfold bind. now intros ->. Qed.

Lemma bind_inv {A B} (m : M A) (k : A -> M B) w b w' :
  bind m k w = (Ok b, w') ->
  exists a w1, m w = (Ok a, w1) /\ k a w1 = (Ok b, w').
Proof.
  unfold bind. destruct (m w) as [[a|e] w1]; [eauto | discriminate].
Qed.

Lemma try_except_ok {A} (body : M A) msg w a w' :
  body w = (Ok a, w') -> try_except body msg w = (Ok (Some a), w').
Proof. unfold try_except. now intros ->. Qed.

Lemma try_except_raise {A} (body : M A) msg w e w' :
  body w = (Raise e, w') ->
  try_except body msg w
  = (Ok None, logged [PrintTraceback e; PrintException e; Print msg] w').
Proof.
  unfold try_except. intros ->. unfold bind, emit, print, emit, ret, logged.
  simpl. now rewrite <- !app_assoc.
Qed.

Lemma try_except_guarded {A} (body : M A) msg : guarded (try_except body msg) msg.
Proof.
  intros w. destruct (body w) as [[a|e] w'] eqn:Hb.
  - left. exists a, w'. now apply try_except_ok.
  - right. exists e, w'. now apply try_except_raise.
Qed.

Lemma logged_logged evs evs' (w : World) :
  logged evs' (logged evs w) = logged (evs ++ evs') w.
Proof. unfold logged. simpl. now rewrite app_assoc. Qed.

(** ** The model store *)

Lemma path_exists_fault (p : string) (w : World) e :
  path_fault p = Some e -> path_exists p w = (Raise e, w).
Proof. unfold path_exists. now intros ->. Qed.

Lemma path_exists_absent (p : string) (w : World) :
  path_fault p = None -> models w !! p = None -> path_exists p w = (Ok false, w).
Proof. unfold path_exists. intros -> ->. reflexivity. Qed.

Lemma path_exists_present (p : string) (w : World) a :
  path_fault p = None -> models w !! p = Some a ->
  path_exists p w = (Ok true, w).
Proof. unfold path_exists. intros -> ->. reflexivity. Qed.

Lemma trainOrLoad_unreadable l dtcv trainDf (w : World) e :
  path_fault (modelDir ++ l)%string = Some e ->
  trainOrLoad (Some l) dtcv trainDf w = (Raise e, w).
Proof.
  intros He. unfold trainOrLoad, str_add.
  rewrite (bind_ok _ _ w (modelDir ++ l)%string w eq_refl).
  now rewrite (bind_raise _ _ w e w (path_exists_fault _ w e He)).
Qed.

Lemma trainOrLoad_present l dtcv trainDf (w : World) a :
  let p := (modelDir ++ l)%string in
  path_fault p = None ->
  models w !! p = Some a ->
  trainOrLoad (Some l) dtcv trainDf w =
  match load a with
  | Ok m => (Ok (Some m), logged [CallLoad p; Print "Model Loaded"] w)
  | Raise e =>
      (Ok None,
       logged [CallLoad p; PrintTraceback e; PrintException e;
               Print "Model Creation Error -> Cannot perform the creation of the model"] w)
  end.
Proof.
  intros p Hf Hp. unfold trainOrLoad, str_add. fold p.
  rewrite (bind_ok _ _ w p w eq_refl).
  rewrite (bind_ok _ _ w true w (path_exists_present p w a Hf Hp)). cbn [negb].
  destruct (load a) as [m|e] eqn:Hl.
  - erewrite try_except_ok; [reflexivity|].
    unfold bind, ret, load_model, emit, print, emit, bind. cbn.
    rewrite Hp, Hl. now rewrite logged_logged.
  - erewrite try_except_raise.
    2:{ unfold bind, ret, load_model, emit, print, emit, bind. cbn.
        rewrite Hp, Hl. reflexivity. }
    now rewrite logged_logged.
Qed.

Lemma trainOrLoad_absent l dtcv trainDf (w : World) :
  let p := (modelDir ++ l)%string in
  path_fault p = None ->
  models w !! p = None ->
  trainOrLoad (Some l) dtcv trainDf w =
  match fit dtcv trainDf with
  | Ok m =>
      match save m with
      | Ok a =>
          (Ok (Some m),
           logged [Print "Model Saved"]
             (stored p a (logged [CallFit dtcv; CallSave p] w)))
      | Raise e =>
          (Ok None,
           logged [PrintTraceback e; PrintException e;
                   Print "Model Training Error -> Cannot perform the training of the model"]
             (left_behind m p (logged [CallFit dtcv; CallSave p] w)))
      end
  | Raise e =>
      (Ok None,
       logged [CallFit dtcv; PrintTraceback e; PrintException e;
               Print "Model Training Error -> Cannot perform the training of the model"] w)
  end.
Proof.
  intros p Hf Hp. unfold trainOrLoad, str_add. fold p.
  rewrite (bind_ok _ _ w p w eq_refl).
  rewrite (bind_ok _ _ w false w (path_exists_absent p w Hf Hp)). cbn [negb].
  destruct (fit dtcv trainDf) as [m|e] eqn:Hfit.
  - destruct (save m) as [a|e] eqn:Hs.
    + erewrite try_except_ok; [reflexivity|].
      unfold bind, ret, write_overwrite_save, emit, print, emit, lift, bind. cbn.
      rewrite Hs. cbn. now rewrite logged_logged.
    + erewrite try_except_raise; [reflexivity|].
      unfold bind, ret, write_overwrite_save, emit, print, emit, lift, bind.
      cbn. rewrite Hs. cbn. rewrite logged_logged. reflexivity.
  - erewrite try_except_raise.
    2:{ unfold bind, ret, emit, lift. cbn. reflexivity. }
    now rewrite logged_logged.
Qed.

(** C6 (amended). For a label [l] and the path [p] of its model directory.
    When the existence test on [p] raises, the run raises that exception
    before either guard: it neither trains nor loads and leaves the world as
    it is. When the test returns: the run trains (calls fit) exactly when
    nothing is at [p]; if fit and save succeed, the trained model is returned
    and [p] holds what save wrote; if fit raises nothing is stored, and if
    save raises [p] holds what the failed save left there, if anything; when
    something is at [p], the run neither trains nor saves, leaves the store
    as it is and returns what load makes of it. *)
Theorem trainOrLoad_lifecycle
    (l : string) (dtcv : CrossValidator) (trainDf : DataFrame) (w : World) :
  let p := (modelDir ++ l)%string in
  match path_fault p with
  | Some e => trainOrLoad (Some l) dtcv trainDf w = (Raise e, w)
  | None =>
      exists r w' evs,
        trainOrLoad (Some l) dtcv trainDf w = (Ok r, w') /\
        trace w' = trace w ++ evs /\
        match models w !! p with
        | None =>
            In (CallFit dtcv) evs /\ ~ In (CallLoad p) evs /\
            match fit dtcv trainDf with
            | Ok m =>
                In (CallSave p) evs /\
                match save m with
                | Ok a => r = Some m /\ models w' = <[p := a]> (models w)
                | Raise _ =>
                    r = None /\
                    models w' = match partial_save m with
                                | Some a => <[p := a]> (models w)
                                | None => models w
                                end
                end
            | Raise _ =>
                ~ In (CallSave p) evs /\ r = None /\ models w' = models w
            end
        | Some a =>
            ~ In (CallFit dtcv) evs /\ ~ In (CallSave p) evs /\
            In (CallLoad p) evs /\ models w' = models w /\
            r = match load a with Ok m => Some m | Raise _ => None end
        end
  end.
Proof.
  intros p. destruct (path_fault p) as [e|] eqn:Hf;
    [now apply trainOrLoad_unreadable|].
  destruct (models w !! p) as [a|] eqn:Hp.
  - rewrite (trainOrLoad_present l dtcv trainDf w a Hf Hp). fold p.
    destruct (load a) as [m|e]; do 3 eexists;
      (split; [reflexivity|]); (split; [reflexivity|]);
      repeat split; simpl; auto; intuition discriminate.
  - rewrite (trainOrLoad_absent l dtcv trainDf w Hf Hp). fold p.
    destruct (fit dtcv trainDf) as [m|e]; [destruct (save m) as [a|e]|].
    + do 3 eexists; (split; [reflexivity|]);
        (split; [cbn; rewrite <- ?app_assoc; reflexivity|]);
        repeat split; simpl; auto; intuition discriminate.
    + unfold left_behind. destruct (partial_save m) as [a|];
        do 3 eexists; (split; [reflexivity|]);
        (split; [cbn; rewrite <- ?app_assoc; reflexivity|]);
        repeat split; simpl; auto; intuition discriminate.
    + do 3 eexists; (split; [reflexivity|]);
        (split; [cbn; rewrite <- ?app_assoc; reflexivity|]);
        repeat split; simpl; auto; intuition discriminate.
Qed.

Lemma transform_ext (m m' : Model) df :
  (forall v, predict m' v = predict m v) -> transform m' df = transform m df.
Proof.
  intros Hp. unfold transform. destruct (resolve df "features"); simpl; auto.
  destruct (existsb _ _); auto. do 2 f_equal.
  apply map_ext. intros r. now rewrite Hp.
Qed.

(** ** main *)

Lemma main_split (w : World) : main w = bind main_prepare main_model w.
Proof.
  unfold main, main_prepare, main_model, bind, ret.
  repeat (cbn [prepared_label prepared_features prepared_trainSplit
                prepared_testSplit prepared_nrFilteredDf];
          match goal with
          | |- context [match ?x with (_, _) => _ end] =>
              destruct x as [[?|?] ?]
          end);
    reflexivity.
Qed.

Lemma main_initialize_none (w w1 : World) :
  initialize w = (Ok None, w1) -> main w = (Raise TypeError, w1).
Proof. intros Hi. unfold main. now rewrite (bind_ok _ _ _ _ _ Hi). Qed.

Lemma print_importances_ok l (w : World) :
  exists w', print_importances l w = (Ok tt, w').
Proof.
  revert w. induction l as [|[feature importance] l IH]; intros w; simpl.
  - eexists. reflexivity.
  - unfold bind, emit. apply IH.
Qed.

Lemma featureImportance_none features (w : World) :
  featureImportance None features w
  = (Raise AttributeError, logged [Print "Feature Importances:"] w).
Proof. reflexivity. Qed.

Lemma featureImportance_some m features (w : World) :
  exists w', featureImportance (Some m) features w = (Ok tt, w').
Proof.
  unfold featureImportance, print, emit, bind, deref, ret.
  apply print_importances_ok.
Qed.

Lemma predictAndEvaluate_ok bestModel label testDf ev nr (w : World) :
  exists w', predictAndEvaluate bestModel label testDf ev nr w = (Ok tt, w').
Proof.
  unfold predictAndEvaluate.
  match goal with
  | |- context [try_except ?b ?msg] =>
      destruct (try_except_guarded b msg w) as [(a & w' & Hg) | (e & w' & Hg)]
  end; rewrite (bind_ok _ _ _ _ _ Hg); eexists; reflexivity.
Qed.

(** C5 (amended). What [main] does with a [None] from a guarded function:
    after [initialize] or [decisionTreeRegression] the tuple assignment
    raises TypeError; after [trainOrLoad], [featureImportance] raises
    AttributeError once it has printed its heading; in each case the
    exception leaves [main]. Once a model is there, [main] returns normally
    whatever happens inside [predictAndEvaluate]. *)
Theorem failures_in_main :
  (forall w w1 : World,
     initialize w = (Ok None, w1) -> main w = (Raise TypeError, w1)) /\
  (forall (w : World) p w0,
     main_prepare w = (Ok p, w0) ->
     (forall w1,
        decisionTreeRegression (prepared_label p) w0 = (Ok None, w1) ->
        main w = (Raise TypeError, w1)) /\
     (forall cv ev w1,
        decisionTreeRegression (prepared_label p) w0 = (Ok (Some (cv, ev)), w1) ->
        (forall w2,
           trainOrLoad (prepared_label p) cv (prepared_trainSplit p) w1
           = (Ok None, w2) ->
           main w = (Raise AttributeError,
                     logged [Print "Feature Importances:"] w2)) /\
        (forall m w2,
           trainOrLoad (prepared_label p) cv (prepared_trainSplit p) w1
           = (Ok (Some m), w2) ->
           exists w', main w = (Ok tt, w')))).
Proof.
  split; [exact main_initialize_none|].
  intros w p w0 Hprep. split.
  - intros w1 Hd. rewrite main_split, (bind_ok _ _ _ _ _ Hprep).
    unfold main_model. now rewrite (bind_ok _ _ _ _ _ Hd).
  - intros cv ev w1 Hd. split.
    + intros w2 Ht. rewrite main_split, (bind_ok _ _ _ _ _ Hprep).
      unfold main_model. rewrite (bind_ok _ _ _ _ _ Hd).
      rewrite (bind_ok _ _ w1 (cv, ev) w1 eq_refl). cbn [fst snd].
      rewrite (bind_ok _ _ _ _ _ Ht).
      now rewrite (bind_raise _ _ _ _ _ (featureImportance_none _ w2)).
    + intros m w2 Ht. rewrite main_split, (bind_ok _ _ _ _ _ Hprep).
      unfold main_model. rewrite (bind_ok _ _ _ _ _ Hd).
      rewrite (bind_ok _ _ w1 (cv, ev) w1 eq_refl). cbn [fst snd].
      rewrite (bind_ok _ _ _ _ _ Ht).
      destruct (featureImportance_some m (prepared_features p) w2) as [w3 Hf].
      rewrite (bind_ok _ _ _ _ _ Hf). apply predictAndEvaluate_ok.
Qed.


(** ** Which functions are guarded *)

Lemma initialize_unguarded (w : World) :
  engine_starts w = false -> initialize w = (Raise (Py4JJavaError 0), w).
Proof. intros Hs. unfold initialize, bind, SparkContext. now rewrite Hs. Qed.

Lemma initialize_started (w : World) :
  engine_starts w = true ->
  (exists a w', initialize w = (Ok (Some a), w')) \/
  (exists e w', initialize w
     = (Ok None,
        logged [PrintTraceback e; PrintException e;
                Print "Dataset Loading Error -> Cannot read the label"] w')).
Proof.
  intros Hs. unfold initialize.
  rewrite (bind_ok _ _ w tt w) by (unfold SparkContext; now rewrite Hs).
  apply try_except_guarded.
Qed.

Lemma trainOrLoad_none dtcv trainDf (w : World) :
  trainOrLoad None dtcv trainDf w = (Raise TypeError, w).
Proof. reflexivity. Qed.

Lemma trainOrLoad_some l dtcv trainDf (w : World) :
  path_fault (modelDir ++ l)%string = None ->
  (exists m w', trainOrLoad (Some l) dtcv trainDf w = (Ok (Some m), w')) \/
  (exists e w' msg,
     trainOrLoad (Some l) dtcv trainDf w
     = (Ok None, logged [PrintTraceback e; PrintException e; Print msg] w') /\
     (msg = "Model Training Error -> Cannot perform the training of the model" \/
      msg = "Model Creation Error -> Cannot perform the creation of the model")).
Proof.
  intros Hf. unfold trainOrLoad, str_add.
  rewrite (bind_ok _ _ w (modelDir ++ l)%string w eq_refl).
  rewrite (bind_ok (path_exists _) _ w
             (bool_decide (is_Some (models w !! (modelDir ++ l)%string))) w)
    by (unfold path_exists; now rewrite Hf).
  destruct (negb _);
    match goal with
    | |- context [try_except ?b ?msg] =>
        destruct (try_except_guarded b msg w) as [(a & w' & Hg) | (e & w' & Hg)]
    end; rewrite Hg; eauto 10.
Qed.

Lemma filterTimestamp_unguarded df e :
  resolve df "timestamp" = Raise e -> filterTimestamp df = Raise e.
Proof. intros Hr. unfold filterTimestamp. now rewrite Hr. Qed.

Lemma cacheDataframe_unguarded df e (w : World) :
  collect_fault df = Some e ->
  cacheDataframe df w = (Raise e, logged [PrintSchema (schema df)] w).
Proof.
  intros Hc. unfold cacheDataframe, action, bind, emit. now rewrite Hc.
Qed.

Lemma vectorizeDataframe_unguarded df features :
  In "features" (columns df) ->
  exists e, vectorizeDataframe df features = Raise e.
Proof.
  intros Hin. unfold vectorizeDataframe.
  destruct (mapM _ _) as [idxs|e]; cbn [rbind]; [|eauto].
  assert (Hex : existsb (String.eqb "features") (columns df) = true).
  { apply existsb_exists. exists "features". split; [exact Hin | reflexivity]. }
  rewrite Hex. eauto.
Qed.

Lemma splitDataframe_returns dataDf (w : World) :
  exists s, splitDataframe dataDf w = (Ok s, w).
Proof.
  unfold splitDataframe, bind. rewrite split_cells. eexists. reflexivity.
Qed.

Lemma predictAndEvaluate_guard bestModel label testDf ev nr (w : World) :
  exists w0,
    (exists m, bestModel = Some m /\
       predictAndEvaluate bestModel label testDf ev nr w
       = (Ok tt,
          logged [Print ("Learned classification tree model:" ++ newline
                         ++ toDebugString m)%string] w0)) \/
    (exists e,
       predictAndEvaluate bestModel label testDf ev nr w
       = (Ok tt,
          logged [PrintTraceback e; PrintException e;
                  Print "Model Prediction Error -> Cannot perform the prediction on the model"]
            w0)).
Proof.
  unfold predictAndEvaluate.
  match goal with |- context [try_except ?b ?msg] => set (body := b) end.
  destruct (body w) as [[u|e] w'] eqn:Hb.
  - rewrite (bind_ok _ _ _ _ _ (try_except_ok body _ w u w' Hb)).
    unfold body in Hb. destruct bestModel as [m|]; [|discriminate Hb].
    cbn [deref] in Hb.
    repeat match type of Hb with
           | bind _ _ _ = _ =>
               let a := fresh "a" in
               let w1 := fresh "w" in
               let H1 := fresh "H" in
               apply bind_inv in Hb; destruct Hb as (a & w1 & H1 & Hb);
               try match type of H1 with
                   | ret _ _ = _ => inversion H1; subst; clear H1
                   end
           end.
    unfold print, emit in Hb. inversion Hb; subst.
    eexists. left. eexists. split; reflexivity.
  - rewrite (bind_ok _ _ _ _ _ (try_except_raise body _ w e w' Hb)).
    exists w'. right. exists e. reflexivity.
Qed.

(** C4 (amended). [setLabel], [decisionTreeRegression] and
    [predictAndEvaluate] never raise: their one guard prints the trace, the
    exception and a static message, and the function returns [None]
    ([predictAndEvaluate] returns [None] also when nothing fails, after its
    last print). [initialize] is guarded only after the engine has started.
    [trainOrLoad] builds the path and tests whether it exists outside its
    guards: a missing label raises TypeError there, an error of the test
    propagates; after that each branch has its guard.
    [splitDataframe] has no guard and returns its two splits without
    printing. [filterTimestamp], [cacheDataframe], [vectorizeDataframe],
    [featureImportance] and [main] have no guard: their exceptions
    propagate. *)
Theorem exception_guards :
  guarded setLabel "Label Setting Error -> Cannot retrieve the label" /\
  (forall label,
     guarded (decisionTreeRegression label)
       "Model Creation Error -> Cannot perform the creation of the model") /\
  (forall bestModel label testDf ev nr (w : World),
     exists w0,
       (exists m, bestModel = Some m /\
          predictAndEvaluate bestModel label testDf ev nr w
          = (Ok tt,
             logged [Print ("Learned classification tree model:" ++ newline
                            ++ toDebugString m)%string] w0)) \/
       (exists e,
          predictAndEvaluate bestModel label testDf ev nr w
          = (Ok tt,
             logged [PrintTraceback e; PrintException e;
                     Print "Model Prediction Error -> Cannot perform the prediction on the model"]
               w0))) /\
  (forall w : World,
     (engine_starts w = false -> initialize w = (Raise (Py4JJavaError 0), w)) /\
     (engine_starts w = true ->
      (exists a w', initialize w = (Ok (Some a), w')) \/
      (exists e w', initialize w
         = (Ok None,
            logged [PrintTraceback e; PrintException e;
                    Print "Dataset Loading Error -> Cannot read the label"] w')))) /\
  (forall dtcv trainDf (w : World),
     trainOrLoad None dtcv trainDf w = (Raise TypeError, w) /\
     forall l,
       match path_fault (modelDir ++ l)%string with
       | Some e => trainOrLoad (Some l) dtcv trainDf w = (Raise e, w)
       | None =>
           (exists m w',
              trainOrLoad (Some l) dtcv trainDf w = (Ok (Some m), w')) \/
           (exists e w' msg,
              trainOrLoad (Some l) dtcv trainDf w
              = (Ok None,
                 logged [PrintTraceback e; PrintException e; Print msg] w') /\
              (msg = "Model Training Error -> Cannot perform the training of the model" \/
               msg = "Model Creation Error -> Cannot perform the creation of the model"))
       end) /\
  (forall dataDf (w : World), exists s, splitDataframe dataDf w = (Ok s, w)) /\
  (forall df e,
     resolve df "timestamp" = Raise e -> filterTimestamp df = Raise e) /\
  (forall df e (w : World),
     collect_fault df = Some e ->
     cacheDataframe df w = (Raise e, logged [PrintSchema (schema df)] w)) /\
  (forall df features,
     In "features" (columns df) ->
     exists e, vectorizeDataframe df features = Raise e) /\
  (forall features (w : World),
     featureImportance None features w
     = (Raise AttributeError, logged [Print "Feature Importances:"] w)) /\
  (forall w w1 : World,
     initialize w = (Ok None, w1) -> main w = (Raise TypeError, w1)).
Proof.
  split; [apply try_except_guarded|].
  split; [intros label; apply try_except_guarded|].
  split; [exact predictAndEvaluate_guard|].
  split; [intros w; split;
          [apply initialize_unguarded | apply initialize_started]|].
  split.
  { intros dtcv trainDf w. split; [apply trainOrLoad_none|]. intros l.
    destruct (path_fault (modelDir ++ l)%string) as [e|] eqn:Hf;
      [now apply trainOrLoad_unreadable | now apply trainOrLoad_some]. }
  split; [exact splitDataframe_returns|].
  split; [exact filterTimestamp_unguarded|].
  split; [exact cacheDataframe_unguarded|].
  split; [exact vectorizeDataframe_unguarded|].
  split; [exact featureImportance_none | exact main_initialize_none].
Qed.


(** ** The label *)

Lemma initialize_inv (w w' : World) dataDf nr :
  initialize w = (Ok (Some (dataDf, nr)), w') ->
  w' = w /\ engine_starts w = true /\
  exists label raw casted,
    nth_error (argv w) 1 = Some label /\
    files w !! "data/readings.csv" = Some dataDf /\
    files w !! "./data/newReading.json" = Some raw /\
    withColumn_cast_double label label raw = Ok casted /\
    na_fill zero [label] casted = Ok nr.
Proof.
  unfold initialize, SparkContext, try_except, bind, read, sys_argv, lift, ret,
    print, emit.
  intros Hi.
  destruct (engine_starts w); cbv beta iota in Hi; [|discriminate Hi].
  destruct (files w !! "data/readings.csv") as [d|]; cbv beta iota in Hi;
    [|discriminate Hi].
  destruct (files w !! "./data/newReading.json") as [raw|]; cbv beta iota in Hi;
    [|discriminate Hi].
  destruct (nth_error (argv w) 1) as [label|] eqn:Ha; cbv beta iota in Hi;
    [|discriminate Hi].
  rewrite Ha in Hi. cbv beta iota in Hi.
  destruct (withColumn_cast_double label label raw) as [casted|] eqn:Hc;
    cbv beta iota in Hi; rewrite ?Ha in Hi; cbv beta iota in Hi;
    [|discriminate Hi].
  destruct (na_fill zero [label] casted) as [filled|] eqn:Hf;
    cbv beta iota in Hi; [|discriminate Hi].
  injection Hi as <- <- <-. split; [reflexivity|]. split; [reflexivity|].
  exists label, raw, casted. auto.
Qed.

Lemma initialize_no_label (w : World) :
  nth_error (argv w) 1 = None -> engine_starts w = true ->
  exists w', initialize w = (Ok None, w').
Proof.
  intros Ha Hs.
  destruct (initialize_started w Hs) as [([dataDf nr] & w' & Hi) | (e & w' & Hi)].
  - apply initialize_inv in Hi. destruct Hi as (_ & _ & label & ? & ? & Hl & _).
    congruence.
  - eauto.
Qed.

Lemma setLabel_some (w : World) label :
  nth_error (argv w) 1 = Some label ->
  setLabel w = (Ok (Some label), logged [Print ("Label -> " ++ label)%string] w).
Proof.
  intros Ha. unfold setLabel, try_except, bind, sys_argv. now rewrite Ha.
Qed.

Lemma list_remove_absent cols label (w : World) :
  match label with
  | Some l => ~ In l cols
  | None => True
  end ->
  list_remove cols label w = (Raise ValueError, w).
Proof.
  destruct label as [l|]; [|reflexivity]. intros Hnot. unfold list_remove.
  assert (Hr : remove_first l cols = None).
  { induction cols as [|y cols IH]; simpl in *; [reflexivity|].
    destruct (String.eqb y l) eqn:Hyl.
    - apply String.eqb_eq in Hyl. tauto.
    - rewrite IH by tauto. reflexivity. }
  now rewrite Hr.
Qed.


Lemma filterTimestamp_drops_timestamp df out :
  filterTimestamp df = Ok out -> ~ In "timestamp" (columns out).
Proof.
  intros Hft Hin. apply (proj1 (filterTimestamp_effect df out Hft)) in Hin.
  destruct Hin as [Hin | [_ Hp]].
  - simpl in Hin. repeat (destruct Hin as [Hin | Hin]; [discriminate Hin|]).
    exact Hin.
  - apply passes_through_inv in Hp. destruct Hp as [Hp _]. discriminate Hp.
Qed.

(** C10 (amended). Without a command-line argument [initialize] fails and
    [main] raises TypeError at its first line, before [setLabel] is called.
    When [initialize] succeeds, [setLabel] returns the argument (never
    [None]); timestamp is never a column of the filtered dataframe; and if
    the label is not one of its columns, [main] raises ValueError at
    [features.remove(label)] and nothing after it runs. *)
Theorem main_label_not_a_column :
  (forall w : World,
     nth_error (argv w) 1 = None -> engine_starts w = true ->
     exists w', main w = (Raise TypeError, w')) /\
  (forall (w w1 : World) dataDf nr,
     initialize w = (Ok (Some (dataDf, nr)), w1) ->
     exists label,
       nth_error (argv w) 1 = Some label /\
       setLabel w1
       = (Ok (Some label), logged [Print ("Label -> " ++ label)%string] w1) /\
       forall filteredDf,
         filterTimestamp dataDf = Ok filteredDf ->
         ~ In "timestamp" (columns filteredDf) /\
         (~ In label (columns filteredDf) ->
          main w = (Raise ValueError,
                    logged [Print ("Label -> " ++ label)%string] w1))) /\
  (forall (w w1 w2 : World) dataDf nr label filteredDf,
     initialize w = (Ok (Some (dataDf, nr)), w1) ->
     setLabel w1 = (Ok label, w2) ->
     filterTimestamp dataDf = Ok filteredDf ->
     match label with
     | Some l => ~ In l (columns filteredDf)
     | None => True
     end ->
     main w = (Raise ValueError, w2)).
Proof.
  assert (Hremove : forall (w w1 w2 : World) dataDf nr label filteredDf,
     initialize w = (Ok (Some (dataDf, nr)), w1) ->
     setLabel w1 = (Ok label, w2) ->
     filterTimestamp dataDf = Ok filteredDf ->
     match label with
     | Some l => ~ In l (columns filteredDf)
     | None => True
     end ->
     main w = (Raise ValueError, w2)).
  { intros w w1 w2 dataDf nr label filteredDf Hi Hs Hft Hnot.
    unfold main. rewrite (bind_ok _ _ _ _ _ Hi).
    rewrite (bind_ok _ _ w1 (dataDf, nr) w1 eq_refl). cbn [fst snd].
    rewrite (bind_ok _ _ _ _ _ Hs).
    rewrite (bind_ok (lift (filterTimestamp dataDf)) _ w2 filteredDf w2)
      by (unfold lift; now rewrite Hft).
    now rewrite (bind_raise _ _ _ _ _
                   (list_remove_absent (columns filteredDf) label w2 Hnot)). }
  split; [|split; [|exact Hremove]].
  - intros w Ha Hs. destruct (initialize_no_label w Ha Hs) as [w' Hi].
    exists w'. now apply main_initialize_none.
  - intros w w1 dataDf nr Hi.
    destruct (initialize_inv _ _ _ _ Hi) as (-> & _ & label & raw & casted & Ha & _).
    exists label. split; [exact Ha|].
    split; [now apply setLabel_some|].
    intros filteredDf Hft. split; [now apply (filterTimestamp_drops_timestamp dataDf)|].
    intros Hnot.
    apply (Hremove w w _ dataDf nr (Some label) filteredDf Hi
             (setLabel_some w label Ha) Hft Hnot).
Qed.

End Runs.

(** ** The new reading *)

Section NewReading.
Context `{Engine}.

Lemma replace_cells_lookup n v fs : forall r j,
  replace_cells n v fs r !! j =
  match fs !! j, r !! j with
  | Some f, Some c => Some (if named n f then v else c)
  | _, _ => r !! j
  end.
Proof.
  induction fs as [|f fs IH]; intros [|c r] [|j]; simpl; try reflexivity.
  - now destruct (fs !! j).
  - apply IH.
Qed.

Lemma fill_cells_lookup value subset fs : forall k r j,
  fill_cells value subset k fs r !! j =
  match fs !! j, r !! j with
  | Some f, Some c =>
      Some (if (numeric (dataType f) && existsb (Nat.eqb (k + j)) subset)%bool
            then fill_cell (dataType f) value c else c)
  | _, _ => r !! j
  end.
Proof.
  induction fs as [|f fs IH]; intros k [|c r] [|j]; simpl; try reflexivity.
  - now destruct (fs !! j).
  - now rewrite Nat.add_0_r.
  - rewrite IH. now replace (S k + j)%nat with (k + S j)%nat by lia.
Qed.

Lemma length_replace_cells n v fs : forall r,
  length (replace_cells n v fs r) = length r.
Proof.
  induction fs as [|f fs IH]; intros [|c r]; simpl; auto.
Qed.

Lemma length_fill_cells value subset fs : forall k r,
  length (fill_cells value subset k fs r) = length r.
Proof.
  induction fs as [|f fs IH]; intros k [|c r]; simpl; auto.
Qed.

Lemma fill_cell_not_null value c : fill_cell DoubleType value c <> VNull.
Proof.
  destruct c; simpl; try discriminate. now destruct (is_nan x).
Qed.

(** C7 (amended). When [initialize] succeeds, the training dataframe is
    data/readings.csv as read, and the new reading is ./data/newReading.json
    in which only the column the label (the first argument) resolves to is
    changed: it is named after the label, typed double, each of its cells is
    cast to double and then null (or NaN) becomes 0.0, so none is null.
    Every other column keeps its name, type and cells. *)
Theorem initialize_new_reading (w w' : World) dataDf nr :
  initialize w = (Ok (Some (dataDf, nr)), w') ->
  exists label raw,
    nth_error (argv w) 1 = Some label /\
    files w !! "data/readings.csv" = Some dataDf /\
    files w !! "./data/newReading.json" = Some raw /\
    schema nr = map (fun f => if named label f then mkField label DoubleType
                              else f) (schema raw) /\
    forall k (r : Row), rows raw !! k = Some r ->
      exists r' : Row, rows nr !! k = Some r' /\ length r' = length r /\
        forall j f c, schema raw !! j = Some f -> r !! j = Some c ->
          exists c', r' !! j = Some c' /\
            if named label f
            then c' = fill_cell DoubleType zero (cast_double c) /\ c' <> VNull
            else c' = c.
Proof.
  intros Hi.
  destruct (initialize_inv _ _ _ _ Hi)
    as (_ & _ & label & raw & casted & Ha & Hcsv & Hjson & Hc & Hf).
  exists label, raw. do 3 (split; [assumption|]).
  unfold withColumn_cast_double, col in Hc.
  destruct (plain_name label); [|discriminate].
  destruct (resolve raw label) as [i|] eqn:Hres; cbn [rbind] in Hc;
    [|discriminate].
  assert (Hcasted : casted = withColumn label DoubleType
                               (fun r => cast_double (col_at i r)) raw)
    by (destruct (type_at i raw); congruence).
  clear Hc. subst casted.
  unfold na_fill in Hf. cbn [mapM rbind] in Hf.
  destruct (resolve (withColumn label DoubleType
                       (fun r => cast_double (col_at i r)) raw) label)
    as [i'|] eqn:Hres'; cbn [mapM rbind] in Hf; [|discriminate].
  injection Hf as <-.
  pose proof (resolve_only_at _ _ _ Hres) as Ho.
  pose proof (resolve_only_at _ _ _ Hres') as Ho'.
  destruct (resolve_named _ _ _ Hres) as (g & Hg & Hgn).
  destruct (resolve_named _ _ _ Hres') as (g' & Hg' & Hgn').
  assert (Hex : existsb (named label) (schema raw) = true).
  { apply existsb_exists. exists g. split; auto.
    apply list_elem_of_In, list_elem_of_lookup. eauto. }
  cbn [schema rows withColumn] in *. unfold with_field, with_cell in *.
  rewrite Hex in *. split; [reflexivity|].
  intros k r Hr.
  exists (fill_cells zero [i'] 0
            (map (fun f => if named label f then mkField label DoubleType else f)
                 (schema raw))
            (replace_cells label (cast_double (col_at i r)) (schema raw) r)).
  split.
  { rewrite !list_lookup_fmap. unfold Row in *. rewrite Hr. reflexivity. }
  split; [now rewrite length_fill_cells, length_replace_cells|].
  intros j f c Hj Hcj.
  rewrite fill_cells_lookup, replace_cells_lookup, list_lookup_fmap, Hj, Hcj.
  cbn [fmap option_fmap option_map]. eexists. split; [reflexivity|].
  destruct (named label f) eqn:Hnf.
  - assert (j = i) by (eapply Ho; eauto). subst j.
    assert (Hii' : i = i').
    { apply (Ho' i (mkField label DoubleType)).
      - rewrite list_lookup_fmap, Hj. simpl. now rewrite Hnf.
      - apply resolver_refl. }
    subst i'. cbn [dataType numeric andb existsb Nat.add].
    rewrite Nat.eqb_refl. cbn [orb].
    assert (Hcol : col_at i r = c).
    { unfold col_at. now apply nth_lookup_Some. }
    rewrite Hcol. split; [reflexivity | apply fill_cell_not_null].
  - assert (Hne : Nat.eqb j i' = false).
    { apply Nat.eqb_neq. intros ->.
      rewrite list_lookup_fmap, Hj in Hg'. simpl in Hg'. rewrite Hnf in Hg'.
      injection Hg' as <-. congruence. }
    cbn [existsb Nat.add]. rewrite Hne. cbn [orb].
    now rewrite andb_false_r.
Qed.

End NewReading.

(** ** The sample engine and sample runs *)

Lemma run_pair {A B} (x : A * B) (a : A) : fst x = a -> x = (a, snd x).
Proof. intros <-. now destruct x. Qed.

(** ** Persisted trees *)

Lemma numbered_app ds ds' : forall i,
  Trees.numbered i ds ->
  Trees.numbered (i + Z.of_nat (length ds)) ds' ->
  Trees.numbered i (ds ++ ds').
Proof.
  induction ds as [|d ds IH]; intros i H1 H2; simpl in *.
  - now rewrite Z.add_0_r in H2.
  - destruct H1 as [Hd H1]. split; [exact Hd|]. apply IH; [exact H1|].
    now replace (i + 1 + Z.of_nat (length ds))
      with (i + Z.pos (Pos.of_succ_nat (length ds))) by lia.
Qed.

(** The records of a subtree are numbered from its root's number on, without
    a gap. *)
Lemma build_numbered node : forall i,
  Trees.numbered i (fst (Trees.build node i)) /\
  snd (Trees.build node i)
  = i + Z.of_nat (length (fst (Trees.build node i))) - 1 /\
  (0 < length (fst (Trees.build node i)))%nat /\
  Trees.head_id (fst (Trees.build node i)) = i.
Proof.
  induction node as [p imp st | p imp g l IHl r IHr f th st]; intros i.
  - simpl. repeat split; lia.
  - cbn [Trees.build fst snd].
    destruct (IHl (i + 1)) as (Hl1 & Hl2 & Hl3 & _).
    destruct (IHr (snd (Trees.build l (i + 1)) + 1)) as (Hr1 & Hr2 & Hr3 & _).
    split; [|split; [|split]].
    + split; [reflexivity|]. apply numbered_app; [exact Hl1|].
      now replace (i + 1 + Z.of_nat (length (fst (Trees.build l (i + 1)))))
        with (snd (Trees.build l (i + 1)) + 1) by lia.
    + rewrite Hr2. cbn [length]. rewrite length_app. lia.
    + cbn [length]. lia.
    + reflexivity.
Qed.

Lemma sortBy_numbered ds : forall i,
  Trees.numbered i ds -> Trees.sortBy_id ds = ds.
Proof.
  unfold Trees.sortBy_id.
  induction ds as [|d ds IH]; intros i Hn; [reflexivity|].
  destruct Hn as [Hd Hn]. cbn [foldr]. rewrite (IH (i + 1) Hn).
  destruct ds as [|d' ds']; [reflexivity|].
  destruct Hn as [Hd' _]. cbn [Trees.insert]. rewrite Hd, Hd'.
  now replace (i <=? i + 1) with true by (symmetry; apply Z.leb_le; lia).
Qed.

Lemma last_numbered ds : forall i d0,
  Trees.numbered i ds -> ds <> [] ->
  Trees.nid (List.last ds d0) = i + Z.of_nat (length ds) - 1.
Proof.
  induction ds as [|d ds IH]; intros i d0 Hn Hne; [contradiction|].
  destruct Hn as [Hd Hn]. destruct ds as [|d' ds'].
  - simpl. lia.
  - change (List.last (d :: d' :: ds') d0) with (List.last (d' :: ds') d0).
    rewrite (IH (i + 1) d0 Hn) by discriminate. cbn [length]. lia.
Qed.

(** Building from the last record to the first puts every subtree at its
    root's number and leaves the other numbers alone. *)
Lemma place_build node : forall i (fm : gmap Z Trees.Node),
  0 <= i ->
  exists fm',
    foldr Trees.place (Ok fm) (fst (Trees.build node i)) = Ok fm' /\
    fm' !! i = Some node /\
    forall k, k < i \/ snd (Trees.build node i) < k -> fm' !! k = fm !! k.
Proof.
  induction node as [p imp st | p imp g l IHl r IHr f th st]; intros i fm Hi.
  - exists (<[i := Trees.LeafNode p imp st]> fm). split; [reflexivity|].
    split; [apply lookup_insert_eq|].
    intros k Hk. cbn [Trees.build snd] in Hk. apply lookup_insert_ne. lia.
  - cbn [Trees.build fst snd].
    destruct (build_numbered l (i + 1)) as (_ & Hl2 & Hl3 & Hlh).
    destruct (build_numbered r (snd (Trees.build l (i + 1)) + 1))
      as (_ & Hr2 & Hr3 & Hrh).
    set (lb := Trees.build l (i + 1)) in *.
    set (rb := Trees.build r (snd lb + 1)) in *.
    destruct (IHr (snd lb + 1) fm ltac:(lia)) as (fm1 & Hfm1 & Hr1 & Hout1).
    destruct (IHl (i + 1) fm1 ltac:(lia)) as (fm2 & Hfm2 & Hl1 & Hout2).
    fold lb in Hfm2, Hout2. fold rb in Hfm1, Hout1.
    exists (<[i := Trees.InternalNode p imp g l r f th st]> fm2).
    split; [|split].
    + cbn [foldr]. rewrite foldr_app, Hfm1, Hfm2.
      unfold Trees.place. cbn [rbind Trees.nd_leftChild Trees.nd_rightChild
        Trees.nid Trees.nd_split Trees.nd_prediction Trees.nd_impurity
        Trees.nd_gain Trees.nd_impurityStats].
      rewrite Hlh, Hrh.
      replace (i + 1 =? -1) with false by (symmetry; apply Z.eqb_neq; lia).
      rewrite Hl1, (Hout2 (snd lb + 1)) by lia. rewrite Hr1.
      reflexivity.
    + apply lookup_insert_eq.
    + intros k Hk. rewrite lookup_insert_ne by lia.
      rewrite Hout2 by lia. apply Hout1. lia.
Qed.

Lemma buildTreeFromNodes_build node :
  Trees.buildTreeFromNodes (fst (Trees.build node 0)) = Ok node.
Proof.
  destruct (build_numbered node 0) as (Hn & Hlast & Hlen & _).
  destruct (place_build node 0 ∅ ltac:(lia)) as (fm & Hfm & Hroot & _).
  unfold Trees.buildTreeFromNodes. rewrite (sortBy_numbered _ 0 Hn).
  destruct (fst (Trees.build node 0)) as [|first rest] eqn:Hds;
    [simpl in Hlen; lia|].
  rewrite (last_numbered _ 0 first Hn) by discriminate.
  destruct Hn as [-> _].
  replace (0 + Z.of_nat (length (first :: rest)) - 1
           =? Z.of_nat (length (first :: rest)) - 1)
    with true by (symmetry; apply Z.eqb_eq; lia).
  cbn [Z.eqb andb]. rewrite Hfm. cbn [rbind]. now rewrite Hroot.
Qed.

(** What [save] wrote, [load] reads back as the model that was saved. *)
Lemma tree_load_save (m : Trees.TreeModel) :
  Trees.tree_load (Trees.tree_files m) = Ok m.
Proof.
  unfold Trees.tree_load, Trees.tree_files. cbn [Trees.data Trees.metadata].
  rewrite buildTreeFromNodes_build. now destruct m.
Qed.

Section Reload.
Variable base : Engine.
Variable training : CrossValidator -> DataFrame -> result Trees.TreeModel.
Variable save_fault : Trees.TreeModel -> option exn.
Variable debris : Trees.TreeModel -> option Trees.TreeFiles.
Variable importances : Trees.TreeModel -> list double.
Variable debug : Trees.TreeModel -> string.

(** C3. With the library's trees for models, whatever the trainer, the
    calendar and the faults of the engine: once [trainOrLoad] has trained
    and saved a model at a path where there was none, a later run from any
    world that still holds that directory loads, from the node records the
    save wrote, a model whose prediction on every features vector, and so
    whose prediction column on every dataframe, equal the trained
    model's. *)
Theorem reload_same_predictions
    (l : string) (dtcv dtcv' : CrossValidator) (trainDf trainDf' : DataFrame) :
  let E := Trees.engine base training save_fault debris importances debug in
  let p := (modelDir ++ l)%string in
  forall (w w1 w2 : @World E) (m : Trees.TreeModel),
  models w !! p = None ->
  @trainOrLoad E (Some l) dtcv trainDf w = (Ok (Some m), w1) ->
  models w2 !! p = models w1 !! p ->
  exists m' w3,
    @trainOrLoad E (Some l) dtcv' trainDf' w2 = (Ok (Some m'), w3) /\
    models w3 = models w2 /\
    In (CallLoad p) (trace w3) /\
    (forall v, @predict E m' v = @predict E m v) /\
    (forall df, @transform E m' df = @transform E m df).
Proof.
  intros E p w w1 w2 m Hp Hrun Hsame.
  destruct (@path_fault E p) as [e|] eqn:Hf.
  { rewrite (@trainOrLoad_unreadable E l dtcv trainDf w e Hf) in Hrun.
    discriminate Hrun. }
  rewrite (@trainOrLoad_absent E l dtcv trainDf w Hf Hp) in Hrun. fold p in Hrun.
  destruct (@fit E dtcv trainDf) as [m0|e]; [|discriminate].
  destruct (@save E m0) as [a|e] eqn:Hs; [|discriminate].
  injection Hrun as -> <-.
  assert (Hfiles : a = Trees.tree_files m).
  { cbn in Hs. destruct (save_fault m); [discriminate | congruence]. }
  subst a.
  assert (Ha : models w2 !! p = Some (Trees.tree_files m)).
  { etransitivity; [exact Hsame|]. simpl. apply lookup_insert_eq. }
  exists m. eexists.
  rewrite (@trainOrLoad_present E l dtcv' trainDf' w2 _ Hf Ha). fold p.
  change (@load E (Trees.tree_files m)) with (Trees.tree_load (Trees.tree_files m)).
  rewrite tree_load_save.
  split; [reflexivity|]. split; [reflexivity|].
  split; [cbn; rewrite in_app_iff; right; now left|].
  split; reflexivity.
Qed.

End Reload.

(** C3, witness: a trainer that yields a tree with one split, and the sample
    training split. *)
Lemma reload_same_predictions_witness :
  exists m' w3,
    @trainOrLoad Cases.fixed (Some "temperature")
      (fst (Example.estimators Example.plain))
      (prepared_trainSplit (Example.prepared Example.plain))
      (snd Cases.fixed_run)
    = (Ok (Some m'), w3) /\
    models w3 = models (snd Cases.fixed_run) /\
    In (CallLoad (modelDir ++ "temperature")%string) (trace w3) /\
    (forall v, @predict Cases.fixed m' v = @predict Cases.fixed Cases.two_leaves v) /\
    (forall df, @transform Cases.fixed m' df
                = @transform Cases.fixed Cases.two_leaves df).
Proof.
  apply (@reload_same_predictions (Example.bare None)
           (fun _ _ => Ok Cases.two_leaves) (fun _ => None) (fun _ => None)
           (fun _ => []) (fun _ => "DecisionTreeRegressionModel")
           "temperature"
           (fst (Example.estimators Example.plain))
           (fst (Example.estimators Example.plain))
           (prepared_trainSplit (Example.prepared Example.plain))
           (prepared_trainSplit (Example.prepared Example.plain))
           (Example.world Cases.fixed ["temperature"])
           (snd Cases.fixed_run) (snd Cases.fixed_run)
           Cases.two_leaves).
  - reflexivity.
  - apply (run_pair Cases.fixed_run). vm_compute. reflexivity.
  - reflexivity.
Defined.

(** C7, witness: the sample files with temperature as the label. *)
Lemma initialize_new_reading_witness :
  exists label raw,
    nth_error (argv (Example.start ["temperature"])) 1 = Some label /\
    files (Example.start ["temperature"]) !! "data/readings.csv"
    = Some (fst Example.loaded) /\
    files (Example.start ["temperature"]) !! "./data/newReading.json" = Some raw /\
    schema (snd Example.loaded)
    = map (fun f => if named label f then mkField label DoubleType else f)
          (schema raw) /\
    forall k (r : Row), rows raw !! k = Some r ->
      exists r' : Row, rows (snd Example.loaded) !! k = Some r' /\
        length r' = length r /\
        forall j f c, schema raw !! j = Some f -> r !! j = Some c ->
          exists c', r' !! j = Some c' /\
            if named label f
            then c' = @fill_cell DoubleType zero (@cast_double Example.plain c)
                 /\ c' <> VNull
            else c' = c.
Proof.
  apply (@initialize_new_reading Example.plain (Example.start ["temperature"])
           (snd (@initialize Example.plain (Example.start ["temperature"])))
           (fst Example.loaded) (snd Example.loaded)).
  apply run_pair. vm_compute. reflexivity.
Defined.

(** C7 as stated fails on the sample files: the new reading keeps the
    schema its reader gave it, not the training dataframe's, and the null in
    its humidity column stays. *)
Lemma initialize_new_reading_counterexample :
  ~ (forall (E : Engine) (w w' : World) dataDf nr,
       @initialize E w = (Ok (Some (dataDf, nr)), w') ->
       schema nr = schema dataDf) /\
  ~ (forall (E : Engine) (w w' : World) dataDf nr,
       @initialize E w = (Ok (Some (dataDf, nr)), w') ->
       Forall (fun r : Row => ~ In VNull r) (rows nr)).
Proof.
  assert (Hrun : @initialize Example.plain (Example.start ["temperature"])
                 = (Ok (Some (fst Example.loaded, snd Example.loaded)),
                    snd (@initialize Example.plain (Example.start ["temperature"]))))
    by (apply run_pair; vm_compute; reflexivity).
  split; intros Hclaim; specialize (Hclaim _ _ _ _ _ Hrun).
  - vm_compute in Hclaim. discriminate Hclaim.
  - vm_compute in Hclaim. apply Forall_cons in Hclaim.
    destruct Hclaim as [Hnull _]. apply Hnull. now left.
Qed.

(** C4 as stated fails: [filterTimestamp] on a dataframe without a timestamp
    column and [featureImportance] on [None] let their exception out. *)
Lemma exception_guards_counterexample :
  ~ (forall (E : Engine) df e, @filterTimestamp E df <> Raise e) /\
  ~ (forall (E : Engine) bestModel features (w w' : World) e,
       @featureImportance E bestModel features w <> (Raise e, w')).
Proof.
  split; intros Hclaim.
  - apply (Hclaim Example.plain Example.no_frame AnalysisException).
    reflexivity.
  - apply (Hclaim Example.plain None [] (Example.start [])
             (logged [Print "Feature Importances:"] (Example.start []))
             AttributeError).
    reflexivity.
Qed.

(** C5 as stated fails: run without an argument, [initialize] returns
    [None] and [main] stops with TypeError. *)
Lemma failures_in_main_counterexample :
  ~ (forall (E : Engine) (w w1 : World),
       @initialize E w = (Ok None, w1) -> exists w', @main E w = (Ok tt, w')).
Proof.
  intros Hclaim.
  destruct (Hclaim Example.plain (Example.start [])
              (snd (@initialize Example.plain (Example.start []))))
    as [w' Hmain]; [apply run_pair; vm_compute; reflexivity|].
  assert (Hfst : fst (@main Example.plain (Example.start [])) = Raise TypeError)
    by (vm_compute; reflexivity).
  rewrite Hmain in Hfst. discriminate Hfst.
Qed.

(** C6 as stated fails: for a label longer than a file name may be nothing
    is at the path, and yet the run does not train: the existence test
    raises OSError before either branch. *)
Lemma trainOrLoad_lifecycle_counterexample :
  ~ (forall (E : Engine) (l : string) dtcv trainDf (w : World),
       models w !! (modelDir ++ l)%string = None ->
       In (CallFit dtcv)
          (trace (snd (@trainOrLoad E (Some l) dtcv trainDf w)))).
Proof.
  intros Hclaim.
  specialize (Hclaim Example.plain Cases.long_label
                (fst (Example.estimators Example.plain)) Example.no_frame
                (Example.start [Cases.long_label]) (lookup_empty _)).
  rewrite (@trainOrLoad_unreadable Example.plain Cases.long_label _ _ _
             (OSError 36)) in Hclaim by (vm_compute; reflexivity).
  exact Hclaim.
Qed.

(** C10 as stated fails: run without an argument, [main] raises TypeError
    at its first line, not ValueError at [features.remove(label)]. *)
Lemma main_label_not_a_column_counterexample :
  ~ (forall (E : Engine) (w : World),
       nth_error (argv w) 1 = None ->
       exists w', @main E w = (Raise ValueError, w')).
Proof.
  intros Hclaim.
  destruct (Hclaim Example.plain (Example.start []) eq_refl) as [w' Hmain].
  assert (Hfst : fst (@main Example.plain (Example.start [])) = Raise TypeError)
    by (vm_compute; reflexivity).
  rewrite Hmain in Hfst. discriminate Hfst.
Qed.

(** C5, witness: a run without an argument, a run whose gateway fails, a
    run whose training fails, and a run in which nothing fails. *)
Lemma failures_in_main_witness :
  @main Example.plain (Example.start [])
  = (Raise TypeError, snd (@initialize Example.plain (Example.start []))) /\
  @main Example.faulty_gateway (Example.world Example.faulty_gateway ["temperature"])
  = (Raise TypeError, Example.after_estimators Example.faulty_gateway) /\
  @main Example.faulty_training (Example.world Example.faulty_training ["temperature"])
  = (Raise AttributeError,
     logged [Print "Feature Importances:"]
       (Example.after_training Example.faulty_training)) /\
  exists w', @main Example.plain (Example.start ["temperature"]) = (Ok tt, w').
Proof.
  split; [|split; [|split]].
  - apply (proj1 (@failures_in_main Example.plain)).
    apply run_pair. vm_compute. reflexivity.
  - apply (proj1 (proj2 (@failures_in_main Example.faulty_gateway)
                    (Example.world Example.faulty_gateway ["temperature"])
                    (Example.prepared Example.faulty_gateway)
                    (Example.after_prepare Example.faulty_gateway)
                    ltac:(apply run_pair; vm_compute; reflexivity))).
    apply run_pair. vm_compute. reflexivity.
  - apply (proj1 (proj2 (proj2 (@failures_in_main Example.faulty_training)
                    (Example.world Example.faulty_training ["temperature"])
                    (Example.prepared Example.faulty_training)
                    (Example.after_prepare Example.faulty_training)
                    ltac:(apply run_pair; vm_compute; reflexivity))
                    (fst (Example.estimators Example.faulty_training))
                    (snd (Example.estimators Example.faulty_training))
                    (Example.after_estimators Example.faulty_training)
                    ltac:(apply run_pair; vm_compute; reflexivity))).
    apply run_pair. vm_compute. reflexivity.
  - apply (proj2 (proj2 (proj2 (@failures_in_main Example.plain)
                    (Example.start ["temperature"])
                    (Example.prepared Example.plain)
                    (Example.after_prepare Example.plain)
                    ltac:(apply run_pair; vm_compute; reflexivity))
                    (fst (Example.estimators Example.plain))
                    (snd (Example.estimators Example.plain))
                    (Example.after_estimators Example.plain)
                    ltac:(apply run_pair; vm_compute; reflexivity))
             Example.first_model (Example.after_training Example.plain)).
    apply run_pair. vm_compute. reflexivity.
Defined.

(** C10, witness: a run without an argument, and a run whose label is
    timestamp. *)
Lemma main_label_not_a_column_witness :
  (exists w', @main Example.plain (Example.start []) = (Raise TypeError, w')) /\
  @main Example.plain (Example.start ["timestamp"])
  = (Raise ValueError,
     snd (@setLabel Example.plain
            (snd (@initialize Example.plain (Example.start ["timestamp"]))))).
Proof.
  split.
  - apply (proj1 (@main_label_not_a_column Example.plain)); reflexivity.
  - apply (proj2 (proj2 (@main_label_not_a_column Example.plain))
             (Example.start ["timestamp"])
             (snd (@initialize Example.plain (Example.start ["timestamp"])))
             (snd (@setLabel Example.plain
                     (snd (@initialize Example.plain (Example.start ["timestamp"])))))
             (fst (Example.loaded_for ["timestamp"]))
             (snd (Example.loaded_for ["timestamp"]))
             (Some "timestamp")
             Example.filtered_readings).
    + apply run_pair. vm_compute. reflexivity.
    + apply run_pair. vm_compute. reflexivity.
    + vm_compute. reflexivity.
    + vm_compute. intros Hin.
      repeat (destruct Hin as [Hin | Hin]; [discriminate Hin|]). exact Hin.
Defined.

(** C4, witness: no guard around [filterTimestamp], nor around the start
    of the engine in [initialize]. *)
Lemma exception_guards_witness :
  @filterTimestamp Example.plain Example.no_frame = Raise AnalysisException /\
  @initialize Example.plain Example.stopped
  = (Raise (Py4JJavaError 0), Example.stopped).
Proof.
  split.
  - apply (proj1 (proj2 (proj2 (proj2 (proj2 (proj2 (proj2
             (@exception_guards Example.plain)))))))).
    reflexivity.
  - apply (proj1 (proj2 (proj2 (proj2 (@exception_guards Example.plain)))) Example.stopped).
    reflexivity.
Defined.

(** * Further properties *)

(** ** Steps that only print *)

Section Quiet.
Context `{Engine}.

Lemma logged_nil (w : World) : logged [] w = w.
Proof. destruct w. unfold logged. simpl. now rewrite app_nil_r. Qed.

Lemma quiet_refl (w : World) : quiet w w.
Proof. exists []. split; [reflexivity | now rewrite logged_nil]. Qed.

Lemma quiet_trans (w1 w2 w3 : World) : quiet w1 w2 -> quiet w2 w3 -> quiet w1 w3.
Proof.
  intros (e1 & H1 & ->) (e2 & H2 & ->). exists (e1 ++ e2). split.
  - rewrite forallb_app, H1, H2. reflexivity.
  - apply logged_logged.
Qed.

Lemma silent_ret {A} (a : A) : silent (ret a).
Proof. intros w. apply quiet_refl. Qed.

Lemma silent_raise {A} (e : exn) : silent (@raise _ A e).
Proof. intros w. apply quiet_refl. Qed.

Lemma silent_lift {A} (r : result A) : silent (lift r).
Proof. intros w. apply quiet_refl. Qed.

Lemma silent_emit ev : printed ev = true -> silent (emit ev).
Proof.
  intros Hp w. exists [ev]. split; [simpl; now rewrite Hp | reflexivity].
Qed.

Lemma silent_bind {A B} (m : M A) (k : A -> M B) :
  silent m -> (forall a, silent (k a)) -> silent (bind m k).
Proof.
  intros Hm Hk w. unfold bind. specialize (Hm w).
  destruct (m w) as [[a|e] w1]; simpl in *; [|exact Hm].
  eapply quiet_trans; [exact Hm | apply Hk].
Qed.

Lemma silent_try_except {A} (body : M A) msg :
  silent body -> silent (try_except body msg).
Proof.
  intros Hb w. unfold try_except. specialize (Hb w).
  destruct (body w) as [[a|e] w1]; simpl in *; [exact Hb|].
  eapply quiet_trans; [exact Hb|].
  exists [PrintTraceback e; PrintException e; Print msg]. split; [reflexivity|].
  unfold bind, emit, print, emit, ret. simpl. now rewrite !logged_logged.
Qed.

Ltac silence :=
  repeat first
    [ apply silent_ret | apply silent_raise | apply silent_lift
    | apply silent_emit; reflexivity
    | apply silent_try_except
    | apply silent_bind; [|intros ?] ].

Lemma silent_sys_argv i : silent (sys_argv i).
Proof. intros w. unfold sys_argv. destruct (nth_error _ _); apply quiet_refl. Qed.

Lemma silent_read p : silent (read p).
Proof. intros w. unfold read. destruct (_ !! _); apply quiet_refl. Qed.

Lemma silent_setLabel : silent setLabel.
Proof. unfold setLabel, print. silence. apply silent_sys_argv. Qed.

Lemma silent_initialize : silent initialize.
Proof.
  unfold initialize. apply silent_bind.
  - intros w. unfold SparkContext. destruct (engine_starts w); apply quiet_refl.
  - intros _. apply silent_try_except.
    repeat first [ apply silent_sys_argv | apply silent_read | apply silent_lift
                 | apply silent_ret | apply silent_bind; [|intros ?] ].
Qed.

Lemma silent_cacheDataframe df : silent (cacheDataframe df).
Proof.
  unfold cacheDataframe, action. silence.
  destruct (collect_fault df); silence.
Qed.

Lemma silent_splitDataframe df : silent (splitDataframe df).
Proof.
  unfold splitDataframe, item. apply silent_bind; [intros w; apply quiet_refl|].
  intros splits. apply silent_bind; [destruct (nth_error _ _); silence|].
  intros a. apply silent_bind; [destruct (nth_error _ _); silence|].
  intros b. silence.
Qed.

Lemma silent_decisionTreeRegression label : silent (decisionTreeRegression label).
Proof.
  unfold decisionTreeRegression. silence. destruct (gateway_fault label); silence.
Qed.

Lemma silent_print_importances l : silent (print_importances l).
Proof. induction l as [|[f i] l IH]; simpl; silence. exact IH. Qed.

Lemma silent_featureImportance bestModel features :
  silent (featureImportance bestModel features).
Proof.
  unfold featureImportance, print, deref. silence.
  - destruct bestModel; silence.
  - apply silent_print_importances.
Qed.

Lemma silent_show df n : silent (show df n).
Proof. unfold show, action. silence. destruct (collect_fault df); silence. Qed.

Lemma silent_predictAndEvaluate bestModel label testDf ev nr :
  silent (predictAndEvaluate bestModel label testDf ev nr).
Proof.
  unfold predictAndEvaluate, print, deref.
  repeat first
    [ apply silent_show | apply silent_ret | apply silent_raise | apply silent_lift
    | apply silent_emit; reflexivity
    | apply silent_try_except
    | apply silent_bind; [|intros ?]
    | progress (destruct bestModel) ].
Qed.

Lemma silent_list_remove l x : silent (list_remove l x).
Proof.
  unfold list_remove. destruct x as [s|]; [destruct (remove_first s l)|]; silence.
Qed.

Lemma silent_unpack {A B} (v : option (A * B)) : silent (unpack v).
Proof. destruct v; apply quiet_refl || (intros w; apply quiet_refl). Qed.

Lemma silent_main_prepare : silent main_prepare.
Proof.
  unfold main_prepare.
  repeat first
    [ apply silent_initialize | apply silent_setLabel | apply silent_unpack
    | apply silent_list_remove | apply silent_cacheDataframe
    | apply silent_splitDataframe | apply silent_lift | apply silent_ret
    | apply silent_bind; [|intros ?] ].
Qed.

(** X11. Whatever they return or raise, [setLabel], [initialize],
    [cacheDataframe], [splitDataframe], [decisionTreeRegression],
    [featureImportance] and [predictAndEvaluate] only print: arguments, files,
    stored models and seed are left as they were, and none of them calls fit,
    save or load. *)
Theorem only_trainOrLoad_touches_the_store :
  silent setLabel /\
  silent initialize /\
  (forall df, silent (cacheDataframe df)) /\
  (forall df, silent (splitDataframe df)) /\
  (forall label, silent (decisionTreeRegression label)) /\
  (forall bestModel features, silent (featureImportance bestModel features)) /\
  (forall bestModel label testDf ev nr,
     silent (predictAndEvaluate bestModel label testDf ev nr)).
Proof.
  repeat split;
    auto using silent_setLabel, silent_initialize, silent_cacheDataframe,
      silent_splitDataframe, silent_decisionTreeRegression,
      silent_featureImportance, silent_predictAndEvaluate.
Qed.


(** ** The model store across a run *)


Lemma quiet_models (w w' : World) : quiet w w' -> models w' = models w.
Proof. now intros (evs & _ & ->). Qed.

Lemma main_prepare_label (w w0 : World) p :
  main_prepare w = (Ok p, w0) ->
  exists l, prepared_label p = Some l /\ nth_error (argv w) 1 = Some l.
Proof.
  unfold main_prepare. intros Hp.
  apply bind_inv in Hp. destruct Hp as (r & w1 & Hi & Hp).
  apply bind_inv in Hp. destruct Hp as ([dataDf nr] & w2 & Hu & Hp).
  destruct r as [[d n]|]; [|discriminate Hu]. injection Hu as -> -> <-.
  apply initialize_inv in Hi.
  destruct Hi as (-> & _ & l & raw & casted & Ha & _).
  rewrite (bind_ok _ _ _ _ _ (setLabel_some w l Ha)) in Hp.
  repeat (apply bind_inv in Hp; destruct Hp as (? & ? & _ & Hp)).
  injection Hp as <- _. exists l. auto.
Qed.

(** How far [main] gets: it stops before [trainOrLoad], having only printed,
    or it runs [trainOrLoad] once, for the label given as first argument,
    and only prints before and after. *)
Lemma main_shape (w : World) :
  (quiet w (snd (main w)) /\ exists e, fst (main w) = Raise e) \/
  (exists l cv trainDf w1 r w2,
     nth_error (argv w) 1 = Some l /\
     quiet w w1 /\
     trainOrLoad (Some l) cv trainDf w1 = (Ok r, w2) /\
     quiet w2 (snd (main w)) /\
     (fst (main w) = Ok tt -> exists m, r = Some m)).
Proof.
  pose proof (silent_main_prepare w) as Hq0.
  destruct (main_prepare w) as [[p|e] w0] eqn:Hp; simpl in Hq0.
  2:{ left. rewrite main_split, (bind_raise _ _ _ _ _ Hp). simpl. eauto. }
  destruct (main_prepare_label _ _ _ Hp) as (l & Hl & Ha).
  assert (Hm : main w = main_model p w0)
    by (now rewrite main_split, (bind_ok _ _ _ _ _ Hp)).
  rewrite Hm. clear Hm. unfold main_model. rewrite Hl.
  pose proof (silent_decisionTreeRegression (Some l) w0) as Hq1.
  destruct (decisionTreeRegression (Some l) w0) as [[q|e] w1] eqn:Hd;
    simpl in Hq1.
  2:{ left. rewrite (bind_raise _ _ _ _ _ Hd). simpl.
      split; [eapply quiet_trans|]; eauto. }
  rewrite (bind_ok _ _ _ _ _ Hd).
  destruct q as [[cv ev]|].
  2:{ left. simpl. split; [eapply quiet_trans|]; eauto. }
  rewrite (bind_ok _ _ w1 (cv, ev) w1 eq_refl). cbn [fst snd].
  destruct (path_fault (modelDir ++ l)%string) as [e|] eqn:Hfault.
  { left.
    rewrite (bind_raise _ _ _ _ _
               (trainOrLoad_unreadable l cv (prepared_trainSplit p) w1 e Hfault)).
    simpl. split; [eapply quiet_trans|]; eauto. }
  right. exists l, cv, (prepared_trainSplit p), w1.
  destruct (trainOrLoad_some l cv (prepared_trainSplit p) w1 Hfault)
    as [(m & w2 & Ht) | (e & w2 & msg & Ht & _)];
    rewrite (bind_ok _ _ _ _ _ Ht).
  - exists (Some m), w2. split; [exact Ha|]. split; [eapply quiet_trans; eauto|].
    split; [exact Ht|]. split; [|eauto].
    pose proof (silent_featureImportance (Some m) (prepared_features p) w2) as Hq2.
    destruct (featureImportance (Some m) (prepared_features p) w2)
      as [[[]|e] w3] eqn:Hf; simpl in Hq2.
    + rewrite (bind_ok _ _ _ _ _ Hf).
      eapply quiet_trans; [exact Hq2 | apply silent_predictAndEvaluate].
    + now rewrite (bind_raise _ _ _ _ _ Hf).
  - eexists None, _. split; [exact Ha|]. split; [eapply quiet_trans; eauto|].
    split; [exact Ht|].
    rewrite (bind_raise _ _ _ _ _ (featureImportance_none _ _)). simpl.
    split; [|discriminate].
    exists [Print "Feature Importances:"]. split; reflexivity.
Qed.


(** What one run of [trainOrLoad] does to the world. *)
Lemma trainOrLoad_store l cv trainDf (w1 w2 : World) r :
  trainOrLoad (Some l) cv trainDf w1 = (Ok r, w2) ->
  let p := (modelDir ++ l)%string in
  exists evs,
    (w2 = logged evs w1 \/
     exists a e1 e2, models w1 !! p = None /\ evs = e1 ++ e2 /\
                     w2 = logged e2 (stored p a (logged e1 w1))) /\
    ((exists m, r = Some m) -> is_Some (models w2 !! p)) /\
    (is_Some (models w1 !! p) ->
     w2 = logged evs w1 /\
     (forall c, ~ In (CallFit c) evs) /\ (forall q, ~ In (CallSave q) evs)).
Proof.
  intros Ht p. destruct (path_fault p) as [e|] eqn:Hfault.
  { rewrite (trainOrLoad_unreadable l cv trainDf w1 e Hfault) in Ht.
    discriminate Ht. }
  destruct (models w1 !! p) as [a|] eqn:Hp.
  - rewrite (trainOrLoad_present l cv trainDf w1 a Hfault Hp) in Ht.
    fold p in Ht.
    destruct (load a) as [m|e]; injection Ht as <- <-; eexists;
      (split; [left; reflexivity|]);
      (split; [intros _; simpl; rewrite Hp; eauto|]);
      intros _; (split; [reflexivity|]);
      split; intros x Hin; simpl in Hin; intuition discriminate.
  - rewrite (trainOrLoad_absent l cv trainDf w1 Hfault Hp) in Ht. fold p in Ht.
    destruct (fit cv trainDf) as [m|e]; [destruct (save m) as [a|e]|];
      injection Ht as <- <-.
    + exists ([CallFit cv; CallSave p] ++ [Print "Model Saved"]). split.
      * right. exists a, [CallFit cv; CallSave p], [Print "Model Saved"]. auto.
      * split; [intros _; simpl; rewrite lookup_insert_eq; eauto|].
        intros [x Hx]; discriminate Hx.
    + unfold left_behind. destruct (partial_save m) as [a|].
      * eexists ([CallFit cv; CallSave p] ++ _). split.
        -- right. exists a, [CallFit cv; CallSave p]. eexists. eauto.
        -- split; [intros [m' Hm']; discriminate Hm'
                  | intros [x Hx]; discriminate Hx].
      * eexists. split; [left; now rewrite logged_logged|].
        split; [intros [m' Hm']; discriminate Hm'
               | intros [x Hx]; discriminate Hx].
    + eexists. split; [left; reflexivity|].
      split; [intros [m' Hm']; discriminate Hm' | intros [x Hx]; discriminate Hx].
Qed.


(** X12. Whatever a run of [main] does, it only adds to the trace, leaves
    arguments, files and seed alone, keeps every stored model as it was, and
    can change the store at one path only: the one of its label, and only
    when nothing was stored there. *)
Theorem main_keeps_models (w : World) :
  let w' := snd (main w) in
  argv w' = argv w /\ engine_starts w' = engine_starts w /\
  files w' = files w /\ seed w' = seed w /\
  (exists evs, trace w' = trace w ++ evs) /\
  (forall q a, models w !! q = Some a -> models w' !! q = Some a) /\
  (forall q, models w' !! q <> models w !! q ->
     exists l, nth_error (argv w) 1 = Some l /\ q = (modelDir ++ l)%string /\
               models w !! q = None).
Proof.
  intros w'.
  destruct (main_shape w)
    as [[(evs & _ & Hq) _]
       | (l & cv & trainDf & w1 & r & w2 & Ha & (e1 & _ & ->) & Ht
          & (e3 & _ & Hq) & _)]; fold w' in Hq; rewrite Hq.
  - simpl. repeat split; eauto. intros q Hne. congruence.
  - destruct (trainOrLoad_store _ _ _ _ _ _ Ht)
      as (evs & [-> | (a & e1' & e2 & Hnone & _ & ->)] & _); simpl in *.
    + repeat split; eauto.
      * exists ((e1 ++ evs) ++ e3). now rewrite !app_assoc.
      * intros q Hne. congruence.
    + repeat split; eauto.
      * exists (((e1 ++ e1') ++ e2) ++ e3). now rewrite !app_assoc.
      * intros q b Hq'. rewrite lookup_insert_ne; [exact Hq' | congruence].
      * intros q Hne. exists l. split; [exact Ha|].
        destruct (decide ((modelDir ++ l)%string = q)) as [<- | Hq'];
          [auto | now rewrite lookup_insert_ne in Hne].
Qed.

(** X13. When [main] returns normally, a model for its label is in the
    store afterwards. *)
Theorem main_success_leaves_model (w : World) :
  fst (main w) = Ok tt ->
  exists l, nth_error (argv w) 1 = Some l /\
            is_Some (models (snd (main w)) !! (modelDir ++ l)%string).
Proof.
  intros Hok.
  destruct (main_shape w)
    as [[_ [e He]]
       | (l & cv & trainDf & w1 & r & w2 & Ha & _ & Ht & Hq & Hr)];
    [congruence|].
  exists l. split; [exact Ha|].
  rewrite (quiet_models _ _ Hq).
  destruct (trainOrLoad_store _ _ _ _ _ _ Ht) as (evs & _ & Hsome & _).
  apply Hsome, Hr, Hok.
Qed.

(** X14. When a model is stored for the label, a run of [main] leaves the
    store as it was and calls neither fit nor save. *)
Theorem main_loads_existing_model (w : World) (l : string) :
  nth_error (argv w) 1 = Some l ->
  is_Some (models w !! (modelDir ++ l)%string) ->
  models (snd (main w)) = models w /\
  exists evs, trace (snd (main w)) = trace w ++ evs /\
              (forall c, ~ In (CallFit c) evs) /\
              (forall q, ~ In (CallSave q) evs).
Proof.
  intros Ha Hsome.
  destruct (main_shape w)
    as [[(evs & Hp & Hq) _]
       | (l' & cv & trainDf & w1 & r & w2 & Ha' & (e1 & Hp1 & ->) & Ht
          & (e3 & Hp3 & Hq) & _)]; rewrite Hq.
  - split; [reflexivity|]. exists evs. split; [reflexivity|].
    rewrite forallb_forall in Hp.
    split; intros x Hin; apply Hp in Hin; discriminate Hin.
  - assert (l' = l) by congruence. subst l'.
    destruct (trainOrLoad_store _ _ _ _ _ _ Ht) as (evs & _ & _ & Hpres).
    destruct (Hpres Hsome) as (-> & Hfit & Hsave).
    split; [reflexivity|]. exists ((e1 ++ evs) ++ e3).
    split; [simpl; now rewrite !app_assoc|].
    rewrite forallb_forall in Hp1, Hp3.
    split; intros x Hin; rewrite !in_app_iff in Hin;
      destruct Hin as [[Hin | Hin] | Hin];
      try (apply Hp1 in Hin; discriminate Hin);
      try (apply Hp3 in Hin; discriminate Hin);
      [eapply Hfit | eapply Hsave]; eauto.
Qed.

(** ** featureImportance *)

Lemma print_importances_logged l (w : World) :
  print_importances l w
  = (Ok tt, logged (map (fun p => PrintImportance (fst p) (snd p)) l) w).
Proof.
  revert w. induction l as [|[f i] l IH]; intros w; simpl.
  - unfold ret. now rewrite logged_nil.
  - unfold bind, emit. rewrite IH, logged_logged. reflexivity.
Qed.

(** X10. With a model, [featureImportance] prints the heading and then one
    line per pair of [zip(features, importances)], in order: as many lines as
    the shorter of the two lists, for the first features. *)
Theorem featureImportance_output m (features : list string) (w : World) :
  let lines := combine features (featureImportances m) in
  featureImportance (Some m) features w
  = (Ok tt, logged (Print "Feature Importances:"
                    :: map (fun p => PrintImportance (fst p) (snd p)) lines) w) /\
  length lines = Nat.min (length features) (length (featureImportances m)) /\
  map fst lines = firstn (length (featureImportances m)) features.
Proof.
  intros lines. split; [|split].
  - unfold featureImportance, print, emit, bind, deref, ret.
    rewrite print_importances_logged, logged_logged. reflexivity.
  - apply length_combine.
  - unfold lines. generalize (featureImportances m). clear lines.
    induction features as [|f fs IH]; intros [|i js]; simpl; auto.
    now rewrite IH.
Qed.

End Quiet.

(** ** filterTimestamp, row by row *)

Section Timestamps.
Context `{Engine}.

Lemma resolve_absent df n :
  (forall c, In c (columns df) -> resolver c n = false) ->
  resolve df n = Raise AnalysisException.
Proof.
  intros Hnone. unfold resolve.
  destruct (positions n (schema df) 0) as [|j l] eqn:Hp; [reflexivity|].
  assert (Hin : In j (positions n (schema df) 0)) by (rewrite Hp; now left).
  apply positions_spec in Hin. destruct Hin as (f & _ & Hf & Hn).
  assert (Hc : In (fname f) (columns df)).
  { unfold columns. apply in_map. apply list_elem_of_In, list_elem_of_lookup. eauto. }
  apply Hnone in Hc. unfold named in Hn. congruence.
Qed.

(** X2. [filterTimestamp] keeps every row, in order (also a row whose
    timestamp is null), and row by row its month, day and hour_range cells
    are the month, the day of month and the bucket of the hour of that row's
    own timestamp; the rows stay aligned with the schema. *)
Theorem filterTimestamp_derived_columns (df out : DataFrame) (ts : nat) :
  wf df ->
  filterTimestamp df = Ok out ->
  resolve df "timestamp" = Ok ts ->
  length (rows out) = length (rows df) /\
  wf out /\
  forall k r, rows df !! k = Some r ->
    let t := to_timestamp (from_unixtime (divide (col_at ts r) (VInt 1000))) in
    exists r', rows out !! k = Some r' /\
      lookup_cell "month" (schema out) r' = Some (month t) /\
      lookup_cell "day" (schema out) r' = Some (dayofmonth t) /\
      lookup_cell "hour_range" (schema out) r' = Some (hour_range_of (hour t)).
Proof.
  intros Hwf Hft Hts.
  unfold filterTimestamp in Hft. rewrite Hts in Hft. cbn [rbind] in Hft.
  destruct (divisible _); cbn [rbind] in Hft; [|discriminate].
  repeat step_resolve Hft.
  injection Hft as <-.
  apply resolve_named in Hres as (f1 & Hf1 & Hn1).
  apply resolve_named in Hres0 as (f2 & Hf2 & Hn2).
  apply resolve_named in Hres1 as (f3 & Hf3 & Hn3).
  apply resolve_named in Hres2 as (f4 & Hf4 & Hn4).
  unfold wf in *. cbn [rows schema withColumn drop] in *.
  set (fs0 := schema df) in *.
  set (fs1 := with_field "timestamp" StringType fs0) in *.
  set (fs2 := with_field "timestamp2" TimestampType fs1) in *.
  set (fs3 := with_field "month" IntegerType fs2) in *.
  set (fs4 := with_field "day" IntegerType fs3) in *.
  set (fs5 := with_field "hour" IntegerType fs4) in *.
  assert (Hf2_3 : fs3 !! i0 = Some f2).
  { apply lookup_with_field; auto. eapply named_other; eauto. }
  assert (Hf2_4 : fs4 !! i0 = Some f2).
  { apply lookup_with_field; auto. eapply named_other; eauto. }
  assert (Hf2_5 : fs5 !! i0 = Some f2).
  { apply lookup_with_field; auto. eapply named_other; eauto. }
  assert (Hf3_5 : fs5 !! i1 = Some f3).
  { do 3 (apply lookup_with_field; [|eapply named_other; eauto]). exact Hf3. }
  assert (Hne : i0 <> i1).
  { intros ->. rewrite Hf2_5 in Hf3_5. injection Hf3_5 as ->.
    rewrite (named_other "timestamp2" "timestamp" f3 Hn2 eq_refl) in Hn3.
    discriminate. }
  set (fs6 := remove_at i1 fs5) in *.
  assert (Hf2_6 : fs6 !! after_drop i1 i0 = Some f2).
  { unfold fs6. rewrite remove_at_lookup; auto. }
  set (fs7 := remove_at (after_drop i1 i0) fs6) in *.
  set (fs8 := with_field "hour_range" LongType fs7) in *.
  assert (Hf4_8 : fs8 !! i2 = Some f4).
  { apply lookup_with_field; [exact Hf4 | eapply named_other; eauto]. }
  split; [now rewrite !length_map|].
  split.
  - rewrite !Forall_map. eapply Forall_impl; [exact Hwf|].
    intros r Hlen0. cbv beta in *.
    set (r1 := with_cell "timestamp" _ fs0 r).
    assert (Hlen1 : length r1 = length fs1) by (apply length_with_cell; auto).
    set (r2 := with_cell "timestamp2" _ fs1 r1).
    assert (Hlen2 : length r2 = length fs2) by (apply length_with_cell; auto).
    set (r3 := with_cell "month" _ fs2 r2).
    assert (Hlen3 : length r3 = length fs3) by (apply length_with_cell; auto).
    set (r4 := with_cell "day" _ fs3 r3).
    assert (Hlen4 : length r4 = length fs4) by (apply length_with_cell; auto).
    set (r5 := with_cell "hour" _ fs4 r4).
    assert (Hlen5 : length r5 = length fs5) by (apply length_with_cell; auto).
    set (r7 := remove_at (after_drop i1 i0) (remove_at i1 r5)).
    assert (Hlen7 : length r7 = length fs7)
      by (unfold r7, fs7, fs6; auto using length_remove_at).
    apply length_remove_at. unfold fs8. apply length_with_cell. exact Hlen7.
  - intros k r Hr.
    rewrite !list_lookup_fmap, Hr. cbn [fmap option_fmap option_map].
    eexists; split; [reflexivity|].
    assert (Hlen0 : length r = length fs0).
    { rewrite Forall_forall in Hwf. apply Hwf. apply list_elem_of_lookup. eauto. }
    set (v1 := from_unixtime (divide (col_at ts r) (VInt 1000))) in *.
    set (r1 := with_cell "timestamp" v1 fs0 r) in *.
    assert (H1 : holds "timestamp" v1 fs1 r1) by (apply with_cell_holds; auto).
    rewrite (holds_col_at _ _ _ _ _ _ H1 Hf1 Hn1).
    set (t := to_timestamp v1) in *.
    set (r2 := with_cell "timestamp2" t fs1 r1) in *.
    assert (H2 : holds "timestamp2" t fs2 r2)
      by (apply with_cell_holds; eapply aligned_holds; eauto).
    rewrite (holds_col_at _ _ _ _ _ _ H2 Hf2 Hn2).
    set (r3 := with_cell "month" (month t) fs2 r2) in *.
    assert (H3 : holds "timestamp2" t fs3 r3)
      by (apply with_cell_keeps; [reflexivity | auto]).
    assert (M3 : holds "month" (month t) fs3 r3)
      by (apply with_cell_holds; eapply aligned_holds; eauto).
    rewrite (holds_col_at _ _ _ _ _ _ H3 Hf2_3 Hn2).
    set (r4 := with_cell "day" (dayofmonth t) fs3 r3) in *.
    assert (H4 : holds "timestamp2" t fs4 r4)
      by (apply with_cell_keeps; [reflexivity | auto]).
    assert (M4 : holds "month" (month t) fs4 r4)
      by (apply with_cell_keeps; [reflexivity | auto]).
    assert (D4 : holds "day" (dayofmonth t) fs4 r4)
      by (apply with_cell_holds; eapply aligned_holds; eauto).
    rewrite (holds_col_at _ _ _ _ _ _ H4 Hf2_4 Hn2).
    set (r5 := with_cell "hour" (hour t) fs4 r4) in *.
    assert (H5 : holds "hour" (hour t) fs5 r5)
      by (apply with_cell_holds; eapply aligned_holds; eauto).
    assert (M5 : holds "month" (month t) fs5 r5)
      by (apply with_cell_keeps; [reflexivity | auto]).
    assert (D5 : holds "day" (dayofmonth t) fs5 r5)
      by (apply with_cell_keeps; [reflexivity | auto]).
    set (r7 := remove_at (after_drop i1 i0) (remove_at i1 r5)) in *.
    assert (H7 : holds "hour" (hour t) fs7 r7) by (do 2 apply remove_at_holds; auto).
    assert (M7 : holds "month" (month t) fs7 r7) by (do 2 apply remove_at_holds; auto).
    assert (D7 : holds "day" (dayofmonth t) fs7 r7) by (do 2 apply remove_at_holds; auto).
    rewrite (holds_col_at _ _ _ _ _ _ H7 Hf4 Hn4).
    set (b := hour_range_of (hour t)).
    assert (Mex : existsb (named "month") (remove_at i2 fs8) = true).
    { eapply named_exists_remove; [exact Hf4_8 | eapply named_other; eauto |].
      apply named_exists_keeps; [reflexivity|].
      eapply named_exists_remove; [exact Hf2_6 | eapply named_other; eauto |].
      eapply named_exists_remove; [exact Hf3_5 | eapply named_other; eauto |].
      do 2 (apply named_exists_keeps; [reflexivity|]).
      apply named_exists_with_field. }
    assert (Dex : existsb (named "day") (remove_at i2 fs8) = true).
    { eapply named_exists_remove; [exact Hf4_8 | eapply named_other; eauto |].
      apply named_exists_keeps; [reflexivity|].
      eapply named_exists_remove; [exact Hf2_6 | eapply named_other; eauto |].
      eapply named_exists_remove; [exact Hf3_5 | eapply named_other; eauto |].
      apply named_exists_keeps; [reflexivity|].
      apply named_exists_with_field. }
    assert (Bex : existsb (named "hour_range") (remove_at i2 fs8) = true).
    { eapply named_exists_remove; [exact Hf4_8 | eapply named_other; eauto |].
      apply named_exists_with_field. }
    split; [|split]; apply holds_lookup_cell; auto; apply remove_at_holds.
    + apply with_cell_keeps; [reflexivity | exact M7].
    + apply with_cell_keeps; [reflexivity | exact D7].
    + apply with_cell_holds. eapply aligned_holds; eauto.
Qed.

(** X4. What [filterTimestamp] returns has no column that timestamp,
    timestamp2 or hour resolves to; applied to its own output it raises
    AnalysisException. *)
Theorem filterTimestamp_not_repeatable (df out : DataFrame) :
  filterTimestamp df = Ok out ->
  Forall (fun n => resolve out n = Raise AnalysisException)
         ["timestamp"; "timestamp2"; "hour"] /\
  filterTimestamp out = Raise AnalysisException.
Proof.
  intros Hft.
  assert (Hgone : forall n, In n ["timestamp"; "timestamp2"; "hour"] ->
                            resolve out n = Raise AnalysisException).
  { intros n Hn. apply resolve_absent. intros c Hc.
    apply (proj1 (filterTimestamp_effect df out Hft)) in Hc.
    destruct Hc as [Hc | [_ Hp]].
    - simpl in Hc, Hn.
      repeat (destruct Hc as [<- | Hc]);
        repeat (destruct Hn as [<- | Hn]); try reflexivity; contradiction.
    - apply passes_through_inv in Hp.
      destruct Hp as (? & ? & ? & ? & ? & ?).
      simpl in Hn. repeat (destruct Hn as [<- | Hn]); auto. contradiction. }
  split.
  - repeat constructor; apply Hgone; simpl; auto.
  - unfold filterTimestamp. rewrite (Hgone "timestamp") by (simpl; auto).
    reflexivity.
Qed.

(** X3. The 8 ranges of 3 hours: an hour [h] of the day gets bucket [b]
    exactly when [3b <= h <= 3b+2], the bucket lies in [[0,7]] (the division
    by 3 in binary64 loses nothing), and a null hour gets a null bucket. *)
Theorem hour_range_of_buckets (h : Z) :
  0 <= h <= 23 ->
  (forall b, hour_range_of (VInt h) = VInt b <-> 3 * b <= h <= 3 * b + 2) /\
  (exists b, 0 <= b <= 7 /\ hour_range_of (VInt h) = VInt b) /\
  hour_range_of VNull = VNull.
Proof.
  intros Hh. rewrite hour_range_of_bucket by exact Hh.
  assert (Hlo : 0 <= h / 3) by (apply Z.div_pos; lia).
  assert (Hhi : h / 3 < 8) by (apply Z.div_lt_upper_bound; lia).
  pose proof (Z.div_mod h 3 ltac:(lia)) as Hdm.
  pose proof (Z.mod_pos_bound h 3 ltac:(lia)) as Hm.
  split; [|split].
  - intros b. split.
    + intros Hb. injection Hb as <-. lia.
    + intros Hb. f_equal. lia.
  - exists (h / 3). split; [lia | reflexivity].
  - reflexivity.
Qed.

End Timestamps.

(** ** vectorizeDataframe *)

Section Assembler.
Context `{Engine}.



Lemma only_at_lookup_cell n fs : forall i r f,
  only_at n i fs -> fs !! i = Some f -> named n f = true ->
  length r = length fs ->
  lookup_cell n fs r = Some (col_at i r).
Proof.
  unfold col_at.
  induction fs as [|g fs IH]; intros i r f Ho Hi Hf Hlen;
    [now rewrite lookup_nil in Hi|].
  destruct r as [|c r]; [discriminate|]. simpl.
  destruct i as [|i].
  - simpl in Hi. injection Hi as ->. now rewrite Hf.
  - destruct (named n g) eqn:Hg.
    + specialize (Ho 0%nat g eq_refl Hg). discriminate.
    + simpl in Hi. apply (IH i r f); auto.
      intros j h Hj Hh. specialize (Ho (S j) h Hj Hh). congruence.
Qed.

Lemma resolve_lookup_cell df c i (r : Row) :
  resolve df c = Ok i -> length r = length (schema df) ->
  lookup_cell c (schema df) r = Some (col_at i r).
Proof.
  intros Hr Hlen. pose proof (resolve_only_at _ _ _ Hr) as Ho.
  apply resolve_named in Hr as (f & Hf & Hn).
  eapply only_at_lookup_cell; eauto.
Qed.

Lemma vectorizeDataframe_inv df features out :
  vectorizeDataframe df features = Ok out ->
  exists idxs,
    mapM (input_column df) features = Ok idxs /\
    ~ In "features" (columns df) /\
    out = {| schema := schema df ++ [mkField "features" VectorUDT];
             rows := map (fun r => r ++ [assemble idxs r]) (rows df) |}.
Proof.
  unfold vectorizeDataframe. intros Hv.
  destruct (mapM _ _) as [idxs|]; cbn [rbind] in Hv; [|discriminate].
  destruct (existsb _ _) eqn:Hex; [discriminate|].
  injection Hv as <-. exists idxs. split; [reflexivity|]. split; [|reflexivity].
  intros Hin.
  assert (existsb (String.eqb "features") (columns df) = true)
    by (apply existsb_exists; exists "features"; auto).
  congruence.
Qed.


(** X6. What [vectorizeDataframe] returns has the input columns followed
    by features, and every input row followed by one vector: the values of
    the features in the order of the feature list, each read from the column
    of that name and cast to double. *)
Theorem vectorizeDataframe_output (df out : DataFrame) (features : list string) :
  wf df ->
  vectorizeDataframe df features = Ok out ->
  columns out = columns df ++ ["features"] /\
  wf out /\
  rows out
  = map (fun r =>
           r ++ [VVector (flat_map
                            (fun c => entries (lookup_cell c (schema df) r))
                            features)])
        (rows df).
Proof.
  intros Hwf Hv. apply vectorizeDataframe_inv in Hv.
  destruct Hv as (idxs & Hm & _ & ->).
  split; [unfold columns; cbn [schema]; now rewrite map_app|]. split.
  - unfold wf in *. cbn [schema rows]. rewrite Forall_map.
    eapply Forall_impl; [exact Hwf|]. intros r Hr. cbv beta in *.
    rewrite !length_app, Hr. reflexivity.
  - apply map_ext_in. intros r Hr. do 2 f_equal. unfold assemble. f_equal.
    assert (Hlen : length r = length (schema df)).
    { unfold wf in Hwf. rewrite Forall_forall in Hwf. apply Hwf.
      now apply list_elem_of_In. }
    clear Hr. revert idxs Hm.
    induction features as [|c cs IH]; intros idxs Hm.
    + simpl in Hm. injection Hm as <-. reflexivity.
    + cbn [mapM] in Hm.
      destruct (input_column df c) as [i|] eqn:Hi; cbn [rbind] in Hm;
        [|discriminate].
      destruct (mapM _ cs) as [is'|] eqn:Hcs; cbn [rbind] in Hm; [|discriminate].
      injection Hm as <-. cbn [flat_map]. rewrite (IH is' eq_refl).
      apply input_column_resolve in Hi.
      rewrite (resolve_lookup_cell df c i r Hi Hlen).
      unfold entries. now destruct (col_at i r).
Qed.

(** X7. A dataframe that [vectorizeDataframe] returned is refused by
    [vectorizeDataframe], whatever the features. *)
Theorem vectorizeDataframe_not_repeatable
    (df out : DataFrame) (features features' : list string) :
  vectorizeDataframe df features = Ok out ->
  exists e, vectorizeDataframe out features' = Raise e.
Proof.
  intros Hv. apply vectorizeDataframe_inv in Hv.
  destruct Hv as (idxs & _ & _ & ->).
  apply vectorizeDataframe_unguarded.
  unfold columns. cbn [schema]. rewrite map_app, in_app_iff. right. now left.
Qed.

End Assembler.

(** ** initialize *)

Section Loading.
Context `{Engine}.




End Loading.

(** ** predictAndEvaluate *)

Section Evaluation.
Context `{Engine}.

Ltac no_rmse Hin Hold :=
  simpl in Hin; rewrite <- ?app_assoc in Hin; apply Hold in Hin; simpl in Hin;
  intuition discriminate.

(** X9. [predictAndEvaluate] prints an RMSE only when there is a model
    and a label, both the test data and the new reading were transformed,
    selected and shown without fault, and then the value printed is what the
    evaluator gives for the test predictions. *)
Theorem predictAndEvaluate_rmse
    (bestModel : option Model) (label : option string) (testDf : DataFrame)
    (dtEvaluator : RegressionEvaluator) (nrFilteredDf : DataFrame)
    (w : World) (v : double) :
  In (PrintRMSE v)
     (trace (snd (predictAndEvaluate bestModel label testDf dtEvaluator
                    nrFilteredDf w))) ->
  ~ In (PrintRMSE v) (trace w) ->
  exists m l dtPredictions nrPredictions shown shown',
    bestModel = Some m /\ label = Some l /\
    transform m testDf = Ok dtPredictions /\
    evaluate dtEvaluator dtPredictions = Ok v /\
    transform m nrFilteredDf = Ok nrPredictions /\
    select [Some "prediction"; Some l; Some "features"] dtPredictions = Ok shown /\
    select [Some "prediction"; Some l; Some "features"] nrPredictions = Ok shown' /\
    collect_fault shown = None /\ collect_fault shown' = None.
Proof.
  intros Hin Hnot.
  assert (Hold : forall evs, In (PrintRMSE v) (trace w ++ evs) ->
                             In (PrintRMSE v) evs).
  { intros evs Hx. apply in_app_iff in Hx. tauto. }
  unfold predictAndEvaluate, try_except, bind, deref, lift, show, action, ret,
    raise, print, emit in Hin.
  destruct bestModel as [m|]; cbv beta iota in Hin; [|no_rmse Hin Hold].
  destruct (transform m testDf) as [p|e1] eqn:Ht; cbv beta iota in Hin;
    [|no_rmse Hin Hold].
  destruct label as [l|].
  2:{ unfold select in Hin. cbn [mapM rbind] in Hin.
      destruct (resolve p "prediction"); cbn [rbind] in Hin; no_rmse Hin Hold. }
  destruct (select _ p) as [s|e2] eqn:Hs; cbv beta iota in Hin;
    [|no_rmse Hin Hold].
  destruct (collect_fault s) as [e3|] eqn:Hc; cbv beta iota in Hin;
    [no_rmse Hin Hold|].
  destruct (transform m nrFilteredDf) as [p'|e4] eqn:Ht'; cbv beta iota in Hin;
    [|no_rmse Hin Hold].
  destruct (select _ p') as [s'|e5] eqn:Hs'; cbv beta iota in Hin;
    [|no_rmse Hin Hold].
  destruct (collect_fault s') as [e6|] eqn:Hc'; cbv beta iota in Hin;
    [no_rmse Hin Hold|].
  destruct (evaluate dtEvaluator p) as [v'|e7] eqn:He; cbv beta iota in Hin;
    [|no_rmse Hin Hold].
  simpl in Hin. rewrite <- ?app_assoc in Hin. apply Hold in Hin. simpl in Hin.
  assert (v' = v) by (intuition congruence). subst v'.
  exists m, l, p, p', s, s'. auto 10.
Qed.

End Evaluation.

(** ** Sample runs *)


(** X2, sample: the three sample readings. *)
Lemma filterTimestamp_derived_columns_witness :
  length (rows Example.filtered_readings) = length (rows Example.readings) /\
  wf Example.filtered_readings /\
  forall k r, rows Example.readings !! k = Some r ->
    let t := @to_timestamp Example.plain
               (@from_unixtime Example.plain
                  (@divide Example.plain (col_at 0 r) (VInt 1000))) in
    exists r', rows Example.filtered_readings !! k = Some r' /\
      lookup_cell "month" (schema Example.filtered_readings) r'
      = Some (@month Example.plain t) /\
      lookup_cell "day" (schema Example.filtered_readings) r'
      = Some (@dayofmonth Example.plain t) /\
      lookup_cell "hour_range" (schema Example.filtered_readings) r'
      = Some (@hour_range_of Example.plain (@hour Example.plain t)).
Proof.
  apply (@filterTimestamp_derived_columns Example.plain
           Example.readings Example.filtered_readings 0%nat).
  - repeat constructor.
  - vm_compute. reflexivity.
  - reflexivity.
Defined.

(** X3, sample: seven o'clock. *)
Lemma hour_range_of_buckets_witness :
  (forall b, @hour_range_of Example.plain (VInt 7) = VInt b
             <-> 3 * b <= 7 <= 3 * b + 2) /\
  (exists b, 0 <= b <= 7 /\ @hour_range_of Example.plain (VInt 7) = VInt b) /\
  @hour_range_of Example.plain VNull = VNull.
Proof. apply (@hour_range_of_buckets Example.plain 7). lia. Defined.

(** X4, sample: the filtered sample readings cannot be filtered again. *)
Lemma filterTimestamp_not_repeatable_witness :
  Forall (fun n => resolve Example.filtered_readings n = Raise AnalysisException)
         ["timestamp"; "timestamp2"; "hour"] /\
  @filterTimestamp Example.plain Example.filtered_readings
  = Raise AnalysisException.
Proof.
  apply (@filterTimestamp_not_repeatable Example.plain Example.readings).
  vm_compute. reflexivity.
Defined.

(** X6, sample: two readings assembled from humidity and temperature. *)
Lemma vectorizeDataframe_output_witness :
  columns Cases.assembled = columns Cases.numbers ++ ["features"] /\
  wf Cases.assembled /\
  rows Cases.assembled
  = map (fun r =>
           r ++ [VVector (flat_map
                            (fun c => @entries Example.plain
                                        (lookup_cell c (schema Cases.numbers) r))
                            ["humidity"; "temperature"])])
        (rows Cases.numbers).
Proof.
  apply (@vectorizeDataframe_output Example.plain).
  - repeat constructor.
  - vm_compute. reflexivity.
Defined.

(** X7, sample: the assembled readings are refused. *)
Lemma vectorizeDataframe_not_repeatable_witness :
  exists e, @vectorizeDataframe Example.plain Cases.assembled ["humidity"]
            = Raise e.
Proof.
  apply (@vectorizeDataframe_not_repeatable Example.plain Cases.numbers
           Cases.assembled ["humidity"; "temperature"] ["humidity"]).
  vm_compute. reflexivity.
Defined.

(** X9, sample: the sample model on the sample test split, which also stands for a
    new reading without nulls. *)
Lemma predictAndEvaluate_rmse_witness :
  exists m l dtPredictions nrPredictions shown shown',
    Some Example.first_model = Some m /\ Some "temperature" = Some l /\
    @transform Example.plain m Cases.test = Ok dtPredictions /\
    @evaluate Example.plain (snd (Example.estimators Example.plain)) dtPredictions
    = Ok Cases.test_rmse /\
    @transform Example.plain m Cases.test = Ok nrPredictions /\
    select [Some "prediction"; Some l; Some "features"] dtPredictions = Ok shown /\
    select [Some "prediction"; Some l; Some "features"] nrPredictions = Ok shown' /\
    @collect_fault Example.plain shown = None /\
    @collect_fault Example.plain shown' = None.
Proof.
  apply (@predictAndEvaluate_rmse Example.plain (Some Example.first_model)
           (Some "temperature") Cases.test
           (snd (Example.estimators Example.plain)) Cases.test
           (Example.start ["temperature"]) Cases.test_rmse).
  - change (In (PrintRMSE Cases.test_rmse) (trace Cases.evaluation)).
    vm_compute. right. right. left. reflexivity.
  - intros [].
Defined.

(** X13, sample: the run with label temperature. *)
Lemma main_success_leaves_model_witness :
  exists l, nth_error (argv (Example.start ["temperature"])) 1 = Some l /\
            is_Some (models (snd (@main Example.plain (Example.start ["temperature"])))
                     !! (modelDir ++ l)%string).
Proof.
  apply (@main_success_leaves_model Example.plain). vm_compute. reflexivity.
Defined.

(** X14, sample: the run when a model for temperature is already stored. *)
Lemma main_loads_existing_model_witness :
  models (snd (@main Example.plain Cases.trained)) = models Cases.trained /\
  exists evs, trace (snd (@main Example.plain Cases.trained))
              = trace Cases.trained ++ evs /\
              (forall c, ~ In (CallFit c) evs) /\
              (forall q, ~ In (CallSave q) evs).
Proof.
  apply (@main_loads_existing_model Example.plain Cases.trained "temperature").
  - reflexivity.
  - eexists. apply lookup_insert_eq.
Defined.
